(** * MedStore: the medication register of the Home Assistant integration

    A shallow embedding of [custom_components/medstore/__init__.py]
    (class [MedStore], its six service handlers, the refill estimator,
    the entity resync and the midnight reset) and of the part of
    [sensor.py] / [med_entity.py] that fills the index-to-entity map.

    The program is dynamically typed: a medication is a Python [dict]
    whose fields may be missing or of any JSON type, and a handler can
    leave through an exception after having mutated part of the store.
    The embedding keeps both: values are an inductive [pyval], builtins
    return in an error monad [res], and handlers run in a state-and-error
    monad [M] over the store, so that the state at the moment an
    exception escapes is the state the caller is left with. *)

From Stdlib Require Import ZArith String Ascii List Lia Bool SpecFloat.
From stdpp Require Import gmap strings list fin_maps sorting pretty.

Set Warnings "-register-all".
#[local] Open Scope Z_scope.

(** ** Python values and exceptions *)

(** The JSON-like universe of service payloads and stored records. The
    services are registered without a schema, so a payload field can be
    of any of these types. A float is an IEEE 754 binary64 number, held
    as a [spec_float]; a string is held as its UTF-8 encoding. *)
Inductive pyval : Type :=
| VNone
| VBool (b : bool)
| VInt (z : Z)
| VFloat (f : spec_float)
| VStr (s : string)
| VList (l : list pyval)
| VDict (d : gmap string pyval).

(** A Python [dict] with string keys: a service payload or a record. *)
Abbreviation dict := (gmap string pyval).

Inductive exn : Type :=
| TypeError | ValueError | KeyError | IndexError | AttributeError | OverflowError.

#[global] Instance exn_eq_dec : EqDecision exn.
Proof. solve_decision. Defined.

(** Result of evaluating an expression: a value or a raised exception. *)
Inductive res (A : Type) : Type :=
| Ok (a : A)
| Raise (e : exn).
Arguments Ok {A} a.
Arguments Raise {A} e.

#[global] Instance res_ret : MRet res := @Ok.
#[global] Instance res_bind : MBind res :=
  λ A B f r, match r with Ok a => f a | Raise e => Raise e end.

(** ** Floats ([float], binary64) *)
Module Float.

Definition prec : Z := 53.
Definition emax : Z := 1024.

(** The float nearest to [m * 2^e], ties to even: what a float literal
    denotes. *)
Definition of_scaled (m e : Z) : spec_float := binary_normalize prec emax m e false.

Definition add : spec_float → spec_float → spec_float := SFadd prec emax.
Definition sub : spec_float → spec_float → spec_float := SFsub prec emax.

(** The conversion of an [int] operand in mixed arithmetic:
    [OverflowError] when the nearest float is out of range. *)
Definition of_int (n : Z) : res spec_float :=
  match of_scaled n 0 with
  | S754_infinity _ => Raise OverflowError
  | f => Ok f
  end.

(** [int(f)]: truncation towards zero; an infinity raises
    [OverflowError] and a NaN [ValueError]. *)
Definition trunc (f : spec_float) : res Z :=
  match f with
  | S754_zero _ => Ok 0
  | S754_infinity _ => Raise OverflowError
  | S754_nan => Raise ValueError
  | S754_finite s m e =>
      let v := if 0 <=? e then Zpos m * 2 ^ e else Zpos m / 2 ^ (- e) in
      Ok (if s then - v else v)
  end.

(** The comparison of a float with an [int], which Python makes on the
    exact values; [None] for a NaN, which is unordered. *)
Definition compare_int (f : spec_float) (n : Z) : option comparison :=
  match f with
  | S754_nan => None
  | S754_zero _ => Some (0 ?= n)
  | S754_infinity s => Some (if s then Lt else Gt)
  | S754_finite s m e =>
      let sm := if s then Zneg m else Zpos m in
      Some (if 0 <=? e then sm * 2 ^ e ?= n else sm ?= n * 2 ^ (- e))
  end.

End Float.

Module Py.

(** [d.get(k, default)] *)
Definition get (d : dict) (k : string) (default : pyval) : pyval :=
  match d !! k with Some v => v | None => default end.

(** [d[k]] *)
Definition getitem (d : dict) (k : string) : res pyval :=
  match d !! k with Some v => Ok v | None => Raise KeyError end.

(** Truth value testing, as in [if v], [v or w], [not v]. *)
Definition truthy (v : pyval) : bool :=
  match v with
  | VNone => false
  | VBool b => b
  | VInt z => negb (z =? 0)
  | VFloat f => match f with S754_zero _ => false | _ => true end
  | VStr s => negb (String.eqb s "")
  | VList l => match l with [] => false | _ => true end
  | VDict d => negb (bool_decide (size d = 0%nat))
  end.

(** [a or b] *)
Definition or_ (a b : pyval) : pyval := if truthy a then a else b.

Definition is_None (v : pyval) : bool :=
  match v with VNone => true | _ => false end.

(** The integer a value stands for in arithmetic and comparisons:
    [int] itself, and [bool] as its subclass. *)
Definition as_int (v : pyval) : option Z :=
  match v with
  | VInt z => Some z
  | VBool b => Some (if b then 1 else 0)
  | _ => None
  end.

(** *** The characters of a [str]

    The code points of a string held as UTF-8. A byte that does not
    start a well-formed sequence stands for a character of its own (at
    [0xDC00] plus the byte), which is neither a blank nor a digit. *)

Definition continuation (a : ascii) : option Z :=
  let n := Z.of_nat (nat_of_ascii a) in
  if (128 <=? n) && (n <? 192) then Some (n - 128) else None.

(** The character that starts with the byte [n], followed by the bytes
    [r], and the number of bytes of [r] that belong to it. *)
Definition decode1 (n : Z) (r : list ascii) : Z * nat :=
  let stray := (56320 + n, 0%nat) in
  if n <? 128 then (n, 0%nat)
  else if n <? 194 then stray
  else if n <? 224 then
    match r with
    | b :: _ =>
        match continuation b with
        | Some x => ((n - 192) * 64 + x, 1%nat)
        | None => stray
        end
    | _ => stray
    end
  else if n <? 240 then
    match r with
    | b :: c :: _ =>
        match continuation b, continuation c with
        | Some x, Some y =>
            let cp := (n - 224) * 4096 + x * 64 + y in
            if (2048 <=? cp) && negb ((55296 <=? cp) && (cp <? 57344))
            then (cp, 2%nat) else stray
        | _, _ => stray
        end
    | _ => stray
    end
  else if n <? 245 then
    match r with
    | b :: c :: d :: _ =>
        match continuation b, continuation c, continuation d with
        | Some x, Some y, Some z =>
            let cp := (n - 240) * 262144 + x * 4096 + y * 64 + z in
            if (65536 <=? cp) && (cp <? 1114112) then (cp, 3%nat) else stray
        | _, _, _ => stray
        end
    | _ => stray
    end
  else stray.

(** [skip] bytes belong to the character before. *)
Fixpoint codepoints (skip : nat) (l : list ascii) : list Z :=
  match l with
  | [] => []
  | a :: r =>
      match skip with
      | S k => codepoints k r
      | O =>
          let '(cp, more) := decode1 (Z.of_nat (nat_of_ascii a)) r in
          cp :: codepoints more r
      end
  end.

Definition chars (s : string) : list Z := codepoints 0 (list_ascii_of_string s).

(** The string of one character. *)
Definition chr (cp : Z) : string :=
  let b (n : Z) : ascii := ascii_of_nat (Z.to_nat n) in
  if cp <? 128 then String (b cp) ""
  else if cp <? 2048 then String (b (192 + cp / 64)) (String (b (128 + cp mod 64)) "")
  else if (56448 <=? cp) && (cp <? 56576) then String (b (cp - 56320)) ""
  else if cp <? 65536 then
    String (b (224 + cp / 4096))
      (String (b (128 + (cp / 64) mod 64)) (String (b (128 + cp mod 64)) ""))
  else
    String (b (240 + cp / 262144))
      (String (b (128 + (cp / 4096) mod 64))
         (String (b (128 + (cp / 64) mod 64)) (String (b (128 + cp mod 64)) ""))).

(** *** [int(str)]

    The characters are first brought to ASCII: a character below 127 is
    kept, a Unicode blank becomes a space and a Unicode decimal digit
    its ASCII digit; any other character makes the literal invalid. The
    tables are those of Unicode 14.0 (CPython 3.11). Then: optional
    ASCII blanks, an optional sign, decimal digits with single
    underscores between them, optional ASCII blanks; and at most 4300
    digits. *)

Definition unicode_space (cp : Z) : bool :=
  ((8192 <=? cp) && (cp <=? 8202))
  || existsb (Z.eqb cp) [133; 160; 5760; 8232; 8233; 8239; 8287; 12288].

(** The code points of the digits zero of the decimal digit ranges. *)
Definition decimal_zeros : list Z :=
  [ 48; 1632; 1776; 1984; 2406; 2534; 2662; 2790; 2918; 3046; 3174; 3302;
    3430; 3558; 3664; 3792; 3872; 4160; 4240; 6112; 6160; 6470; 6608; 6784;
    6800; 6992; 7088; 7232; 7248; 42528; 43216; 43264; 43472; 43504; 43600;
    44016; 65296; 66720; 68912; 69734; 69872; 69942; 70096; 70384; 70736;
    70864; 71248; 71360; 71472; 71904; 72016; 72784; 73040; 73120; 92768;
    92864; 93008; 120782; 120792; 120802; 120812; 120822; 123200; 123632;
    125264; 130032 ].

Definition unicode_decimal (cp : Z) : option Z :=
  (λ zero, cp - zero) <$>
    List.find (λ zero, (zero <=? cp) && (cp <? zero + 10)) decimal_zeros.

Definition to_ascii (cp : Z) : option Z :=
  if cp <? 127 then Some cp
  else if unicode_space cp then Some 32
  else (λ d, 48 + d) <$> unicode_decimal cp.

Definition is_space (c : Z) : bool :=
  ((9 <=? c) && (c <=? 13)) || (c =? 32).

Definition digit_of (c : Z) : option Z :=
  if (48 <=? c) && (c <=? 57) then Some (c - 48) else None.

Fixpoint lstrip (l : list Z) : list Z :=
  match l with
  | a :: r => if is_space a then lstrip r else l
  | [] => []
  end.

Definition strip (l : list Z) : list Z :=
  rev (lstrip (rev (lstrip l))).

(** [prev] tells whether the previous character was a digit: an
    underscore needs a digit on both sides, and the literal must end in
    a digit (so it is not empty). *)
Fixpoint digits (acc : Z) (prev : bool) (l : list Z) : option Z :=
  match l with
  | [] => if prev then Some acc else None
  | a :: r =>
      match digit_of a with
      | Some d => digits (10 * acc + d) true r
      | None =>
          if ((a =? 95) && prev)%bool then digits acc false r else None
      end
  end.

(** [sys.get_int_max_str_digits()], at its default. *)
Definition int_max_str_digits : nat := 4300.

Definition int_of_str (s : string) : option Z :=
  cs ← mapM to_ascii (chars s);
  match strip cs with
  | a :: r =>
      let body := if (a =? 45) || (a =? 43) then r else a :: r in
      if (length (List.filter (λ c, bool_decide (is_Some (digit_of c))) body)
            <=? int_max_str_digits)%nat
      then (λ z, if a =? 45 then - z else z) <$> digits 0 false body
      else None
  | [] => None
  end.

(** [int(v)] *)
Definition int (v : pyval) : res Z :=
  match v with
  | VInt z => Ok z
  | VBool b => Ok (if b then 1 else 0)
  | VFloat f => Float.trunc f
  | VStr s => match int_of_str s with Some z => Ok z | None => Raise ValueError end
  | VNone | VList _ | VDict _ => Raise TypeError
  end.

(** [len(v)] *)
Definition len (v : pyval) : res Z :=
  match v with
  | VStr s => Ok (Z.of_nat (length (chars s)))
  | VList l => Ok (Z.of_nat (length l))
  | VDict d => Ok (Z.of_nat (size d))
  | VNone | VBool _ | VInt _ | VFloat _ => Raise TypeError
  end.

(** [[0] * n] *)
Definition zeros (n : Z) : list pyval := replicate (Z.to_nat n) (VInt 0).

(** *** Arithmetic and comparisons

    [v + n] for an integer [n]: an integer for an [int] or a [bool], a
    float for a float. *)
Definition add_int (v : pyval) (n : Z) : res pyval :=
  match as_int v with
  | Some z => Ok (VInt (z + n))
  | None =>
      match v with
      | VFloat f => g ← Float.of_int n; Ok (VFloat (Float.add f g))
      | _ => Raise TypeError
      end
  end.

(** [a - b] *)
Definition sub (a b : pyval) : res pyval :=
  match as_int a, as_int b with
  | Some x, Some y => Ok (VInt (x - y))
  | Some x, None =>
      match b with
      | VFloat g => f ← Float.of_int x; Ok (VFloat (Float.sub f g))
      | _ => Raise TypeError
      end
  | None, Some y =>
      match a with
      | VFloat f => g ← Float.of_int y; Ok (VFloat (Float.sub f g))
      | _ => Raise TypeError
      end
  | None, None =>
      match a, b with
      | VFloat f, VFloat g => Ok (VFloat (Float.sub f g))
      | _, _ => Raise TypeError
      end
  end.

(** How a value compares with an integer literal [n]: [None] for a NaN,
    for which every comparison is false. *)
Definition compare_int (v : pyval) (n : Z) : res (option comparison) :=
  match as_int v with
  | Some z => Ok (Some (z ?= n))
  | None =>
      match v with
      | VFloat f => Ok (Float.compare_int f n)
      | _ => Raise TypeError
      end
  end.

(** [v > n], [v >= n] and [v < n] *)
Definition gt_int (v : pyval) (n : Z) : res bool :=
  c ← compare_int v n; Ok (match c with Some Gt => true | _ => false end).

Definition ge_int (v : pyval) (n : Z) : res bool :=
  c ← compare_int v n;
  Ok (match c with Some Gt | Some Eq => true | _ => false end).

Definition lt_int (v : pyval) (n : Z) : res bool :=
  c ← compare_int v n; Ok (match c with Some Lt => true | _ => false end).

(** [max(n, v)] and [min(n, v)]: the second argument replaces the first
    only when it is greater, respectively smaller. *)
Definition max_int (n : Z) (v : pyval) : res pyval :=
  b ← gt_int v n; Ok (if b : bool then v else VInt n).

Definition min_int (n : Z) (v : pyval) : res pyval :=
  b ← lt_int v n; Ok (if b : bool then v else VInt n).

(** [v + l] for a list [l]: only a list can be extended by a list. *)
Definition concat_list (v : pyval) (l : list pyval) : res (list pyval) :=
  match v with
  | VList l0 => Ok (l0 ++ l)
  | _ => Raise TypeError
  end.

(** [v[i]] for an integer [0 <= i] *)
Definition index (v : pyval) (i : nat) : res pyval :=
  match v with
  | VList l => match l !! i with Some x => Ok x | None => Raise IndexError end
  | VStr s =>
      match chars s !! i with
      | Some c => Ok (VStr (chr c))
      | None => Raise IndexError
      end
  | VDict _ => Raise KeyError
  | VNone | VBool _ | VInt _ | VFloat _ => Raise TypeError
  end.

(** [v[i] = x] for an integer [0 <= i] *)
Definition setitem (v : pyval) (i : nat) (x : pyval) : res pyval :=
  match v with
  | VList l => if decide (i < length l)%nat then Ok (VList (<[i:=x]> l)) else Raise IndexError
  | _ => Raise TypeError
  end.

(** [all(c >= 1 for c in l)] on a list: the generator stops at the first
    element that is not [>= 1], and an element that cannot be compared
    with an integer raises when it is reached. *)
Fixpoint all_ge1_list (l : list pyval) : res bool :=
  match l with
  | [] => Ok true
  | c :: r =>
      b ← ge_int c 1;
      if b : bool then all_ge1_list r else Ok false
  end.

(** [all(c >= 1 for c in v)]: a string yields its characters and a dict
    its keys, which are strings; the other values are not iterable. *)
Definition all_ge1 (v : pyval) : res bool :=
  match v with
  | VList l => all_ge1_list l
  | VStr s => if String.eqb s "" then Ok true else Raise TypeError
  | VDict d => if bool_decide (size d = 0%nat) then Ok true else Raise TypeError
  | VNone | VBool _ | VInt _ | VFloat _ => Raise TypeError
  end.

End Py.

Arguments Py.add_int : simpl never.
Arguments Py.sub : simpl never.
Arguments Py.compare_int : simpl never.
Arguments Py.gt_int : simpl never.
Arguments Py.ge_int : simpl never.
Arguments Py.lt_int : simpl never.
Arguments Py.max_int : simpl never.
Arguments Py.min_int : simpl never.

(** ** Calendar dates ([datetime] and [timedelta])

    A date is its proleptic Gregorian ordinal (day 1 is 0001-01-01), the
    representation of [datetime.date.toordinal]. *)
Module Date.

Definition MAXORDINAL : Z := 3652059.
Definition MAX_DELTA_DAYS : Z := 999999999.

Definition days_before_month (leap : bool) (m : Z) : Z :=
  match m with
  | 1 => 0 | 2 => 31
  | 3 => 59 | 4 => 90 | 5 => 120 | 6 => 151 | 7 => 181 | 8 => 212
  | 9 => 243 | 10 => 273 | 11 => 304 | _ => 334
  end + (if (leap && (2 <? m))%bool then 1 else 0).

(** Year, month and day of an ordinal, by 400-, 100-, 4- and 1-year
    cycles. *)
Definition ymd (ordinal : Z) : Z * Z * Z :=
  let n := ordinal - 1 in
  let n400 := n / 146097 in
  let n := n mod 146097 in
  let n100 := n / 36524 in
  let n := n mod 36524 in
  let n4 := n / 1461 in
  let n := n mod 1461 in
  let n1 := n / 365 in
  let n := n mod 365 in
  let year := n400 * 400 + 1 + n100 * 100 + n4 * 4 + n1 in
  if (n1 =? 4) || (n100 =? 4) then (year - 1, 12, 31)
  else
    let leap := (n1 =? 3) && (negb (n4 =? 24) || (n100 =? 3)) in
    let month := (n + 50) / 32 in
    let month := if n <? days_before_month leap month then month - 1 else month in
    (year, month, n - days_before_month leap month + 1).

Definition digit (n : Z) : string :=
  String (ascii_of_nat (48 + Z.to_nat (n mod 10))) EmptyString.

Definition two_digits (n : Z) : string := digit (n / 10) +:+ digit n.

(** [strftime("%Y-%m-%d")], as the C library of the host (glibc) gives
    it: the month and the day on two digits, the year without padding
    (the last day of year 999 is "999-12-31"). *)
Definition strftime_ymd (ordinal : Z) : string :=
  let '(y, m, d) := ymd ordinal in
  pretty y +:+ "-" +:+ two_digits m +:+ "-" +:+ two_digits d.

(** [(now + timedelta(days=k)).strftime("%Y-%m-%d")]: the [timedelta]
    constructor and the addition both raise [OverflowError] out of their
    ranges. *)
Definition plus_days_ymd (today k : Z) : res string :=
  if (k <? - MAX_DELTA_DAYS) || (MAX_DELTA_DAYS <? k) then Raise OverflowError
  else if (today + k <? 1) || (MAXORDINAL <? today + k) then Raise OverflowError
  else Ok (strftime_ymd (today + k)).

End Date.

(** ** The store *)

(** A per-medication sensor entity ([MedStoreMedicationEntity]): the
    attributes its constructor sets and the resync rewrites. *)
Record entity : Type := {
  _index : nat;
  _attr_name : string;
  _attr_unique_id : string
}.

(** What a handler does to the host: log lines, [Store.async_save] of the
    data blob, the [medstore_update] dispatcher signal, and
    [entity.async_remove()]. The host's side of these calls is outside
    the integration and is taken to return. *)
Inductive event : Type :=
| Warning (msg : string)
| Saved
| Dispatched
| Removed (idx : nat) (e : entity).

(** The [MedStore] object: [data["meds"]], the index-to-entity map, and
    the trace of host effects so far. *)
Record MedStore : Type := {
  meds : list dict;
  _med_entities : gmap nat entity;
  trace : list event
}.

Definition with_meds (l : list dict) (s : MedStore) : MedStore :=
  {| meds := l; _med_entities := _med_entities s; trace := trace s |}.

Definition with_entities (m : gmap nat entity) (s : MedStore) : MedStore :=
  {| meds := meds s; _med_entities := m; trace := trace s |}.

Definition with_event (ev : event) (s : MedStore) : MedStore :=
  {| meds := meds s; _med_entities := _med_entities s; trace := trace s ++ [ev] |}.

(** [MedStore.__init__] *)
Definition init : MedStore :=
  {| meds := []; _med_entities := ∅; trace := [] |}.

(** ** Code that mutates an object and may raise

    [St S A] is a computation on a mutable object of type [S]: it returns
    the object as it leaves it, and a value or the exception that ended
    it. Mutations made before an exception stay. It is used at two
    levels: on one record (the [med] reference a handler works through)
    and on the whole store. *)
Definition St (S A : Type) : Type := S → S * res A.

#[global] Instance St_ret {S} : MRet (St S) := λ A a s, (s, Ok a).
#[global] Instance St_bind {S} : MBind (St S) :=
  λ A B f m s,
    match m s with
    | (s', Ok a) => f a s'
    | (s', Raise e) => (s', Raise e)
    end.

Definition lift {S A} (r : res A) : St S A := λ s, (s, r).
Definition raise {S A} (e : exn) : St S A := λ s, (s, Raise e).

(** *** On one record *)

(** [med.get(k, default)] *)
Definition med_get (k : string) (default : pyval) : St dict pyval :=
  λ med, (med, Ok (Py.get med k default)).

(** [med[k]] *)
Definition med_item (k : string) : St dict pyval :=
  λ med, (med, Py.getitem med k).

(** [med[k] = v] *)
Definition med_set (k : string) (v : pyval) : St dict unit :=
  λ med, (<[k:=v]> med, Ok ()).

(** *** On the store *)

Definition get_meds : St MedStore (list dict) := λ s, (s, Ok (meds s)).
Definition emit (ev : event) : St MedStore unit := λ s, (with_event ev s, Ok ()).

Definition _LOGGER_warning (msg : string) : St MedStore unit := emit (Warning msg).
Definition async_save : St MedStore unit := emit Saved.
Definition async_dispatcher_send : St MedStore unit := emit Dispatched.

(** Running record code on [meds[i]], the object itself: what the code
    did to it before ending, normally or not, is in the store. *)
Definition on_med {A} (i : nat) (body : St dict A) : St MedStore A :=
  λ s,
    match meds s !! i with
    | Some med =>
        let '(med', r) := body med in
        (with_meds (<[i:=med']> (meds s)) s, r)
    | None => (s, Raise IndexError)
    end.

(** [except (TypeError, ValueError)] *)
Definition caught (e : exn) : bool :=
  match e with TypeError | ValueError => true | _ => false end.

(** [0 <= index < len(meds)] *)
Definition in_range (index : Z) (l : list dict) : bool :=
  (0 <=? index) && (index <? Z.of_nat (length l)).

(** ** The service handlers of [MedStore] *)

Section Services.

(** [DOMAIN] of [const.py]. *)
Variable DOMAIN : string.

(** The local date of [datetime.now()] when the handler runs, as an
    ordinal. *)
Variable today : Z.

(** *** Refill estimator *)

(** [//] is floor division, which is [Z.div] for a positive divisor. *)
Definition _recalc_next_refill_for_entry : St dict unit :=
  doses_available ← med_get "doses_available" (VInt 0);
  doses_available ← lift (Py.int doses_available);
  dose ← med_get "dose" (VInt 1);
  dose_per_time ← lift (Py.int dose);
  doses_per_day ← med_get "doses_per_day" (VInt 1);
  doses_per_day ← lift (Py.int doses_per_day);
  let daily_need := doses_per_day * dose_per_time in
  let days_left := if 0 <? daily_need then doses_available / daily_need else 0 in
  next_refill ← lift (Date.plus_days_ymd today days_left);
  med_set "next_refill" (VStr next_refill).

(** *** add *)

(** The dict display of [add]: its values are evaluated in the order they
    are written, and the default arguments of [.get] before the call. *)
Definition new_med (n_meds : nat) (med_data : dict) : res dict :=
  let name := Py.get med_data "name" (VStr ("Med " +:+ pretty (n_meds + 1)%nat)) in
  let timing := Py.get med_data "timing" (VList []) in
  dose ← Py.int (Py.get med_data "dose" (VInt 1));
  dflt ← (if Py.truthy timing then Py.len timing else Ok 1);
  doses_per_day ← Py.int (Py.get med_data "doses_per_day" (VInt dflt));
  doses_available ← Py.int (Py.get med_data "doses_available" (VInt 0));
  refills_available ← Py.int (Py.get med_data "refills_available" (VInt 0));
  doses_per_refill ← Py.int (Py.get med_data "doses_per_refill" (VInt 0));
  n ← Py.len timing;
  let width := if n =? 0 then 1 else n in
  mret (list_to_map
    [ ("name", name);
      ("strength", Py.get med_data "strength" (VStr ""));
      ("dose", VInt dose);
      ("doses_per_day", VInt doses_per_day);
      ("timing", timing);
      ("doses_available", VInt doses_available);
      ("refills_available", VInt refills_available);
      ("doses_per_refill", VInt doses_per_refill);
      ("next_refill", Py.get med_data "next_refill" (VStr ""));
      ("taken_count_per_dose",
         Py.get med_data "taken_count_per_dose" (VList (Py.zeros width)));
      ("all_taken", Py.get med_data "all_taken" (VBool false));
      ("active", Py.get med_data "active" (VBool true)) ]).

(** [self.data["meds"].append(med)] *)
Definition append_med (med : dict) : St MedStore unit :=
  λ s, (with_meds (meds s ++ [med]) s, Ok ()).

(** A [med_data] that is not a mapping has no [.get]. *)
Definition add (call : dict) : St MedStore unit :=
  match Py.or_ (Py.get call "med_data" VNone) (VDict ∅) with
  | VDict med_data =>
      l ← get_meds;
      med ← lift (new_med (length l) med_data);
      append_med med;;
      on_med (length l) _recalc_next_refill_for_entry;;
      async_save;;
      async_dispatcher_send
  | _ => raise AttributeError
  end.

(** *** Entity resync *)

(** The two [setattr] of the reindex loop. *)
Definition reindexed (new_index : nat) (e : entity) : entity :=
  {| _index := new_index;
     _attr_name := _attr_name e;
     _attr_unique_id := DOMAIN +:+ "_med_" +:+ pretty new_index |}.

(** [sorted(s)] of a set of indices *)
Definition sorted (s : gset nat) : list nat := merge_sort (≤)%nat (elements s).

(** The removal loop: [pop] each index, call [async_remove]. *)
Definition remove_entities (idxs : list nat) (s : MedStore) : MedStore :=
  foldl (λ s idx,
           match _med_entities s !! idx with
           | Some e => with_event (Removed idx e)
                         (with_entities (base.delete idx (_med_entities s)) s)
           | None => s
           end) s idxs.

(** The reindex loop over [enumerate(sorted(keys))]. *)
Definition reindex (ents : gmap nat entity) : gmap nat entity :=
  foldl (λ new_map '(new_index, old_index),
           match ents !! old_index with
           | Some e => <[new_index := reindexed new_index e]> new_map
           | None => new_map
           end) ∅ (imap pair (sorted (dom ents))).

Definition _sync_med_entities : St MedStore unit :=
  λ s,
    let current_indices : gset nat := set_seq 0 (length (meds s)) in
    let existing_indices := dom (_med_entities s) in
    let removed := existing_indices ∖ current_indices in
    let s := remove_entities (reverse (sorted removed)) s in
    let s := with_entities (reindex (_med_entities s)) s in
    async_dispatcher_send s.

(** *** delete *)

(** [meds.pop(index)] *)
Definition pop_med (i : nat) : St MedStore unit :=
  λ s, (with_meds (base.delete i (meds s)) s, Ok ()).

Definition delete (call : dict) : St MedStore unit :=
  let index := Py.get call "index" VNone in
  if Py.is_None index then _LOGGER_warning "delete service called without index"
  else
    match Py.int index with
    | Raise e =>
        if caught e then _LOGGER_warning "delete service invalid index: %s"
        else raise e
    | Ok index =>
        l ← get_meds;
        if (index <? 0) || (Z.of_nat (length l) <=? index) then
          _LOGGER_warning "delete service index out of range: %s"
        else
          pop_med (Z.to_nat index);;
          async_save;;
          _sync_med_entities
    end.

(** *** update *)

(** One element of an iterable of key/value pairs: it must be iterable
    ([TypeError]) and yield two items ([ValueError]), of which the first
    must be hashable ([TypeError]). A string yields its characters and a
    mapping its keys; insertion order is not part of a mapping here, and
    the keys of a two-key mapping are read in the order of
    [map_to_list]. A record here is the part of the Python [dict] that
    strings name: a pair whose key is hashable and not a string adds a
    field that no string names, and is [None] here. *)
Definition pair_of (item : pyval) : res (option (string * pyval)) :=
  let two (l : list pyval) : res (pyval * pyval) :=
    match l with [k; v] => Ok (k, v) | _ => Raise ValueError end in
  kv ← match item with
       | VList l => two l
       | VStr s => two ((λ c, VStr (Py.chr c)) <$> Py.chars s)
       | VDict d => two ((λ kv : string * pyval, VStr kv.1) <$> map_to_list d)
       | VNone | VBool _ | VInt _ | VFloat _ => Raise TypeError
       end;
  match kv.1 with
  | VStr k => Ok (Some (k, kv.2))
  | VList _ | VDict _ => Raise TypeError
  | VNone | VBool _ | VInt _ | VFloat _ => Ok None
  end.

(** The pairs are stored one after the other: those before a bad
    element stay. *)
Fixpoint update_pairs (items : list pyval) : St dict unit :=
  match items with
  | [] => mret ()
  | item :: rest =>
      p ← lift (pair_of item);
      (match p with Some (k, v) => med_set k v | None => mret () end);;
      update_pairs rest
  end.

(** [med.update(updates)]. The payload is a mapping when it is given; of
    the other truthy payloads, a list is read as key/value pairs, a
    string yields characters, which are not pairs, and numbers and
    booleans are not iterable. *)
Definition dict_update (updates : pyval) : St dict unit :=
  match updates with
  | VDict u => λ med, (u ∪ med, Ok ())
  | VList items => update_pairs items
  | VStr _ => λ med, (med, Raise ValueError)
  | VNone | VBool _ | VInt _ | VFloat _ => λ med, (med, Raise TypeError)
  end.

Definition update (call : dict) : St MedStore unit :=
  let index := Py.get call "index" VNone in
  let updates := Py.or_ (Py.get call "updates" VNone) (VDict ∅) in
  if Py.is_None index then _LOGGER_warning "update service called without index"
  else
    match Py.int index with
    | Raise e =>
        if caught e then _LOGGER_warning "update service invalid index: %s"
        else raise e
    | Ok index =>
        l ← get_meds;
        if in_range index l then
          on_med (Z.to_nat index)
            (dict_update updates;; _recalc_next_refill_for_entry);;
          async_save;;
          async_dispatcher_send
        else mret ()
    end.

(** *** toggle_active *)

Definition toggle_active_entry : St dict unit :=
  active ← med_get "active" (VBool true);
  med_set "active" (VBool (negb (Py.truthy active))).

Definition toggle_active (call : dict) : St MedStore unit :=
  let index := Py.get call "index" VNone in
  if Py.is_None index then mret ()
  else
    match Py.int index with
    | Raise e => if caught e then mret () else raise e
    | Ok index =>
        l ← get_meds;
        if in_range index l then
          on_med (Z.to_nat index) toggle_active_entry;;
          async_save;;
          async_dispatcher_send
        else mret ()
    end.

(** *** add_refill *)

Definition add_refill_entry (amount : pyval) : St dict unit :=
  doses_available ← med_get "doses_available" (VInt 0);
  amount ← lift (Py.int amount);
  total ← lift (Py.add_int doses_available amount);
  med_set "doses_available" total;;
  refills ← med_get "refills_available" (VInt 0);
  applicable ← lift (Py.gt_int refills 0);
  (if applicable : bool then
     refills ← med_get "refills_available" (VInt 0);
     less ← lift (Py.add_int refills (-1));
     floor ← lift (Py.max_int 0 less);
     med_set "refills_available" floor
   else mret ());;
  _recalc_next_refill_for_entry.

Definition add_refill (call : dict) : St MedStore unit :=
  let index := Py.get call "index" VNone in
  let amount := Py.get call "amount" (VInt 0) in
  if Py.is_None index then mret ()
  else
    match Py.int index with
    | Raise e => if caught e then mret () else raise e
    | Ok index =>
        l ← get_meds;
        if in_range index l then
          on_med (Z.to_nat index) (add_refill_entry amount);;
          async_save;;
          async_dispatcher_send
        else mret ()
    end.

(** *** take_dose *)

(** The body under [if 0 <= index < len(meds)], on [med = meds[index]].
    It returns whether the dose was recorded, that is whether the save
    and the signal follow.

    The local variable [taken] is bound either to the very list held by
    [med["taken_count_per_dose"]] ([shared = true]: the item assignment
    through [taken] is a write to the record) or to the default list
    built for [.get], which no record holds ([shared = false]: the
    assignment is lost with the local). Padding rebinds [taken] to a new
    list and stores that one in the record. *)
Definition take_dose_entry (dose_index : Z) : St dict bool :=
  timing ← med_get "timing" (VList []);
  n ← lift (Py.len timing);
  stored ← (λ med, (med, Ok (med !! "taken_count_per_dose")));
  let taken := default (VList (Py.zeros n)) stored in
  let shared := bool_decide (is_Some stored) in
  if (0 <=? dose_index) && (dose_index <? n) then
    let d := Z.to_nat dose_index in
    k ← lift (Py.len taken);
    '(taken, shared) ←
      (if k <? n then
         padded ← lift (Py.concat_list taken (Py.zeros (n - k)));
         med_set "taken_count_per_dose" (VList padded);;
         mret (VList padded, true)
       else mret (taken, shared));
    c ← lift (Py.index taken d);
    c1 ← lift (Py.add_int c 1);
    capped ← lift (Py.min_int 99999 c1);
    taken ← lift (Py.setitem taken d capped);
    (if shared : bool then med_set "taken_count_per_dose" taken else mret ());;
    doses_available ← med_get "doses_available" (VInt 0);
    dose ← med_get "dose" (VInt 1);
    left ← lift (Py.sub doses_available dose);
    floor ← lift (Py.max_int 0 left);
    med_set "doses_available" floor;;
    counters ← med_item "taken_count_per_dose";
    all_taken ← lift (Py.all_ge1 counters);
    med_set "all_taken" (VBool all_taken);;
    _recalc_next_refill_for_entry;;
    mret true
  else mret false.

Definition take_dose (call : dict) : St MedStore unit :=
  let index := Py.get call "index" VNone in
  let dose_index := Py.get call "dose_index" VNone in
  if Py.is_None index || Py.is_None dose_index then
    _LOGGER_warning "take_dose requires index and dose_index"
  else
    match (i ← Py.int index; d ← Py.int dose_index; mret (i, d)) with
    | Raise e =>
        if caught e then _LOGGER_warning "take_dose invalid index/dose_index"
        else raise e
    | Ok (index, dose_index) =>
        l ← get_meds;
        if in_range index l then
          recorded ← on_med (Z.to_nat index) (take_dose_entry dose_index);
          if recorded : bool then async_save;; async_dispatcher_send
          else mret ()
        else mret ()
    end.

(** *** Midnight reset *)

(** The loop body; it returns whether the record was reset. *)
Definition reset_entry : St dict bool :=
  active ← med_get "active" (VBool true);
  doses_per_day ← med_get "doses_per_day" (VInt 0);
  cond ← lift (if Py.truthy active then Py.gt_int doses_per_day 0 else Ok false);
  if cond : bool then
    timing ← med_get "timing" (VList []);
    n ← lift (Py.len timing);
    med_set "taken_count_per_dose" (VList (Py.zeros n));;
    med_set "all_taken" (VBool false);;
    mret true
  else mret false.

(** [for med in meds: ...], with the flag [changed]. *)
Fixpoint reset_loop (changed : bool) (l : list dict) : list dict * res bool :=
  match l with
  | [] => ([], Ok changed)
  | med :: rest =>
      match reset_entry med with
      | (med', Ok b) =>
          let '(rest', r) := reset_loop (changed || b) rest in
          (med' :: rest', r)
      | (med', Raise e) => (med' :: rest, Raise e)
      end
  end.

Definition async_midnight_reset : St MedStore unit :=
  changed ← (λ s, let '(l, r) := reset_loop false (meds s) in (with_meds l s, r));
  if changed : bool then async_save;; async_dispatcher_send else mret ().

(** *** Entities at setup ([sensor.async_setup_platform]) *)

Definition MedStoreMedicationEntity (index : nat) : entity :=
  {| _index := index;
     _attr_name := "Medstore med " +:+ pretty index;
     _attr_unique_id := DOMAIN +:+ "_med_" +:+ pretty index |}.

Definition async_setup_platform (s : MedStore) : MedStore :=
  with_entities
    (foldl (λ m i, <[i := MedStoreMedicationEntity i]> m)
           (_med_entities s) (seq 0 (length (meds s)))) s.

End Services.

(** ** The sensor entities ([med_entity.py])

    An entity reads the store through its index each time the host asks
    for its state. *)

Module MedicationEntity.

(** [extra_state_attributes]: [{}] when the index is past the records,
    otherwise [{"index": self._index, **meds[self._index]}], in which a
    field ["index"] of the record itself comes last and wins. *)
Definition extra_state_attributes (e : entity) (s : MedStore) : dict :=
  match meds s !! _index e with
  | Some med => med ∪ {[ "index" := VInt (Z.of_nat (_index e)) ]}
  | None => ∅
  end.

End MedicationEntity.

Module DataSensor.

(** [native_value] of the master sensor: the number of records. *)
Definition native_value (s : MedStore) : Z := Z.of_nat (length (meds s)).

End DataSensor.

(** ** The vocabulary of the statements

    What the theorems below say about the handlers is written with
    these definitions; none of them is used by the handlers. *)

(** *** Invalid indices

    The value is not an infinite float, the one value on which [int]
    raises [OverflowError]. *)
Definition not_infinite (v : pyval) : Prop := ∀ b, v ≠ VFloat (S754_infinity b).

(** The index of a payload that is not the position of a record.

    The three ways the [index] of a payload is not the position of a
    record: missing (or [None]); rejected by [int] with one of the two
    exceptions the handlers catch, [TypeError] (a list, a mapping) or
    [ValueError] (a string that is not an integer literal, a NaN);
    accepted by [int] with a value that is out of range. *)
Inductive invalid_index (call : dict) (l : list dict) : Prop :=
| index_missing :
    Py.get call "index" VNone = VNone → invalid_index call l
| index_not_integer (e : exn) :
    Py.int (Py.get call "index" VNone) = Raise e →
    e = TypeError ∨ e = ValueError → invalid_index call l
| index_out_of_range (i : Z) :
    Py.int (Py.get call "index" VNone) = Ok i →
    ¬ (0 ≤ i < Z.of_nat (length l)) → invalid_index call l.

(** The event is a log line. *)
Definition is_warning (ev : event) : Prop := ∃ msg, ev = Warning msg.

(** The handler returned normally, changed neither the records nor the
    entity map, and at most logged. *)
Definition silent_noop (s : MedStore) (r : MedStore * res unit) : Prop :=
  meds r.1 = meds s ∧ _med_entities r.1 = _med_entities s ∧ r.2 = Ok () ∧
  ∃ w, trace r.1 = trace s ++ w ∧ Forall is_warning w.

(** *** The refill estimate

    The estimate in the words of the specification: the daily need is
    the product of the doses per day and the dose. *)
Definition spec_daily_need (doses_per_day dose : Z) : Z := doses_per_day * dose.

(** The days left in the words of the specification: the truncating
    quotient of the inventory by a positive daily need, and [0] when the
    daily need is not positive. *)
Definition spec_days_left (doses_available doses_per_day dose : Z) : Z :=
  if 0 <? spec_daily_need doses_per_day dose
  then doses_available ÷ spec_daily_need doses_per_day dose
  else 0.

(** *** Records as the handlers read them

    The payload addresses slot [k] of record [i]. *)
Definition addresses (call : dict) (i k : nat) : Prop :=
  Py.int (Py.get call "index" VNone) = Ok (Z.of_nat i) ∧
  Py.int (Py.get call "dose_index" VNone) = Ok (Z.of_nat k).

(** The record [add_refill] leaves: the inventory raised by [amount], one
    refill authorization used when there was one, and the estimate
    renewed. *)
Definition refilled (today : Z) (med : dict) (a r amount dpd d : Z) : dict :=
  let med1 := <["doses_available" := VInt (a + amount)]> med in
  let med2 := if 0 <? r then <["refills_available" := VInt (r - 1)]> med1 else med1 in
  <["next_refill" :=
      VStr (Date.strftime_ymd (today + spec_days_left (a + amount) dpd d))]> med2.

(** What a handler reads of a record with a timing list [t], integer
    counters [c], inventory [a], dose [d] and doses per day [dpd]. *)
Definition tracks (med : dict) (t : list pyval) (c : list Z) (a d dpd : Z) : Prop :=
  med !! "timing" = Some (VList t) ∧
  med !! "taken_count_per_dose" = Some (VList (VInt <$> c)) ∧
  Py.as_int (Py.get med "doses_available" (VInt 0)) = Some a ∧
  Py.as_int (Py.get med "dose" (VInt 1)) = Some d ∧
  Py.int (Py.get med "doses_per_day" (VInt 1)) = Ok dpd.

(** The counters after the zero-padding to the width of [timing]. *)
Definition padded (t : list pyval) (c : list Z) : list Z :=
  c ++ replicate (length t - length c) 0.

(** The counters after a dose is recorded in slot [k]. *)
Definition counted (k : nat) (t : list pyval) (c : list Z) : list Z :=
  <[k := Z.min 99999 (default 0 (padded t c !! k) + 1)]> (padded t c).

(** The record after a dose is recorded in slot [k]. *)
Definition dose_taken
    (today : Z) (k : nat) (t : list pyval) (c : list Z) (a d dpd : Z)
    (med : dict) : dict :=
  <["next_refill" :=
      VStr (Date.strftime_ymd (today + spec_days_left (Z.max 0 (a - d)) dpd d))]>
    (<["all_taken" := VBool (forallb (Z.leb 1) (counted k t c))]>
       (<["doses_available" := VInt (Z.max 0 (a - d))]>
          (<["taken_count_per_dose" := VList (VInt <$> counted k t c)]> med))).

(** A sequence of [take_dose] calls, each on its day; an exception ends
    it. *)
Fixpoint take_doses (calls : list (Z * dict)) : St MedStore unit :=
  match calls with
  | [] => mret ()
  | (today, call) :: rest => take_dose today call;; take_doses rest
  end.

(** A call on day [tc.1] with payload [tc.2] that addresses slot [k] of
    record [i], whose timing list is [t]; the day leaves room in the
    calendar for an inventory of [a] days. *)
Definition valid_take (i : nat) (t : list pyval) (a : Z)
    (tc : Z * dict) (k : nat) : Prop :=
  addresses tc.2 i k ∧ (k < length t)%nat ∧
  1 ≤ tc.1 ∧ tc.1 + a ≤ Date.MAXORDINAL.

(** The inventory [a] after a dose of [d]. *)
Definition decremented (d : Z) (a : Z) : Z := Z.max 0 (a - d).

(** The store of the examples: one record with two timing slots. *)
Definition example_med : dict :=
  list_to_map [("timing", VList [VStr "08:00"; VStr "20:00"]);
               ("taken_count_per_dose", VList [VInt 0; VInt 0]);
               ("doses_available", VInt 3); ("dose", VInt 2);
               ("doses_per_day", VInt 2); ("active", VBool true)].

(** The store that holds this record alone. *)
Definition example_store : MedStore :=
  {| meds := [example_med]; _med_entities := ∅; trace := [] |}.

(** Three [take_dose] calls on it: slot 1 twice on 2026-11-03, the
    second time with strings in the payload, and slot 0 the day after. *)
Definition example_calls : list (Z * dict) :=
  [ (739923, list_to_map [("index", VInt 0); ("dose_index", VInt 1)]);
    (739923, list_to_map [("index", VStr "0"); ("dose_index", VStr "1")]);
    (739924, list_to_map [("index", VInt 0); ("dose_index", VInt 0)]) ].

(** The store after a sequence of [take_dose] calls with any payloads,
    each call ending normally or by an exception. *)
Definition after_calls (calls : list (Z * dict)) (s : MedStore) : MedStore :=
  foldl (λ s tc, (take_dose tc.1 tc.2 s).1) s calls.

(** A property of records that every write of [take_dose] keeps: the
    padding and the item assignment of the counters, the decrement of the
    inventory, and the writes of [all_taken] and [next_refill]. *)
Definition dose_stable (P : dict → Prop) : Prop :=
  (∀ m l n, P m → m !! "taken_count_per_dose" = Some (VList l) →
            P (<["taken_count_per_dose" := VList (l ++ Py.zeros n)]> m)) ∧
  (∀ m l k v, P m → m !! "taken_count_per_dose" = Some (VList l) →
              Py.gt_int v 99999 = Ok false →
              P (<["taken_count_per_dose" := VList (<[k := v]> l)]> m)) ∧
  (∀ m v, P m → Py.lt_int v 0 = Ok false → P (<["doses_available" := v]> m)) ∧
  (∀ m b, P m → P (<["all_taken" := VBool b]> m)) ∧
  (∀ m s, P m → P (<["next_refill" := VStr s]> m)).

(** [doses_available] (0 when missing) is a number, an integer or a
    float, and it is not below zero. *)
Definition inventory_not_negative (med : dict) : Prop :=
  Py.lt_int (Py.get med "doses_available" (VInt 0)) 0 = Ok false.

(** No counter of the list, integer or float, is greater than 99999. *)
Definition counters_capped (med : dict) : Prop :=
  ∀ l, med !! "taken_count_per_dose" = Some (VList l) →
       Forall (λ v, Py.gt_int v 99999 ≠ Ok true) l.

(** The counter of slot [k], when there is one, is at most 99999. *)
Definition capped (c : list Z) (k : nat) : Prop :=
  ∀ v, c !! k = Some v → v ≤ 99999.

(** *** The midnight reset and the width of the counters

    [active == true], as the condition tests it. *)
Definition is_active (med : dict) : bool :=
  Py.truthy (Py.get med "active" (VBool true)).

(** The integer in [doses_per_day], [0] when the field is missing. *)
Definition doses_per_day_of (med : dict) : option Z :=
  Py.as_int (Py.get med "doses_per_day" (VInt 0)).

(** The fields the reset reads have the types of the data model:
    [doses_per_day] is an integer and [timing] a list. *)
Definition reset_typed (med : dict) : Prop :=
  (∃ n, doses_per_day_of med = Some n) ∧
  (∃ t, Py.get med "timing" (VList []) = VList t).

(** The record after it was reset, for a timing list of [n] slots. *)
Definition zeroed (n : nat) (med : dict) : dict :=
  <["all_taken" := VBool false]>
    (<["taken_count_per_dose" := VList (replicate n (VInt 0))]> med).

(** What the sweep makes of a record. *)
Definition swept (med : dict) : dict :=
  match doses_per_day_of med, Py.get med "timing" (VList []) with
  | Some n, VList t =>
      if is_active med && (0 <? n) then zeroed (length t) med else med
  | _, _ => med
  end.

(** [len(taken_count_per_dose) == len(timing)] on a record. *)
Definition counters_match (med : dict) : Prop :=
  ∃ n c, Py.len (Py.get med "timing" (VList [])) = Ok n ∧
         med !! "taken_count_per_dose" = Some c ∧
         Py.len c = Ok n.

(** The counters [add] gives a record when the payload has none: as
    many zeros as [timing] has entries, and one zero when it has none. *)
Definition default_width (t : list pyval) : nat :=
  match t with [] => 1%nat | _ => length t end.

(** *** The entity resync

    What the resync makes of the entity map [m] for [n] records: the
    kept keys [kept], in ascending order, are the keys below [n]; the
    entity at the [j]-th of them is reindexed to [j]; [removed] are the
    [async_remove] calls, one for each entity at a key from [n] on. *)
Definition resynced (DOMAIN : string) (n : nat) (m m' : gmap nat entity)
    (kept : list nat) (removed : list event) : Prop :=
  StronglySorted (<)%nat kept ∧
  (∀ k, k ∈ kept ↔ is_Some (m !! k) ∧ (k < n)%nat) ∧
  (∀ j, m' !! j = (kept !! j) ≫= (λ k, reindexed DOMAIN j <$> m !! k)) ∧
  (∀ j, is_Some (m' !! j) ↔ (j < length kept)%nat) ∧
  (length kept ≤ n)%nat ∧
  ((∀ k, (k < n)%nat → is_Some (m !! k)) → length kept = n) ∧
  (∀ ev, ev ∈ removed ↔ ∃ k e, ev = Removed k e ∧ m !! k = Some e ∧ (n ≤ k)%nat).

(** *** Further vocabulary

    The record [add] appends to [n] records on the day [today] when the
    payload gives no field. *)
Definition default_med (n : nat) (today : Z) : dict :=
  list_to_map
    [ ("name", VStr ("Med " +:+ pretty (n + 1)%nat));
      ("strength", VStr "");
      ("dose", VInt 1);
      ("doses_per_day", VInt 1);
      ("timing", VList []);
      ("doses_available", VInt 0);
      ("refills_available", VInt 0);
      ("doses_per_refill", VInt 0);
      ("next_refill", VStr (Date.strftime_ymd today));
      ("taken_count_per_dose", VList [VInt 0]);
      ("all_taken", VBool false);
      ("active", VBool true) ].

(** How a handler that edits records in place has ended, from the store
    [s]: the entity map and the number of records are as before; if it
    raised, nothing was saved, signalled or logged; if it returned, it
    either saved once and then signalled once, or did no more than log
    warnings. *)
Definition edited_in_place (s : MedStore) (r : MedStore * res unit) : Prop :=
  _med_entities r.1 = _med_entities s ∧
  length (meds r.1) = length (meds s) ∧
  (∀ e, r.2 = Raise e → trace r.1 = trace s) ∧
  (r.2 = Ok () →
     ∃ w, trace r.1 = trace s ++ w ∧ (w = [Saved; Dispatched] ∨ Forall is_warning w)).

(** Between the stores [s] and [s'] the records differ in the fields
    [keys] at most, and in one record at most. *)
Definition writes_only (keys : list string) (s s' : MedStore) : Prop :=
  Forall2 (λ med med' : dict, ∀ k, k ∉ keys → med' !! k = med !! k)
          (meds s) (meds s').

Definition touches_one_record (s s' : MedStore) : Prop :=
  ∃ i : nat, ∀ j, j ≠ i → meds s' !! j = meds s !! j.

(** The fields of a record that [add] builds, and the numeric ones
    among them. *)
Definition med_fields : list string :=
  [ "name"; "strength"; "dose"; "doses_per_day"; "timing"; "doses_available";
    "refills_available"; "doses_per_refill"; "next_refill";
    "taken_count_per_dose"; "all_taken"; "active" ].

Definition numeric_fields : list string :=
  [ "dose"; "doses_per_day"; "doses_available"; "refills_available";
    "doses_per_refill" ].

(** The record [add_refill] has made of [med] when it reaches the
    estimator: the inventory [a] raised by [amount], and one of the [r]
    refills used when there was one. *)
Definition restocked (med : dict) (a r amount : Z) : dict :=
  let med1 := <["doses_available" := VInt (a + amount)]> med in
  if 0 <? r then <["refills_available" := VInt (r - 1)]> med1 else med1.

(** The condition of the midnight sweep on a record: active, and a
    positive integer [doses_per_day]. *)
Definition due (med : dict) : bool :=
  match doses_per_day_of med with
  | Some n => is_active med && (0 <? n)
  | None => false
  end.

(** ** Basic facts about the builtins and the monad *)

(** What [int] raises: [TypeError], [ValueError], and [OverflowError]
    on an infinite float and on nothing else. *)
Lemma int_raises (v : pyval) (e : exn) :
  Py.int v = Raise e →
  e = TypeError ∨ e = ValueError ∨
  (e = OverflowError ∧ ∃ b, v = VFloat (S754_infinity b)).
Proof.
  destruct v as [| | |f|str| |]; simpl;
    try destruct f; try destruct (Py.int_of_str str);
    intros [=]; subst; eauto.
Qed.

Lemma int_raises_caught (v : pyval) (e : exn) :
  Py.int v = Raise e → not_infinite v → caught e = true.
Proof.
  intros He Hv.
  destruct (int_raises v e He) as [->|[->|[_ [b ->]]]]; [done | done |].
  by destruct (Hv b).
Qed.

Lemma caught_spec (e : exn) : e = TypeError ∨ e = ValueError → caught e = true.
Proof. by intros [->| ->]. Qed.

(** Arithmetic and comparisons on integers. *)
Lemma add_int_int (v : pyval) (z n : Z) :
  Py.as_int v = Some z → Py.add_int v n = Ok (VInt (z + n)).
Proof. unfold Py.add_int. by intros ->. Qed.

Lemma sub_int (a b : pyval) (x y : Z) :
  Py.as_int a = Some x → Py.as_int b = Some y → Py.sub a b = Ok (VInt (x - y)).
Proof. unfold Py.sub. by intros -> ->. Qed.

Lemma gt_int_int (v : pyval) (z n : Z) :
  Py.as_int v = Some z → Py.gt_int v n = Ok (n <? z).
Proof.
  unfold Py.gt_int, Py.compare_int. intros ->. simpl. f_equal.
  unfold Z.ltb. rewrite (Z.compare_antisym z n). by destruct (z ?= n).
Qed.

Lemma ge_int_int (v : pyval) (z n : Z) :
  Py.as_int v = Some z → Py.ge_int v n = Ok (n <=? z).
Proof.
  unfold Py.ge_int, Py.compare_int. intros ->. simpl. f_equal.
  unfold Z.leb. rewrite (Z.compare_antisym z n). by destruct (z ?= n).
Qed.

Lemma lt_int_int (v : pyval) (z n : Z) :
  Py.as_int v = Some z → Py.lt_int v n = Ok (z <? n).
Proof. unfold Py.lt_int, Py.compare_int. by intros ->. Qed.

Lemma max_int_int (n z : Z) : Py.max_int n (VInt z) = Ok (VInt (Z.max n z)).
Proof.
  unfold Py.max_int. rewrite (gt_int_int _ z) by done. simpl.
  destruct (n <? z) eqn:E; do 2 f_equal; [apply Z.ltb_lt in E | apply Z.ltb_ge in E]; lia.
Qed.

Lemma min_int_int (n z : Z) : Py.min_int n (VInt z) = Ok (VInt (Z.min n z)).
Proof.
  unfold Py.min_int. rewrite (lt_int_int _ z) by done. simpl.
  destruct (z <? n) eqn:E; do 2 f_equal; [apply Z.ltb_lt in E | apply Z.ltb_ge in E]; lia.
Qed.

(** What [max(n, v)] and [min(n, v)] return is on the side of [n] they
    name, whatever [v] is. *)
Lemma max_int_not_below (n : Z) (v r : pyval) :
  Py.max_int n v = Ok r → Py.lt_int r n = Ok false.
Proof.
  unfold Py.max_int, Py.gt_int, Py.lt_int.
  destruct (Py.compare_int v n) as [c|e] eqn:Hc; simpl; [|done].
  destruct c as [[]|]; intros [= <-]; try by rewrite Hc.
  all: unfold Py.compare_int; simpl; by rewrite Z.compare_refl.
Qed.

Lemma min_int_not_above (n : Z) (v r : pyval) :
  Py.min_int n v = Ok r → Py.gt_int r n = Ok false.
Proof.
  unfold Py.min_int, Py.gt_int, Py.lt_int.
  destruct (Py.compare_int v n) as [c|e] eqn:Hc; simpl; [|done].
  destruct c as [[]|]; intros [= <-]; try by rewrite Hc.
  all: unfold Py.compare_int; simpl; by rewrite Z.compare_refl.
Qed.

Lemma int_None_raises : Py.int VNone = Raise TypeError.
Proof. reflexivity. Qed.

Lemma int_Ok_not_None (v : pyval) (z : Z) : Py.int v = Ok z → Py.is_None v = false.
Proof. by destruct v. Qed.

Lemma in_range_spec (i : Z) (l : list dict) :
  in_range i l = true ↔ 0 ≤ i < Z.of_nat (length l).
Proof. unfold in_range. rewrite andb_true_iff, Z.leb_le, Z.ltb_lt. tauto. Qed.

Lemma in_range_nat (i : nat) (l : list dict) (med : dict) :
  l !! i = Some med → in_range (Z.of_nat i) l = true.
Proof. intros H%lookup_lt_Some. apply in_range_spec. lia. Qed.

(** ** Invalid indices (C4) *)

Lemma silent_noop_refl (s : MedStore) : silent_noop s (s, Ok ()).
Proof.
  repeat split; simpl. exists []. by rewrite app_nil_r.
Qed.

Lemma silent_noop_warning (s : MedStore) (msg : string) :
  silent_noop s (_LOGGER_warning msg s).
Proof.
  repeat split; simpl. exists [Warning msg]. split; [done|].
  constructor; [by exists msg | constructor].
Qed.

Create HintDb noop.
#[local] Hint Resolve silent_noop_refl silent_noop_warning : noop.

Ltac invalid_index_cases H :=
  destruct H as [Hnone | e He Hcaught | i Hi Hrange];
  [ rewrite Hnone; simpl
  | rewrite He;
    destruct (Py.is_None _); simpl; rewrite ?(caught_spec _ Hcaught)
  | rewrite Hi, ?(int_Ok_not_None _ _ Hi); simpl ].

Lemma in_range_false (i : Z) (l : list dict) :
  ¬ (0 ≤ i < Z.of_nat (length l)) → in_range i l = false.
Proof.
  intros H. destruct (in_range i l) eqn:E; [|done].
  by apply in_range_spec in E.
Qed.

(** C4, as amended. For an index that is missing, that [int] rejects
    with [TypeError] or [ValueError], or whose [int] value is out of
    range, each of [delete], [update], [toggle_active], [add_refill] and
    [take_dose] returns normally, leaves the records and the entities
    as they were and does nothing but log warnings; for [take_dose],
    whose [try] block coerces [dose_index] as well, when [dose_index] is
    not an infinite float. An index that [int] accepts is used as
    [int(index)]: a float is truncated and a numeric string parsed. *)
Theorem invalid_index_is_silent_noop
    (DOMAIN : string) (today : Z) (call : dict) (s : MedStore) :
  invalid_index call (meds s) →
  silent_noop s (delete DOMAIN call s) ∧
  silent_noop s (update today call s) ∧
  silent_noop s (toggle_active call s) ∧
  silent_noop s (add_refill today call s) ∧
  (not_infinite (Py.get call "dose_index" VNone) →
   silent_noop s (take_dose today call s)).
Proof.
  intros H. split_and!.
  - unfold delete. invalid_index_cases H; auto with noop.
    unfold mbind, St_bind, get_meds.
    destruct (_ || _) eqn:E; auto with noop.
    apply orb_false_iff in E as [?%Z.ltb_ge ?%Z.leb_gt]. lia.
  - unfold update. invalid_index_cases H; auto with noop.
    unfold mbind, St_bind, get_meds.
    rewrite in_range_false by done. apply silent_noop_refl.
  - unfold toggle_active. invalid_index_cases H; auto with noop;
      try apply silent_noop_refl.
    unfold mbind, St_bind, get_meds.
    rewrite in_range_false by done. apply silent_noop_refl.
  - unfold add_refill. invalid_index_cases H; auto with noop;
      try apply silent_noop_refl.
    unfold mbind, St_bind, get_meds.
    rewrite in_range_false by done. apply silent_noop_refl.
  - intros Hfinite. unfold take_dose. invalid_index_cases H; auto with noop.
    + destruct (Py.is_None _); auto with noop.
    + destruct (Py.int (Py.get call "dose_index" VNone)) as [d|e] eqn:Hd.
      * rewrite (int_Ok_not_None _ _ Hd). simpl.
        unfold mbind at 1, St_bind, get_meds.
        rewrite in_range_false by done. apply silent_noop_refl.
      * destruct (Py.is_None _); simpl; auto with noop.
        rewrite (int_raises_caught _ _ Hd Hfinite). auto with noop.
Qed.

(** A payload whose index is the string "two", on a store of one
    record. *)
Lemma invalid_index_example :
  let call : dict := {[ "index" := VStr "two" ]} in
  let s := {| meds := [∅]; _med_entities := ∅; trace := [] |} in
  invalid_index call (meds s) ∧
  silent_noop s (delete "medstore" call s) ∧
  silent_noop s (update 739923 call s) ∧
  silent_noop s (toggle_active call s) ∧
  silent_noop s (add_refill 739923 call s) ∧
  silent_noop s (take_dose 739923 call s).
Proof.
  intros call s.
  assert (H : invalid_index call (meds s)).
  { apply index_not_integer with ValueError; [reflexivity | by right]. }
  split; [exact H|].
  destruct (invalid_index_is_silent_noop "medstore" 739923 call s H)
    as (H1 & H2 & H3 & H4 & H5).
  split_and!; [exact H1 | exact H2 | exact H3 | exact H4 |].
  apply H5. intros b. discriminate.
Defined.

(** C4, as the claim states it, fails on an index that is not an
    integer: [int] truncates a float, so the index 1.5 (the float
    [3 * 2^-1]) is the position 1, and [toggle_active] changes that
    record, saves and signals. *)
Lemma float_index_is_truncated :
  let call : dict := {[ "index" := VFloat (Float.of_scaled 3 (-1)) ]} in
  let s := {| meds := [∅; ∅]; _med_entities := ∅; trace := [] |} in
  toggle_active call s
  = ({| meds := [∅; {[ "active" := VBool false ]}];
        _med_entities := ∅; trace := [Saved; Dispatched] |}, Ok ()).
Proof. by vm_compute. Qed.

(** ** Reading a record after writes *)

Lemma get_insert_eq (med : dict) (k : string) (v default : pyval) :
  Py.get (<[k:=v]> med) k default = v.
Proof. unfold Py.get. by rewrite lookup_insert_eq. Qed.

Lemma get_insert_ne (med : dict) (k k' : string) (v default : pyval) :
  k ≠ k' → Py.get (<[k:=v]> med) k' default = Py.get med k' default.
Proof. intros. unfold Py.get. by rewrite lookup_insert_ne. Qed.

Lemma get_Some (med : dict) (k : string) (v default : pyval) :
  med !! k = Some v → Py.get med k default = v.
Proof. unfold Py.get. by intros ->. Qed.

(** Writing back the record that is there changes nothing. *)
Lemma with_meds_insert_id (s : MedStore) (i : nat) (med : dict) :
  meds s !! i = Some med → with_meds (<[i:=med]> (meds s)) s = s.
Proof.
  intros H. destruct s as [l m tr]. unfold with_meds. simpl in *.
  by rewrite list_insert_id.
Qed.

(** ** Dates in range *)

Lemma plus_days_in_range (today k : Z) :
  1 ≤ today → 0 ≤ k → today + k ≤ Date.MAXORDINAL →
  Date.plus_days_ymd today k = Ok (Date.strftime_ymd (today + k)).
Proof.
  intros Ht Hk Hmax. unfold Date.plus_days_ymd.
  unfold Date.MAXORDINAL, Date.MAX_DELTA_DAYS in *.
  rewrite (proj2 (Z.ltb_ge k _)) by lia.
  rewrite (proj2 (Z.ltb_ge _ k)) by lia.
  rewrite (proj2 (Z.ltb_ge (today + k) 1)) by lia.
  rewrite (proj2 (Z.ltb_ge _ (today + k))) by lia.
  reflexivity.
Qed.

(** ** The refill estimate (C2) *)

Lemma spec_days_left_floor (a dpd d : Z) :
  0 ≤ a →
  spec_days_left a dpd d = (if 0 <? dpd * d then a / (dpd * d) else 0).
Proof.
  intros Ha. unfold spec_days_left, spec_daily_need.
  destruct (0 <? dpd * d) eqn:E; [|done].
  apply Z.ltb_lt in E. by apply Z.quot_div_nonneg.
Qed.

Lemma spec_days_left_bounds (a dpd d : Z) :
  0 ≤ a → 0 ≤ spec_days_left a dpd d ≤ a.
Proof.
  intros Ha. rewrite spec_days_left_floor by done.
  destruct (0 <? dpd * d) eqn:E; [|lia].
  apply Z.ltb_lt in E. split.
  - apply Z.div_pos; lia.
  - apply Z.div_le_upper_bound; nia.
Qed.

(** The estimator on a record whose three fields coerce to integers and
    whose inventory is not negative. *)
Lemma recalc_ok (today : Z) (med : dict) (a d dpd : Z) :
  Py.int (Py.get med "doses_available" (VInt 0)) = Ok a →
  Py.int (Py.get med "dose" (VInt 1)) = Ok d →
  Py.int (Py.get med "doses_per_day" (VInt 1)) = Ok dpd →
  0 ≤ a → 1 ≤ today → today + a ≤ Date.MAXORDINAL →
  _recalc_next_refill_for_entry today med =
    (<["next_refill" :=
         VStr (Date.strftime_ymd (today + spec_days_left a dpd d))]> med, Ok ()).
Proof.
  intros Ha Hd Hdpd Hpos Ht Hmax.
  unfold _recalc_next_refill_for_entry, mbind, St_bind, med_get, lift, med_set.
  rewrite Ha, Hd, Hdpd. rewrite <- spec_days_left_floor by done.
  pose proof (spec_days_left_bounds a dpd d Hpos).
  rewrite plus_days_in_range by lia. reflexivity.
Qed.

(** C2. For a record whose [doses_available], [dose] and [doses_per_day]
    are integers (or coerce to them) with a non-negative inventory, the
    estimator returns and sets [next_refill] to the ISO date of today
    plus [days_left] days, where [daily_need = doses_per_day * dose] and
    [days_left] is the truncated quotient [doses_available // daily_need]
    when [daily_need > 0] and [0] otherwise; nothing else in the record
    changes. For dose 2, doses_per_day 2 and doses_available 10:
    [daily_need = 4] and [days_left = 2]. *)
Theorem next_refill_is_today_plus_days_left
    (today : Z) (med : dict) (doses_available dose doses_per_day : Z) :
  Py.int (Py.get med "doses_available" (VInt 0)) = Ok doses_available →
  Py.int (Py.get med "dose" (VInt 1)) = Ok dose →
  Py.int (Py.get med "doses_per_day" (VInt 1)) = Ok doses_per_day →
  0 ≤ doses_available →
  1 ≤ today →
  today + spec_days_left doses_available doses_per_day dose ≤ Date.MAXORDINAL →
  _recalc_next_refill_for_entry today med =
    (<["next_refill" :=
         VStr (Date.strftime_ymd
                 (today + spec_days_left doses_available doses_per_day dose))]> med,
     Ok ())
  ∧ spec_daily_need 2 2 = 4
  ∧ spec_days_left 10 2 2 = 2.
Proof.
  intros Ha Hd Hdpd Hpos Ht Hmax. split; [|done].
  unfold _recalc_next_refill_for_entry, mbind, St_bind, med_get, lift, med_set.
  rewrite Ha, Hd, Hdpd. rewrite <- spec_days_left_floor by done.
  pose proof (spec_days_left_bounds doses_available doses_per_day dose Hpos).
  rewrite plus_days_in_range by lia. reflexivity.
Qed.

(** The example of the specification on 2026-11-03 (ordinal 739923). *)
Lemma next_refill_example :
  let med : dict :=
    list_to_map [("dose", VInt 2); ("doses_per_day", VInt 2);
                 ("doses_available", VInt 10)] in
  (Py.int (Py.get med "doses_available" (VInt 0)) = Ok 10 ∧
   Py.int (Py.get med "dose" (VInt 1)) = Ok 2 ∧
   Py.int (Py.get med "doses_per_day" (VInt 1)) = Ok 2 ∧
   0 ≤ 10 ∧ 1 ≤ 739923 ∧ 739923 + spec_days_left 10 2 2 ≤ Date.MAXORDINAL) ∧
  _recalc_next_refill_for_entry 739923 med =
    (<["next_refill" := VStr "2026-11-05"]> med, Ok ()).
Proof.
  intros med.
  assert (H1 : Py.int (Py.get med "doses_available" (VInt 0)) = Ok 10) by reflexivity.
  assert (H2 : Py.int (Py.get med "dose" (VInt 1)) = Ok 2) by reflexivity.
  assert (H3 : Py.int (Py.get med "doses_per_day" (VInt 1)) = Ok 2) by reflexivity.
  assert (H4 : 0 ≤ 10) by lia.
  assert (H5 : 1 ≤ 739923) by lia.
  assert (H6 : 739923 + spec_days_left 10 2 2 ≤ Date.MAXORDINAL) by (vm_compute; discriminate).
  split; [done|].
  exact (proj1 (next_refill_is_today_plus_days_left 739923 med 10 2 2 H1 H2 H3 H4 H5 H6)).
Defined.

(** ** take_dose on a record without counters (C10) *)

Lemma zeros_length (n : nat) : length (Py.zeros (Z.of_nat n)) = n.
Proof. unfold Py.zeros. by rewrite length_replicate, Nat2Z.id. Qed.

Lemma zeros_lookup (n k : nat) :
  (k < n)%nat → Py.zeros (Z.of_nat n) !! k = Some (VInt 0).
Proof. intros. unfold Py.zeros. rewrite Nat2Z.id. by apply lookup_replicate_2. Qed.

Lemma slot_in_range (k n : nat) :
  (k < n)%nat → (0 <=? Z.of_nat k) && (Z.of_nat k <? Z.of_nat n) = true.
Proof. intros. apply andb_true_iff. rewrite Z.leb_le, Z.ltb_lt. lia. Qed.

Lemma take_dose_entry_without_counters
    (today : Z) (med : dict) (t : list pyval) (k : nat) (a d : Z) :
  med !! "taken_count_per_dose" = None →
  med !! "timing" = Some (VList t) →
  (k < length t)%nat →
  Py.as_int (Py.get med "doses_available" (VInt 0)) = Some a →
  Py.as_int (Py.get med "dose" (VInt 1)) = Some d →
  take_dose_entry today (Z.of_nat k) med =
    (<["doses_available" := VInt (Z.max 0 (a - d))]> med, Raise KeyError).
Proof.
  intros Hnone Ht Hk Ha Hd.
  unfold take_dose_entry, mbind, St_bind, med_get, lift, med_set, med_item.
  rewrite (get_Some _ _ _ _ Ht), Hnone. simpl.
  rewrite slot_in_range, zeros_length, Z.ltb_irrefl by done.
  simpl. rewrite !Nat2Z.id, zeros_lookup by done. simpl.
  rewrite zeros_length. destruct (decide (k < length t)%nat); [|done].
  rewrite (sub_int _ _ _ _ Ha Hd). cbv beta iota. rewrite max_int_int. cbv beta iota.
  unfold Py.getitem. rewrite lookup_insert_ne by done. by rewrite Hnone.
Qed.

(** [take_dose] with a payload that addresses a record of the store:
    the body runs on that record, and the save and the signal follow
    when it reports a recorded dose. *)
Lemma take_dose_addressed
    (today : Z) (call : dict) (s : MedStore) (i k : nat) (med : dict) :
  addresses call i k →
  meds s !! i = Some med →
  take_dose today call s =
    match take_dose_entry today (Z.of_nat k) med with
    | (med', Ok true) =>
        (with_event Dispatched
           (with_event Saved (with_meds (<[i:=med']> (meds s)) s)), Ok ())
    | (med', Ok false) => (with_meds (<[i:=med']> (meds s)) s, Ok ())
    | (med', Raise e) => (with_meds (<[i:=med']> (meds s)) s, Raise e)
    end.
Proof.
  intros [Hi Hk] Hmed. unfold take_dose.
  rewrite (int_Ok_not_None _ _ Hi), (int_Ok_not_None _ _ Hk), Hi, Hk. simpl.
  unfold mbind at 1, St_bind, get_meds.
  rewrite (in_range_nat _ _ _ Hmed), Nat2Z.id.
  unfold mbind, St_bind, on_med. rewrite Hmed.
  destruct (take_dose_entry today (Z.of_nat k) med) as [med' [[]|e]]; reflexivity.
Qed.

(** C10. On a record that has no [taken_count_per_dose] key (with a
    timing list, and integers for the inventory and the dose), a
    [take_dose] with a valid index and a valid dose_index ends in
    [KeyError]: the record it leaves still has no counter list (the
    increment went to the default list of [.get]), its
    [doses_available] is already decremented, and neither the save nor
    the update signal happened. *)
Theorem take_dose_without_counters_raises_KeyError
    (today : Z) (call : dict) (s : MedStore) (i k : nat)
    (med : dict) (t : list pyval) (a d : Z) :
  meds s !! i = Some med →
  med !! "taken_count_per_dose" = None →
  med !! "timing" = Some (VList t) →
  addresses call i k →
  (k < length t)%nat →
  Py.as_int (Py.get med "doses_available" (VInt 0)) = Some a →
  Py.as_int (Py.get med "dose" (VInt 1)) = Some d →
  let med' := <["doses_available" := VInt (Z.max 0 (a - d))]> med in
  take_dose today call s = (with_meds (<[i:=med']> (meds s)) s, Raise KeyError)
  ∧ med' !! "taken_count_per_dose" = None.
Proof.
  intros Hmed Hnone Ht Hcall Hk Ha Hd med'. split.
  - rewrite (take_dose_addressed today call s i k med) by done.
    by rewrite (take_dose_entry_without_counters today med t k a d).
  - subst med'. by rewrite lookup_insert_ne.
Qed.

(** A record with two timing slots, 7 doses of which 2 are taken at a
    time, and no counters: the call leaves 5 doses and raises. *)
Lemma take_dose_without_counters_example :
  let med : dict :=
    list_to_map [("timing", VList [VStr "08:00"; VStr "20:00"]);
                 ("dose", VInt 2); ("doses_available", VInt 7)] in
  let s := {| meds := [med]; _med_entities := ∅; trace := [] |} in
  let call : dict := list_to_map [("index", VInt 0); ("dose_index", VInt 1)] in
  take_dose 739923 call s =
    (with_meds [<["doses_available" := VInt 5]> med] s, Raise KeyError).
Proof.
  intros med s call.
  refine (proj1 (take_dose_without_counters_raises_KeyError 739923 call s 0 1 med
                   [VStr "08:00"; VStr "20:00"] 7 2 _ _ _ _ _ _ _)).
  - reflexivity.
  - reflexivity.
  - reflexivity.
  - split; reflexivity.
  - simpl. lia.
  - reflexivity.
  - reflexivity.
Defined.

(** ** add_refill (C7) *)

Lemma as_int_int (v : pyval) (z : Z) : Py.as_int v = Some z → Py.int v = Ok z.
Proof. destruct v; simpl; congruence. Qed.

Lemma add_refill_entry_ok
    (today : Z) (med : dict) (v : pyval) (a r amount dpd d : Z) :
  Py.int v = Ok amount →
  Py.as_int (Py.get med "doses_available" (VInt 0)) = Some a →
  Py.as_int (Py.get med "refills_available" (VInt 0)) = Some r →
  Py.int (Py.get med "dose" (VInt 1)) = Ok d →
  Py.int (Py.get med "doses_per_day" (VInt 1)) = Ok dpd →
  0 ≤ a + amount → 1 ≤ today → today + (a + amount) ≤ Date.MAXORDINAL →
  add_refill_entry today v med = (refilled today med a r amount dpd d, Ok ()).
Proof.
  intros Hv Ha Hr Hd Hdpd Hpos Ht Hmax.
  unfold add_refill_entry, refilled.
  unfold mbind, St_bind, med_get, lift, med_set, mret, St_ret.
  rewrite Hv, (add_int_int _ _ _ Ha). cbv beta iota.
  rewrite get_insert_ne by done. rewrite (gt_int_int _ _ _ Hr). cbv beta iota.
  destruct (0 <? r) eqn:E.
  - cbv beta iota. rewrite get_insert_ne by done.
    rewrite (add_int_int _ _ _ Hr). cbv beta iota. rewrite max_int_int. cbv beta iota.
    apply Z.ltb_lt in E. replace (0 `max` (r + -1)) with (r - 1) by lia.
    apply recalc_ok; rewrite ?get_insert_ne, ?get_insert_eq by done; auto.
  - apply recalc_ok; rewrite ?get_insert_ne, ?get_insert_eq by done; auto.
Qed.

Lemma add_refill_addressed
    (today : Z) (call : dict) (s : MedStore) (i : nat) (med : dict) :
  Py.int (Py.get call "index" VNone) = Ok (Z.of_nat i) →
  meds s !! i = Some med →
  add_refill today call s =
    match add_refill_entry today (Py.get call "amount" (VInt 0)) med with
    | (med', Ok _) =>
        (with_event Dispatched
           (with_event Saved (with_meds (<[i:=med']> (meds s)) s)), Ok ())
    | (med', Raise e) => (with_meds (<[i:=med']> (meds s)) s, Raise e)
    end.
Proof.
  intros Hi Hmed. unfold add_refill.
  rewrite (int_Ok_not_None _ _ Hi), Hi.
  unfold mbind at 1, St_bind, get_meds.
  rewrite (in_range_nat _ _ _ Hmed), Nat2Z.id.
  unfold mbind, St_bind, on_med. rewrite Hmed.
  destruct (add_refill_entry _ _ med) as [med' [[]|e]]; reflexivity.
Qed.

(** C7. For a valid index, a coercible amount and a record with integer
    inventory and refill count (and fields the estimator can read),
    [add_refill] returns normally, saves and signals; the record has
    [doses_available] raised by the amount, [refills_available] lowered
    by exactly one when it was positive (so never below zero) and
    untouched otherwise, a renewed [next_refill] and every other field
    as before; every other record is unchanged. *)
Theorem add_refill_adds_amount_and_uses_one_refill
    (today : Z) (call : dict) (s : MedStore) (i : nat) (med : dict)
    (a r amount dpd d : Z) :
  meds s !! i = Some med →
  Py.int (Py.get call "index" VNone) = Ok (Z.of_nat i) →
  Py.int (Py.get call "amount" (VInt 0)) = Ok amount →
  Py.as_int (Py.get med "doses_available" (VInt 0)) = Some a →
  Py.as_int (Py.get med "refills_available" (VInt 0)) = Some r →
  Py.int (Py.get med "dose" (VInt 1)) = Ok d →
  Py.int (Py.get med "doses_per_day" (VInt 1)) = Ok dpd →
  0 ≤ a + amount → 1 ≤ today → today + (a + amount) ≤ Date.MAXORDINAL →
  ∃ med',
    add_refill today call s =
      (with_event Dispatched
         (with_event Saved (with_meds (<[i:=med']> (meds s)) s)), Ok ()) ∧
    med' !! "doses_available" = Some (VInt (a + amount)) ∧
    med' !! "refills_available" =
      (if 0 <? r then Some (VInt (r - 1)) else med !! "refills_available") ∧
    (0 < r → 0 ≤ r - 1) ∧
    (∀ key, key ∉ ["doses_available"; "refills_available"; "next_refill"] →
            med' !! key = med !! key) ∧
    (∀ j, j ≠ i → <[i:=med']> (meds s) !! j = meds s !! j).
Proof.
  intros Hmed Hi Hv Ha Hr Hd Hdpd Hpos Ht Hmax.
  exists (refilled today med a r amount dpd d). split_and!.
  - rewrite (add_refill_addressed today call s i med) by done.
    by rewrite (add_refill_entry_ok today med _ a r amount dpd d).
  - unfold refilled. rewrite lookup_insert_ne by done.
    destruct (0 <? r); by simplify_map_eq.
  - unfold refilled. rewrite lookup_insert_ne by done.
    destruct (0 <? r); by simplify_map_eq.
  - lia.
  - intros key Hkey. unfold refilled.
    assert (key ≠ "doses_available" ∧ key ≠ "refills_available"
            ∧ key ≠ "next_refill") as (?&?&?).
    { split_and!; intros ->; apply Hkey; set_solver. }
    destruct (0 <? r); by simplify_map_eq.
  - intros j Hj. by rewrite list_lookup_insert_ne.
Qed.

(** The example of the specification: amount 5 on a record with 3 doses
    and 1 refill gives 8 doses and no refill. *)
Lemma add_refill_example :
  let med : dict :=
    list_to_map [("doses_available", VInt 3); ("refills_available", VInt 1)] in
  let s := {| meds := [med]; _med_entities := ∅; trace := [] |} in
  let call : dict := list_to_map [("index", VInt 0); ("amount", VInt 5)] in
  ∃ med',
    add_refill 739923 call s =
      (with_event Dispatched
         (with_event Saved (with_meds (<[0%nat:=med']> (meds s)) s)), Ok ()) ∧
    med' !! "doses_available" = Some (VInt 8) ∧
    med' !! "refills_available" = Some (VInt 0).
Proof.
  intros med s call.
  destruct (add_refill_adds_amount_and_uses_one_refill
              739923 call s 0 med 3 1 5 1 1) as (med' & H1 & H2 & H3 & _);
    [reflexivity | reflexivity | reflexivity | reflexivity | reflexivity
    | reflexivity | reflexivity | lia | lia | vm_compute; discriminate |].
  exists med'. split_and!; [exact H1 | exact H2 | exact H3].
Defined.

(** ** What every take_dose keeps

    However a [take_dose] ends and whatever its payload and the record
    hold, the record it leaves is the one it found changed by some of
    the writes of [dose_stable]. *)

Lemma dict_lookup_insert (m : dict) (k : string) (v : pyval) :
  <[k:=v]> m !! k = Some v.
Proof. apply lookup_insert_eq. Qed.

Lemma recalc_preserves (P : dict → Prop) (today : Z) (med : dict) :
  P med →
  (∀ m s, P m → P (<["next_refill" := VStr s]> m)) →
  P (_recalc_next_refill_for_entry today med).1.
Proof.
  intros HP Hnext.
  unfold _recalc_next_refill_for_entry, mbind, St_bind, med_get, lift, med_set.
  repeat case_match; simplify_eq/=; auto.
Qed.

Ltac after_recalc :=
  repeat match goal with
         | H : _recalc_next_refill_for_entry ?t ?X = (?s', _) |- _ =>
             assert (s' = (_recalc_next_refill_for_entry t X).1) as ->
               by (by rewrite H);
             clear H; apply recalc_preserves; [|done]
         end.

Lemma take_dose_entry_preserves (P : dict → Prop) (today d : Z) (med : dict) :
  dose_stable P → P med → P (take_dose_entry today d med).1.
Proof.
  intros (Hpad & Hset & Hda & Hall & Hnext) HP.
  unfold take_dose_entry, mbind, St_bind, med_get, lift, med_set, med_item, mret, St_ret.
  destruct (Py.len (Py.get med "timing" (VList []))) as [n|e]; simpl; [|done].
  destruct ((0 <=? d) && (d <? n)) eqn:Hd; simpl; [|done].
  destruct (med !! "taken_count_per_dose") as [v|] eqn:Hst; simpl.
  - destruct v as [| | |f|str|l|dct]; simpl; try done.
    all: repeat (case_match; simplify_eq/=); try done.
    all: after_recalc.
    all: eauto 10 using dict_lookup_insert, min_int_not_above, max_int_not_below.
  - apply andb_true_iff in Hd as [Hd0%Z.leb_le Hdn%Z.ltb_lt].
    assert (Hz : Z.of_nat (length (Py.zeros n)) = n).
    { unfold Py.zeros. rewrite length_replicate. lia. }
    rewrite Hz, Z.ltb_irrefl.
    repeat (case_match; simplify_eq/=); try done.
    all: after_recalc.
    all: eauto 10 using dict_lookup_insert, min_int_not_above, max_int_not_below.
Qed.

Lemma take_dose_preserves
    (P : dict → Prop) (today : Z) (call : dict) (s : MedStore) :
  dose_stable P →
  Forall P (meds s) → Forall P (meds (take_dose today call s).1).
Proof.
  intros Hstable HP. unfold take_dose.
  destruct (Py.is_None _ || Py.is_None _); [done|].
  destruct (_ ≫= _) as [[i d]|e]; [|by destruct (caught e)].
  unfold mbind at 1, St_bind, get_meds.
  destruct (in_range i (meds s)) eqn:Hi; [|done].
  apply in_range_spec in Hi.
  destruct (lookup_lt_is_Some_2 (meds s) (Z.to_nat i)) as [med Hmed]; [lia|].
  unfold mbind, St_bind, on_med. rewrite Hmed.
  pose proof (take_dose_entry_preserves P today d med Hstable
                (Forall_lookup_1 _ _ _ _ HP Hmed)) as HP'.
  destruct (take_dose_entry today d med) as [med' [[]|e]]; simpl in *;
    by apply Forall_insert.
Qed.

Lemma after_calls_preserves
    (P : dict → Prop) (calls : list (Z * dict)) (s : MedStore) :
  dose_stable P →
  Forall P (meds s) → Forall P (meds (after_calls calls s)).
Proof.
  intros Hstable. revert s.
  induction calls as [|[today call] calls IH]; intros s HP; [done|].
  apply IH. by apply take_dose_preserves.
Qed.

Lemma inventory_not_negative_stable : dose_stable inventory_not_negative.
Proof.
  unfold dose_stable, inventory_not_negative. split_and!.
  - intros m l n Ha _. by rewrite get_insert_ne.
  - intros m l k v Ha _ _. by rewrite get_insert_ne.
  - intros m v _ Hv. by rewrite get_insert_eq.
  - intros m b Ha. by rewrite get_insert_ne.
  - intros m str Ha. by rewrite get_insert_ne.
Qed.

Lemma counters_capped_stable : dose_stable counters_capped.
Proof.
  unfold dose_stable, counters_capped. split_and!.
  - intros m l n Hm Hl l'. rewrite lookup_insert_eq. intros [= <-].
    apply Forall_app. split; [by apply Hm|].
    unfold Py.zeros. apply Forall_replicate. by rewrite (gt_int_int _ 0).
  - intros m l k v Hm Hl Hv l'. rewrite lookup_insert_eq. intros [= <-].
    apply Forall_insert; [by apply Hm|]. by rewrite Hv.
  - intros m v Hm _ l. rewrite lookup_insert_ne by done. apply Hm.
  - intros m b Hm l. rewrite lookup_insert_ne by done. apply Hm.
  - intros m str Hm l. rewrite lookup_insert_ne by done. apply Hm.
Qed.

(** ** take_dose on a record with counters (C5, C6) *)

Lemma padded_length (t : list pyval) (c : list Z) :
  length (padded t c) = (length c `max` length t)%nat.
Proof. unfold padded. rewrite length_app, length_replicate. lia. Qed.

Lemma counted_length (k : nat) (t : list pyval) (c : list Z) :
  length (counted k t c) = (length c `max` length t)%nat.
Proof. unfold counted. by rewrite length_insert, padded_length. Qed.

Lemma all_ge1_list_ints (l : list Z) :
  Py.all_ge1_list (VInt <$> l) = Ok (forallb (Z.leb 1) l).
Proof.
  induction l as [|x l IH]; [done|]. simpl.
  unfold Z.leb. rewrite (Z.compare_antisym x 1).
  destruct (x ?= 1); simpl; [exact IH | done | exact IH].
Qed.

(** The concatenation of the padding branch builds [padded]. *)
Lemma concat_zeros_padded (t : list pyval) (c : list Z) :
  (VInt <$> c) ++ Py.zeros (Z.of_nat (length t) - Z.of_nat (length (VInt <$> c)))
  = VInt <$> padded t c.
Proof.
  unfold padded, Py.zeros. rewrite fmap_app, fmap_replicate, length_fmap.
  do 2 f_equal. lia.
Qed.

Lemma padded_id (t : list pyval) (c : list Z) :
  (length t ≤ length c)%nat → padded t c = c.
Proof.
  intros H. unfold padded.
  replace (length t - length c)%nat with 0%nat by lia. apply app_nil_r.
Qed.

Lemma tracks_dose_taken
    (today : Z) (k : nat) (t : list pyval) (c : list Z) (a d dpd : Z) (med : dict) :
  tracks med t c a d dpd →
  tracks (dose_taken today k t c a d dpd med) t (counted k t c) (Z.max 0 (a - d)) d dpd.
Proof.
  intros (Ht & Hc & Ha & Hd & Hdpd). unfold dose_taken, tracks. split_and!.
  - by rewrite !lookup_insert_ne by done.
  - rewrite !lookup_insert_ne by done. by rewrite lookup_insert_eq.
  - by rewrite !get_insert_ne, get_insert_eq by done.
  - by rewrite !get_insert_ne by done.
  - by rewrite !get_insert_ne by done.
Qed.

(** The body of [take_dose] on such a record, for a slot of its timing
    list: it records the dose and returns. *)
Lemma take_dose_entry_ok
    (today : Z) (med : dict) (t : list pyval) (c : list Z) (a d dpd : Z) (k : nat) :
  tracks med t c a d dpd →
  (k < length t)%nat →
  0 ≤ a → 0 ≤ d → 1 ≤ today → today + a ≤ Date.MAXORDINAL →
  take_dose_entry today (Z.of_nat k) med = (dose_taken today k t c a d dpd med, Ok true).
Proof.
  intros (Ht & Hc & Ha & Hd & Hdpd) Hk Hpos Hdose Htoday Hmax.
  assert (Hlen : (k < length (padded t c))%nat) by (rewrite padded_length; lia).
  destruct (padded t c !! k) as [ck|] eqn:Hck;
    [|apply lookup_ge_None in Hck; lia].
  assert (Hrecalc : ∀ med0 : dict,
    Py.get med0 "dose" (VInt 1) = Py.get med "dose" (VInt 1) →
    Py.get med0 "doses_per_day" (VInt 1) = Py.get med "doses_per_day" (VInt 1) →
    Py.get med0 "doses_available" (VInt 0) = VInt (Z.max 0 (a - d)) →
    _recalc_next_refill_for_entry today med0 =
      (<["next_refill" :=
          VStr (Date.strftime_ymd
                  (today + spec_days_left (Z.max 0 (a - d)) dpd d))]> med0, Ok ())).
  { intros med0 E1 E2 E3. apply recalc_ok; rewrite ?E1, ?E2, ?E3; auto using as_int_int.
    all: lia. }
  assert (Hpad : (VInt <$> c) ++ Py.zeros (Z.of_nat (length t) - Z.of_nat (length c))
                 = VInt <$> padded t c).
  { rewrite <- (length_fmap VInt c) at 1. apply concat_zeros_padded. }
  unfold take_dose_entry, dose_taken, counted.
  unfold mbind, St_bind, med_get, lift, med_set, med_item, mret, St_ret.
  rewrite (get_Some _ _ _ _ Ht), Hc. simpl.
  rewrite slot_in_range by done. rewrite Nat2Z.id, length_fmap, Hck. simpl.
  destruct (Z.of_nat (length c) <? Z.of_nat (length t)) eqn:E.
  - rewrite !Hpad. unfold Py.index. rewrite list_lookup_fmap, Hck.
    cbn [fmap option_fmap option_map]. cbv beta iota.
    rewrite (add_int_int _ ck) by done. cbv beta iota.
    rewrite min_int_int. cbv beta iota. simpl.
    rewrite length_fmap. destruct (decide (k < length (padded t c))%nat); [|lia].
    rewrite !get_insert_ne by done. rewrite (sub_int _ _ _ _ Ha Hd). cbv beta iota.
    rewrite max_int_int. cbv beta iota.
    unfold Py.getitem.
    rewrite lookup_insert_ne, lookup_insert_eq by done.
    simpl Py.all_ge1. rewrite <- list_fmap_insert, all_ge1_list_ints.
    rewrite Hrecalc; [| by rewrite !get_insert_ne by done ..
                     | by rewrite get_insert_ne, get_insert_eq by done].
    by rewrite insert_insert_eq.
  - apply Z.ltb_ge in E.
    assert (Hid : padded t c = c) by (apply padded_id; lia).
    rewrite Hid in *.
    unfold Py.index. rewrite list_lookup_fmap, Hck.
    cbn [fmap option_fmap option_map]. cbv beta iota.
    rewrite (add_int_int _ ck) by done. cbv beta iota.
    rewrite min_int_int. cbv beta iota. simpl.
    rewrite length_fmap. destruct (decide (k < length c)%nat); [|lia].
    rewrite !get_insert_ne by done. rewrite (sub_int _ _ _ _ Ha Hd). cbv beta iota.
    rewrite max_int_int. cbv beta iota.
    unfold Py.getitem.
    rewrite lookup_insert_ne, lookup_insert_eq by done.
    simpl Py.all_ge1. rewrite <- list_fmap_insert, all_ge1_list_ints.
    rewrite Hrecalc; [| by rewrite !get_insert_ne by done ..
                     | by rewrite get_insert_ne, get_insert_eq by done].
    done.
Qed.

Lemma take_dose_ok
    (today : Z) (call : dict) (s : MedStore) (i k : nat) (med : dict)
    (t : list pyval) (c : list Z) (a d dpd : Z) :
  meds s !! i = Some med →
  tracks med t c a d dpd →
  0 ≤ a → 0 ≤ d →
  valid_take i t a (today, call) k →
  take_dose today call s =
    (with_event Dispatched
       (with_event Saved
          (with_meds (<[i:=dose_taken today k t c a d dpd med]> (meds s)) s)),
     Ok ()).
Proof.
  intros Hmed Htr Ha Hd (Hcall & Hk & Htoday & Hmax). simpl in *.
  rewrite (take_dose_addressed today call s i k med) by done.
  by rewrite (take_dose_entry_ok today med t c a d dpd k).
Qed.

Lemma take_doses_ok
    (i : nat) (t : list pyval) (d dpd : Z) (calls : list (Z * dict)) (ks : list nat) :
  0 ≤ d →
  ∀ (s : MedStore) (med : dict) (c : list Z) (a : Z),
    Forall2 (valid_take i t a) calls ks →
    meds s !! i = Some med →
    tracks med t c a d dpd →
    0 ≤ a →
    ∃ s' med',
      take_doses calls s = (s', Ok ()) ∧
      meds s' !! i = Some med' ∧
      tracks med' t (foldl (λ c k, counted k t c) c ks)
                    (foldl (λ a _, decremented d a) a ks) d dpd.
Proof.
  intros Hd. revert ks.
  induction calls as [|[today call] calls IH]; intros ks s med c a Hall Hmed Htr Ha.
  - apply Forall2_nil_inv_l in Hall as ->. by exists s, med.
  - apply Forall2_cons_inv_l in Hall as (k & ks' & Hv & Hall & ->).
    simpl. unfold mbind, St_bind.
    rewrite (take_dose_ok today call s i k med t c a d dpd) by done.
    set (s1 := with_event _ _).
    destruct (IH ks' s1 (dose_taken today k t c a d dpd med) (counted k t c)
                 (decremented d a)) as (s' & med' & Hrun & Hmed' & Htr').
    + eapply Forall2_impl; [exact Hall|].
      intros [today' call'] k' (?&?&?&?). split_and!; auto.
      simpl in *. unfold decremented. lia.
    + subst s1. simpl. apply list_lookup_insert_eq. by eapply lookup_lt_Some.
    + by apply tracks_dose_taken.
    + unfold decremented. lia.
    + exists s', med'. by rewrite Hrun.
Qed.

Lemma decremented_nonneg (d a : Z) (ks : list nat) :
  0 ≤ a → 0 ≤ foldl (λ a _, decremented d a) a ks.
Proof.
  revert a. induction ks as [|k ks IH]; intros a Ha; simpl; [done|].
  apply IH. unfold decremented. lia.
Qed.

(** C5. [take_dose] never drives [doses_available] below zero. In any
    store whose records have a non-negative inventory, integer or float,
    they still have one after any number of [take_dose] calls, whatever
    the payloads and however each call ends. And on a record with a timing list, integer
    counters and a non-negative integer inventory and dose, every
    sequence of calls with a valid index and valid dose indices returns
    normally call after call, each call turning the inventory [a] into
    [max(0, a - dose)]. *)
Theorem take_dose_never_drives_inventory_negative :
  (∀ (calls : list (Z * dict)) (s : MedStore),
     Forall inventory_not_negative (meds s) →
     Forall inventory_not_negative (meds (after_calls calls s))) ∧
  (∀ (i : nat) (t : list pyval) (d dpd : Z) (calls : list (Z * dict))
     (ks : list nat) (s : MedStore) (med : dict) (c : list Z) (a : Z),
     meds s !! i = Some med →
     tracks med t c a d dpd →
     0 ≤ a → 0 ≤ d →
     Forall2 (valid_take i t a) calls ks →
     ∃ s' med' a',
       take_doses calls s = (s', Ok ()) ∧
       meds s' !! i = Some med' ∧
       Py.as_int (Py.get med' "doses_available" (VInt 0)) = Some a' ∧
       a' = foldl (λ a _, decremented d a) a ks ∧
       0 ≤ a').
Proof.
  split.
  - intros calls s. apply after_calls_preserves, inventory_not_negative_stable.
  - intros i t d dpd calls ks s med c a Hmed Htr Ha Hd Hall.
    destruct (take_doses_ok i t d dpd calls ks Hd s med c a Hall Hmed Htr Ha)
      as (s' & med' & Hrun & Hmed' & (_ & _ & Ha' & _)).
    exists s', med', (foldl (λ a _, decremented d a) a ks).
    split_and!; auto using decremented_nonneg.
Qed.

(** Three doses from an inventory of 3 with dose 2: 1, then 0, then 0. *)
Lemma take_dose_three_times_example :
  (∃ s' med' a',
     take_doses example_calls example_store = (s', Ok ()) ∧
     meds s' !! 0%nat = Some med' ∧
     Py.as_int (Py.get med' "doses_available" (VInt 0)) = Some a' ∧
     a' = 0 ∧ 0 ≤ a') ∧
  Forall inventory_not_negative (meds (after_calls example_calls example_store)).
Proof.
  split.
  - destruct (proj2 take_dose_never_drives_inventory_negative
                0%nat [VStr "08:00"; VStr "20:00"] 2 2 example_calls [1; 1; 0]%nat
                example_store example_med [0; 0] 3)
      as (s' & med' & a' & H1 & H2 & H3 & H4 & H5);
      [ reflexivity
      | repeat split; reflexivity
      | lia
      | lia
      | repeat constructor; simpl; solve [lia | reflexivity | by vm_compute]
      | ].
    exists s', med', a'.
    split_and!; [exact H1 | exact H2 | exact H3 | exact H4 | exact H5].
  - apply (proj1 take_dose_never_drives_inventory_negative example_calls example_store).
    repeat constructor.
Defined.

(** *** The cap of the counters *)

Lemma padded_lookup (t : list pyval) (c : list Z) (k : nat) (v : Z) :
  padded t c !! k = Some v → c !! k = Some v ∨ v = 0.
Proof.
  unfold padded. intros [H|[_ H]]%lookup_app_Some; [by left|].
  apply lookup_replicate in H as [-> _]. by right.
Qed.

Lemma counted_capped_same (t : list pyval) (c : list Z) (k : nat) :
  capped (counted k t c) k.
Proof.
  intros v. unfold counted.
  destruct (decide (k < length (padded t c))%nat) as [Hlt|Hge].
  - rewrite list_lookup_insert_eq by done. intros [= <-]. lia.
  - rewrite list_insert_ge by lia.
    intros H%lookup_lt_Some. lia.
Qed.

Lemma counted_capped_other (t : list pyval) (c : list Z) (k k' : nat) :
  capped c k → capped (counted k' t c) k.
Proof.
  intros Hc. destruct (decide (k = k')) as [->|Hne].
  - apply counted_capped_same.
  - intros v. unfold counted. rewrite list_lookup_insert_ne by done.
    intros [H| ->]%padded_lookup; [by apply Hc | lia].
Qed.

Lemma counted_all_capped (t : list pyval) (c : list Z) (ks : list nat) (k : nat) :
  capped c k ∨ k ∈ ks → capped (foldl (λ c k, counted k t c) c ks) k.
Proof.
  revert c. induction ks as [|k' ks IH]; intros c H; simpl.
  - destruct H as [H|H]; [done | by apply not_elem_of_nil in H].
  - apply IH. destruct H as [H|H].
    + left. by apply counted_capped_other.
    + apply elem_of_cons in H as [->|H]; [left; apply counted_capped_same | by right].
Qed.

(** C6. No counter exceeds 99999 by [take_dose]. In any store whose
    counters, integer or float, are at most 99999, they still are after
    any number of [take_dose] calls, whatever the payloads and however each call
    ends. And on a record with a timing list and integer counters, after
    any sequence of calls with a valid index and valid dose indices the
    stored counters are those obtained by setting, call after call, the
    slot of the call to [min(99999, old + 1)]; the counter of every slot
    that was called is at most 99999, whatever it was before, and so is
    every counter that was at most 99999 before. *)
Theorem take_dose_counter_never_exceeds_cap :
  (∀ (calls : list (Z * dict)) (s : MedStore),
     Forall counters_capped (meds s) →
     Forall counters_capped (meds (after_calls calls s))) ∧
  (∀ (i : nat) (t : list pyval) (d dpd : Z) (calls : list (Z * dict))
     (ks : list nat) (s : MedStore) (med : dict) (c : list Z) (a : Z),
     meds s !! i = Some med →
     tracks med t c a d dpd →
     0 ≤ a → 0 ≤ d →
     Forall2 (valid_take i t a) calls ks →
     ∃ s' med' c',
       take_doses calls s = (s', Ok ()) ∧
       meds s' !! i = Some med' ∧
       med' !! "taken_count_per_dose" = Some (VList (VInt <$> c')) ∧
       c' = foldl (λ c k, counted k t c) c ks ∧
       (∀ k, k ∈ ks → capped c' k) ∧
       (∀ k, capped c k → capped c' k)).
Proof.
  split.
  - intros calls s. apply after_calls_preserves, counters_capped_stable.
  - intros i t d dpd calls ks s med c a Hmed Htr Ha Hd Hall.
    destruct (take_doses_ok i t d dpd calls ks Hd s med c a Hall Hmed Htr Ha)
      as (s' & med' & Hrun & Hmed' & (_ & Hc' & _)).
    exists s', med', (foldl (λ c k, counted k t c) c ks).
    split_and!; auto using counted_all_capped.
Qed.

(** Three calls, two of them on slot 1: the counters are [1; 2]. *)
Lemma take_dose_counters_example :
  (∃ s' med' c',
     take_doses example_calls example_store = (s', Ok ()) ∧
     meds s' !! 0%nat = Some med' ∧
     med' !! "taken_count_per_dose" = Some (VList (VInt <$> c')) ∧
     c' = [1; 2] ∧
     (∀ k, k ∈ [1; 1; 0]%nat → capped c' k)) ∧
  Forall counters_capped (meds (after_calls example_calls example_store)).
Proof.
  split.
  - destruct (proj2 take_dose_counter_never_exceeds_cap
                0%nat [VStr "08:00"; VStr "20:00"] 2 2 example_calls [1; 1; 0]%nat
                example_store example_med [0; 0] 3)
      as (s' & med' & c' & H1 & H2 & H3 & H4 & H5 & _);
      [ reflexivity
      | repeat split; reflexivity
      | lia
      | lia
      | repeat constructor; simpl; solve [lia | reflexivity | by vm_compute]
      | ].
    exists s', med', c'.
    split_and!; [exact H1 | exact H2 | exact H3 | exact H4 | exact H5].
  - apply (proj1 take_dose_counter_never_exceeds_cap example_calls example_store).
    repeat constructor. intros l [= <-].
    repeat constructor; by vm_compute.
Defined.

(** ** The midnight reset (C8) *)

Lemma reset_entry_typed (med : dict) :
  reset_typed med →
  ∃ b, reset_entry med = (swept med, Ok b).
Proof.
  intros [[n Hn] [t Ht]].
  unfold reset_entry, swept, is_active, doses_per_day_of in *.
  unfold mbind, St_bind, med_get, lift, med_set, mret, St_ret.
  rewrite (gt_int_int _ _ _ Hn), !Hn.
  destruct (Py.truthy _); simpl; [|rewrite Ht; by eexists].
  destruct (0 <? n); simpl; rewrite Ht; [|by eexists].
  simpl. unfold Py.zeros. rewrite Nat2Z.id. by eexists.
Qed.

Lemma reset_loop_typed (l : list dict) (changed : bool) :
  Forall reset_typed l →
  ∃ b, reset_loop changed l = (swept <$> l, Ok b).
Proof.
  intros H. revert changed. induction H as [|med l Hmed _ IH]; intros changed.
  - by eexists.
  - simpl. destruct (reset_entry_typed med Hmed) as [b ->].
    destruct (IH (changed || b)) as [b' ->]. by eexists.
Qed.

Lemma async_midnight_reset_typed (s : MedStore) :
  Forall reset_typed (meds s) →
  (async_midnight_reset s).2 = Ok () ∧
  meds (async_midnight_reset s).1 = swept <$> meds s ∧
  _med_entities (async_midnight_reset s).1 = _med_entities s.
Proof.
  intros H. unfold async_midnight_reset, mbind, St_bind.
  destruct (reset_loop_typed (meds s) false H) as [b ->].
  by destruct b.
Qed.

(** C8. On a store whose records have an integer [doses_per_day] and a
    list [timing], the midnight reset returns normally; every record
    that is active with [doses_per_day > 0] then has a
    [taken_count_per_dose] of as many zeros as its [timing] has entries
    and [all_taken] false, with every other field as before; every
    record that is inactive or has [doses_per_day <= 0] is the record
    it was. *)
Theorem midnight_reset_zeroes_active_records (s : MedStore) :
  Forall reset_typed (meds s) →
  let s' := (async_midnight_reset s).1 in
  (async_midnight_reset s).2 = Ok () ∧
  length (meds s') = length (meds s) ∧
  ∀ (j : nat) (med : dict) (n : Z) (t : list pyval),
    meds s !! j = Some med →
    doses_per_day_of med = Some n →
    Py.get med "timing" (VList []) = VList t →
    (is_active med = true → 0 < n →
       ∃ med', meds s' !! j = Some med' ∧
         med' !! "taken_count_per_dose" = Some (VList (replicate (length t) (VInt 0))) ∧
         med' !! "all_taken" = Some (VBool false) ∧
         ∀ key, key ∉ ["taken_count_per_dose"; "all_taken"] → med' !! key = med !! key) ∧
    (is_active med = false ∨ n ≤ 0 → meds s' !! j = Some med).
Proof.
  intros H s'.
  destruct (async_midnight_reset_typed s H) as (Hret & Hmeds & _).
  subst s'. rewrite Hmeds. split_and!; [done | by rewrite length_fmap |].
  intros j med n t Hj Hn Ht.
  rewrite list_lookup_fmap, Hj. simpl. unfold swept. rewrite Hn, Ht. split.
  - intros -> Hpos. rewrite (proj2 (Z.ltb_lt 0 n)) by done. simpl.
    eexists. split; [done|]. unfold zeroed. split_and!.
    + by rewrite lookup_insert_ne, lookup_insert_eq.
    + by rewrite lookup_insert_eq.
    + intros key Hkey.
      assert (key ≠ "taken_count_per_dose" ∧ key ≠ "all_taken") as [? ?].
      { split; intros ->; apply Hkey; set_solver. }
      by rewrite !lookup_insert_ne.
  - intros [-> | Hle]; [done|].
    rewrite (proj2 (Z.ltb_ge 0 n)) by done. by rewrite andb_false_r.
Qed.

(** A store with an active record, an inactive one and one with no
    doses per day. *)
Lemma midnight_reset_example :
  let taken : dict :=
    <["taken_count_per_dose" := VList [VInt 1; VInt 3]]>
      (<["all_taken" := VBool true]> example_med) in
  let s := {| meds := [taken; <["active" := VBool false]> taken;
                       <["doses_per_day" := VInt 0]> taken];
              _med_entities := ∅; trace := [] |} in
  Forall reset_typed (meds s) ∧
  async_midnight_reset s =
    ({| meds := [<["taken_count_per_dose" := VList [VInt 0; VInt 0]]>
                   (<["all_taken" := VBool false]> example_med);
                 <["active" := VBool false]> taken;
                 <["doses_per_day" := VInt 0]> taken];
        _med_entities := ∅; trace := [Saved; Dispatched] |}, Ok ()) ∧
  (async_midnight_reset s).2 = Ok ().
Proof.
  intros taken s.
  assert (H : Forall reset_typed (meds s)).
  { repeat constructor; by eexists. }
  split; [exact H|]. split; [reflexivity|].
  exact (proj1 (midnight_reset_zeroes_active_records s H)).
Defined.

(** ** The width of the counters (C3) *)

(** The estimator writes [next_refill] and nothing else, however it
    ends. *)
Lemma recalc_other_keys (today : Z) (med : dict) (key : string) :
  key ≠ "next_refill" →
  (_recalc_next_refill_for_entry today med).1 !! key = med !! key.
Proof.
  intros Hkey.
  unfold _recalc_next_refill_for_entry, mbind, St_bind, med_get, lift, med_set.
  destruct (Py.int (Py.get med "doses_available" (VInt 0))); [|done].
  destruct (Py.int (Py.get med "dose" (VInt 1))); [|done].
  destruct (Py.int (Py.get med "doses_per_day" (VInt 1))); [|done].
  destruct (Date.plus_days_ymd _ _); [|done].
  simpl. by rewrite lookup_insert_ne.
Qed.

(** *** add *)

Lemma new_med_counters (n : nat) (med_data med : dict) (t : list pyval) :
  new_med n med_data = Ok med →
  med_data !! "taken_count_per_dose" = None →
  Py.get med_data "timing" (VList []) = VList t →
  med !! "timing" = Some (VList t) ∧
  med !! "taken_count_per_dose" = Some (VList (replicate (default_width t) (VInt 0))).
Proof.
  intros Hnew Hnone Ht. unfold new_med in Hnew.
  rewrite Ht in Hnew. unfold mbind, res_bind, mret, res_ret in Hnew.
  simpl Py.len in Hnew.
  repeat match type of Hnew with
         | match ?x with _ => _ end = _ => destruct x; [|discriminate]
         end.
  injection Hnew as <-. unfold Py.get. rewrite Hnone.
  repeat (rewrite lookup_insert_ne by done). rewrite !lookup_insert_eq.
  split; [done|]. do 2 f_equal.
  destruct t as [|x t]; [done|].
  rewrite (proj2 (Z.eqb_neq _ 0)) by (simpl; lia).
  unfold Py.zeros. by rewrite Nat2Z.id.
Qed.

Lemma add_returns (today : Z) (call : dict) (s : MedStore) (med_data : dict) :
  Py.or_ (Py.get call "med_data" VNone) (VDict ∅) = VDict med_data →
  (add today call s).2 = Ok () →
  ∃ med, new_med (length (meds s)) med_data = Ok med ∧
         meds (add today call s).1 =
           meds s ++ [(_recalc_next_refill_for_entry today med).1].
Proof.
  intros Hdata. unfold add. rewrite Hdata.
  unfold mbind, St_bind, get_meds, lift, append_med, on_med.
  destruct (new_med (length (meds s)) med_data) as [med|e]; [|done].
  intros Hret. exists med. split; [done|]. simpl in *.
  rewrite list_lookup_middle in * by done.
  destruct (_recalc_next_refill_for_entry today med) as [med' [[]|e]]; simpl in *.
  - by rewrite insert_app_r_alt, Nat.sub_diag by done.
  - done.
Qed.

(** *** take_dose *)

(** However the body of [take_dose] ends, on a record with a timing list
    and a counter list and for a slot of the timing list, the timing list
    is untouched and the counter list has the length of the longer of
    the two. *)
Lemma take_dose_entry_widths
    (today : Z) (med : dict) (t c : list pyval) (k : nat) :
  med !! "timing" = Some (VList t) →
  med !! "taken_count_per_dose" = Some (VList c) →
  (k < length t)%nat →
  let med' := (take_dose_entry today (Z.of_nat k) med).1 in
  med' !! "timing" = Some (VList t) ∧
  ∃ c', med' !! "taken_count_per_dose" = Some (VList c') ∧
        length c' = (length c `max` length t)%nat.
Proof.
  intros Ht Hc Hk.
  (* the steps after the item assignment keep both fields *)
  assert (Htail : ∀ (med2 : dict) (c2 : list pyval) (r : res bool),
    med2 !! "timing" = Some (VList t) →
    med2 !! "taken_count_per_dose" = Some (VList c2) →
    length c2 = (length c `max` length t)%nat →
    ∀ med3 : dict,
      (med3 = med2 ∨
       (∃ v, med3 = <["doses_available" := v]> med2) ∨
       (∃ v w, med3 = <["all_taken" := w]> (<["doses_available" := v]> med2)) ∨
       (∃ v w, med3 = (_recalc_next_refill_for_entry today
                         (<["all_taken" := w]> (<["doses_available" := v]> med2))).1)) →
      med3 !! "timing" = Some (VList t) ∧
      ∃ c', med3 !! "taken_count_per_dose" = Some (VList c') ∧
            length c' = (length c `max` length t)%nat).
  { intros med2 c2 _ H1 H2 H3 med3 [->|[[v ->]|[(v & w & ->)|(v & w & ->)]]];
      rewrite ?recalc_other_keys by done;
      rewrite ?lookup_insert_ne by done; eauto. }
  unfold take_dose_entry.
  unfold mbind, St_bind, med_get, lift, med_set, med_item, mret, St_ret.
  rewrite (get_Some _ _ _ _ Ht), Hc. simpl.
  rewrite slot_in_range by done. rewrite Nat2Z.id.
  destruct (Z.of_nat (length c) <? Z.of_nat (length t)) eqn:E.
  - apply Z.ltb_lt in E.
    set (p := c ++ Py.zeros (Z.of_nat (length t) - Z.of_nat (length c))).
    assert (Hp : length p = (length c `max` length t)%nat).
    { subst p. unfold Py.zeros. rewrite length_app, length_replicate. lia. }
    set (med1 := <["taken_count_per_dose" := VList p]> med).
    assert (Ht1 : med1 !! "timing" = Some (VList t))
      by (subst med1; by rewrite lookup_insert_ne).
    destruct (p !! k) as [x|] eqn:Hx;
      [|apply lookup_ge_None in Hx; lia].
    simpl. rewrite Hx.
    destruct (Py.add_int x 1) as [c1|e]; simpl.
    2:{ split; [done|]. exists p. subst med1. by rewrite lookup_insert_eq. }
    destruct (Py.min_int 99999 c1) as [c2|e]; simpl.
    2:{ split; [done|]. exists p. subst med1. by rewrite lookup_insert_eq. }
    destruct (decide (k < length p)%nat); [|lia].
    set (med2 := <["taken_count_per_dose" := _]> med1).
    assert (Ht2 : med2 !! "timing" = Some (VList t))
      by (subst med2; by rewrite lookup_insert_ne).
    assert (Hc2 : med2 !! "taken_count_per_dose"
                  = Some (VList (<[k:=c2]> p)))
      by (subst med2; by rewrite lookup_insert_eq).
    assert (Hl2 : length (<[k:=c2]> p)
                  = (length c `max` length t)%nat) by by rewrite length_insert.
    destruct (Py.sub _ _) as [left|e]; simpl;
      [|eapply (Htail _ _ (Ok true)); eauto].
    destruct (Py.max_int 0 left) as [fl|e]; simpl;
      [|eapply (Htail _ _ (Ok true)); eauto].
    unfold Py.getitem. rewrite lookup_insert_ne, Hc2 by done.
    destruct (Py.all_ge1 _) as [b|e]; simpl;
      [|eapply (Htail _ _ (Ok true)); eauto].
    destruct (_recalc_next_refill_for_entry today _) as [med3 r] eqn:Hrec.
    assert (med3 = (_recalc_next_refill_for_entry today
        (<["all_taken":=VBool b]> (<["doses_available":=fl]> med2))).1)
      as -> by by rewrite Hrec.
    destruct r; simpl; eapply (Htail _ _ (Ok true)); eauto 10.
  - apply Z.ltb_ge in E.
    destruct (c !! k) as [x|] eqn:Hx;
      [|apply lookup_ge_None in Hx; lia].
    simpl. rewrite Hx.
    destruct (Py.add_int x 1) as [c1|e]; simpl.
    2:{ split; [done|]. exists c. split; [done|lia]. }
    destruct (Py.min_int 99999 c1) as [c2|e]; simpl.
    2:{ split; [done|]. exists c. split; [done|lia]. }
    destruct (decide (k < length c)%nat); [|lia].
    set (med2 := <["taken_count_per_dose" := _]> med).
    assert (Ht2 : med2 !! "timing" = Some (VList t))
      by (subst med2; by rewrite lookup_insert_ne).
    assert (Hc2 : med2 !! "taken_count_per_dose"
                  = Some (VList (<[k:=c2]> c)))
      by (subst med2; by rewrite lookup_insert_eq).
    assert (Hl2 : length (<[k:=c2]> c)
                  = (length c `max` length t)%nat) by (rewrite length_insert; lia).
    destruct (Py.sub _ _) as [left|e]; simpl;
      [|eapply (Htail _ _ (Ok true)); eauto].
    destruct (Py.max_int 0 left) as [fl|e]; simpl;
      [|eapply (Htail _ _ (Ok true)); eauto].
    unfold Py.getitem. rewrite lookup_insert_ne, Hc2 by done.
    destruct (Py.all_ge1 _) as [b|e]; simpl;
      [|eapply (Htail _ _ (Ok true)); eauto].
    destruct (_recalc_next_refill_for_entry today _) as [med3 r] eqn:Hrec.
    assert (med3 = (_recalc_next_refill_for_entry today
        (<["all_taken":=VBool b]> (<["doses_available":=fl]> med2))).1)
      as -> by by rewrite Hrec.
    destruct r; simpl; eapply (Htail _ _ (Ok true)); eauto 10.
Qed.

Lemma take_dose_leaves (today : Z) (call : dict) (s : MedStore) (i k : nat) (med : dict) :
  addresses call i k →
  meds s !! i = Some med →
  meds (take_dose today call s).1 !! i
    = Some (take_dose_entry today (Z.of_nat k) med).1.
Proof.
  intros Hcall Hmed. rewrite (take_dose_addressed today call s i k med) by done.
  pose proof (lookup_lt_Some _ _ _ Hmed).
  destruct (take_dose_entry today (Z.of_nat k) med) as [med' [[]|e]]; simpl;
    by apply list_lookup_insert_eq.
Qed.

Lemma zeroed_counters_match (med : dict) (t : list pyval) :
  Py.get med "timing" (VList []) = VList t →
  counters_match (zeroed (length t) med).
Proof.
  intros Ht. exists (Z.of_nat (length t)), (VList (replicate (length t) (VInt 0))).
  unfold zeroed. split_and!.
  - by rewrite !get_insert_ne, Ht by done.
  - by rewrite lookup_insert_ne, lookup_insert_eq.
  - simpl. by rewrite length_replicate.
Qed.

(** C3, as the code has it. The width of the counters equals the width
    of [timing] after [add] with a non-empty timing list and no counters
    in the payload (with an empty timing list the record gets the single
    counter [[0]]); after a [take_dose] with a valid index and dose_index
    whenever the stored counters were not longer than [timing] (shorter
    ones are zero-padded, longer ones are kept: the length becomes the
    larger of the two); and after the midnight reset for every record it
    resets. *)
Theorem counters_width_after_add_take_dose_reset :
  (∀ (today : Z) (call : dict) (s : MedStore) (med_data : dict) (t : list pyval),
     Py.or_ (Py.get call "med_data" VNone) (VDict ∅) = VDict med_data →
     med_data !! "taken_count_per_dose" = None →
     Py.get med_data "timing" (VList []) = VList t →
     (add today call s).2 = Ok () →
     ∃ med',
       meds (add today call s).1 = meds s ++ [med'] ∧
       med' !! "timing" = Some (VList t) ∧
       med' !! "taken_count_per_dose"
         = Some (VList (replicate (default_width t) (VInt 0))) ∧
       (t ≠ [] → counters_match med')) ∧
  (∀ (today : Z) (call : dict) (s : MedStore) (i k : nat) (med : dict)
     (t c : list pyval),
     meds s !! i = Some med →
     med !! "timing" = Some (VList t) →
     med !! "taken_count_per_dose" = Some (VList c) →
     addresses call i k →
     (k < length t)%nat →
     ∃ med' c',
       meds (take_dose today call s).1 !! i = Some med' ∧
       med' !! "timing" = Some (VList t) ∧
       med' !! "taken_count_per_dose" = Some (VList c') ∧
       length c' = (length c `max` length t)%nat ∧
       ((length c ≤ length t)%nat → counters_match med')) ∧
  (∀ (s : MedStore) (j : nat) (med : dict) (n : Z),
     Forall reset_typed (meds s) →
     meds s !! j = Some med →
     is_active med = true →
     doses_per_day_of med = Some n →
     0 < n →
     ∃ med',
       meds (async_midnight_reset s).1 !! j = Some med' ∧
       counters_match med').
Proof.
  split_and!.
  - intros today call s med_data t Hdata Hnone Ht Hret.
    destruct (add_returns today call s med_data Hdata Hret) as (med & Hnew & Hmeds).
    destruct (new_med_counters _ _ _ t Hnew Hnone Ht) as [Htim Hcnt].
    eexists. split; [exact Hmeds|].
    rewrite !recalc_other_keys by done. split_and!; [done..|].
    intros Hne. exists (Z.of_nat (length t)), (VList (replicate (default_width t) (VInt 0))).
    unfold Py.get. rewrite !recalc_other_keys, Htim by done. split_and!; [done..|].
    simpl. rewrite length_replicate. by destruct t.
  - intros today call s i k med t c Hmed Ht Hc Hcall Hk.
    destruct (take_dose_entry_widths today med t c k Ht Hc Hk) as (Ht' & c' & Hc' & Hlen).
    exists (take_dose_entry today (Z.of_nat k) med).1, c'.
    split_and!; [by apply take_dose_leaves | done.. |].
    intros Hle. exists (Z.of_nat (length t)), (VList c').
    unfold Py.get. rewrite Ht'. split_and!; [done..|].
    simpl. do 2 f_equal. lia.
  - intros s j med n Htyped Hmed Hact Hn Hpos.
    destruct (async_midnight_reset_typed s Htyped) as (_ & -> & _).
    rewrite list_lookup_fmap, Hmed. simpl. eexists. split; [done|].
    destruct (Forall_lookup_1 _ _ _ _ Htyped Hmed) as [_ [t Ht]].
    unfold swept. rewrite Hn, Ht, Hact, (proj2 (Z.ltb_lt 0 n)) by done.
    by apply zeroed_counters_match.
Qed.

(** [add] with two timing entries and no counters in the payload. *)
Lemma counters_width_add_example :
  let med_data : dict := {[ "timing" := VList [VStr "08:00"; VStr "20:00"] ]} in
  let call : dict := {[ "med_data" := VDict med_data ]} in
  ∃ med',
    meds (add 739923 call init).1 = meds init ++ [med'] ∧
    med' !! "timing" = Some (VList [VStr "08:00"; VStr "20:00"]) ∧
    med' !! "taken_count_per_dose" = Some (VList [VInt 0; VInt 0]) ∧
    counters_match med'.
Proof.
  intros med_data call.
  destruct (proj1 counters_width_after_add_take_dose_reset
              739923 call init med_data [VStr "08:00"; VStr "20:00"])
    as (med' & H1 & H2 & H3 & H4);
    [reflexivity | reflexivity | reflexivity | reflexivity |].
  exists med'. split_and!; [exact H1 | exact H2 | exact H3 | apply H4; discriminate].
Defined.

(** C3 fails for a record added with an empty timing list: [add] gives it
    the one counter [[0]] for a timing list of length 0. It also fails
    after an [update] that replaces [timing]: the merge is shallow and
    the counters stay as they were. *)
Lemma counters_width_fails_after_add_and_update :
  (∃ med,
     add 739923 {[ "med_data" := VDict {[ "timing" := VList [] ]} ]} init
       = ({| meds := [med]; _med_entities := ∅; trace := [Saved; Dispatched] |},
          Ok ()) ∧
     med !! "timing" = Some (VList []) ∧
     med !! "taken_count_per_dose" = Some (VList [VInt 0]) ∧
     ¬ counters_match med) ∧
  (∃ med,
     update 739923
       (list_to_map
          [("index", VInt 0);
           ("updates", VDict {[ "timing" := VList [VStr "a"; VStr "b"; VStr "c"] ]})])
       example_store
       = ({| meds := [med]; _med_entities := ∅; trace := [Saved; Dispatched] |},
          Ok ()) ∧
     med !! "timing" = Some (VList [VStr "a"; VStr "b"; VStr "c"]) ∧
     med !! "taken_count_per_dose" = Some (VList [VInt 0; VInt 0]) ∧
     ¬ counters_match med).
Proof.
  split.
  - eexists. split; [reflexivity|].
    split; [reflexivity|]. split; [reflexivity|].
    intros (n & c & Hn & Hc & Hlen).
    vm_compute in Hn. vm_compute in Hc.
    injection Hn as <-. injection Hc as <-. discriminate Hlen.
  - eexists. split; [reflexivity|].
    split; [reflexivity|]. split; [reflexivity|].
    intros (n & c & Hn & Hc & Hlen).
    vm_compute in Hn. vm_compute in Hc.
    injection Hn as <-. injection Hc as <-. discriminate Hlen.
Qed.

(** ** The entity resync (C9) *)

Section Resync.

Variable DOMAIN : string.

(** *** Sorting a set of indices *)

Lemma sorted_elem_of (X : gset nat) (k : nat) : k ∈ sorted X ↔ k ∈ X.
Proof. unfold sorted. rewrite merge_sort_Permutation. apply elem_of_elements. Qed.

Lemma sorted_NoDup (X : gset nat) : NoDup (sorted X).
Proof. unfold sorted. rewrite merge_sort_Permutation. apply NoDup_elements. Qed.

Lemma le_sorted_NoDup_lt (l : list nat) :
  StronglySorted (≤)%nat l → NoDup l → StronglySorted (<)%nat l.
Proof.
  induction 1 as [|x l Hl IH Hx]; intros Hnd; [constructor|].
  apply NoDup_cons in Hnd as [Hnotin Hnd]. constructor; [by apply IH|].
  apply Forall_forall. intros y Hy.
  pose proof (proj1 (Forall_forall _ _) Hx y Hy).
  assert (x ≠ y) by (intros ->; done). lia.
Qed.

Lemma sorted_ascending (X : gset nat) : StronglySorted (<)%nat (sorted X).
Proof.
  apply le_sorted_NoDup_lt; [|apply sorted_NoDup].
  unfold sorted. apply StronglySorted_merge_sort; apply _.
Qed.

(** *** The removal loop *)

Lemma remove_entities_cons (idx : nat) (rest : list nat) (s : MedStore) :
  remove_entities (idx :: rest) s
  = remove_entities rest
      (match _med_entities s !! idx with
       | Some e => with_event (Removed idx e)
                     (with_entities (base.delete idx (_med_entities s)) s)
       | None => s
       end).
Proof. reflexivity. Qed.

Lemma remove_entities_spec (idxs : list nat) :
  ∀ s : MedStore,
    NoDup idxs →
    meds (remove_entities idxs s) = meds s ∧
    (∀ k, _med_entities (remove_entities idxs s) !! k
          = if decide (k ∈ idxs) then None else _med_entities s !! k) ∧
    trace (remove_entities idxs s)
      = trace s ++ omap (λ k, Removed k <$> _med_entities s !! k) idxs.
Proof.
  induction idxs as [|idx rest IH]; intros s Hnd.
  - simpl. split_and!; [done | done | by rewrite app_nil_r].
  - apply NoDup_cons in Hnd as [Hnotin Hnd].
    rewrite remove_entities_cons.
    set (s1 := match _med_entities s !! idx with
               | Some e => with_event (Removed idx e)
                             (with_entities (base.delete idx (_med_entities s)) s)
               | None => s
               end).
    assert (Hm1 : ∀ k, _med_entities s1 !! k
                       = if decide (k = idx) then None else _med_entities s !! k).
    { intros k. subst s1. destruct (_med_entities s !! idx) eqn:E; simpl.
      - rewrite lookup_delete. destruct (decide (idx = k)), (decide (k = idx));
          congruence.
      - destruct (decide (k = idx)); congruence. }
    destruct (IH s1 Hnd) as (Hmeds & Hlook & Htrace). split_and!.
    + rewrite Hmeds. subst s1. by destruct (_med_entities s !! idx).
    + intros k. rewrite Hlook, Hm1.
      destruct (decide (k ∈ idx :: rest)) as [Hin|Hnin].
      * apply elem_of_cons in Hin as [->|Hin].
        -- destruct (decide (idx ∈ rest)); [done|]. by rewrite decide_True.
        -- by rewrite decide_True.
      * apply not_elem_of_cons in Hnin as [? ?].
        rewrite decide_False by done. by rewrite decide_False.
    + rewrite Htrace.
      rewrite (list_omap_ext _ (λ k, Removed k <$> _med_entities s !! k) rest rest).
      * subst s1. destruct (_med_entities s !! idx) eqn:E; simpl; rewrite E; simpl;
          [|done].
        by rewrite <- app_assoc.
      * apply Forall_Forall2_diag, Forall_forall. intros k Hk.
        rewrite Hm1. rewrite decide_False; [done|]. by intros ->.
Qed.

(** *** The reindex loop *)

Lemma reindex_loop_lookup (ents : gmap nat entity) (ks : list nat) (j : nat) :
  foldl (λ (new_map : gmap nat entity) '(new_index, old_index),
           match ents !! old_index with
           | Some e => <[new_index := reindexed DOMAIN new_index e]> new_map
           | None => new_map
           end) ∅ (imap pair ks) !! j
  = (ks !! j) ≫= (λ k, reindexed DOMAIN j <$> ents !! k).
Proof.
  induction ks as [|k ks IH] using rev_ind; [done|].
  rewrite imap_app, foldl_app. simpl. rewrite Nat.add_0_r.
  destruct (decide (j = length ks)) as [->|Hne].
  - rewrite list_lookup_middle by done. simpl.
    destruct (ents !! k) as [e|]; simpl.
    + by rewrite lookup_insert_eq.
    + rewrite IH. by rewrite lookup_ge_None_2.
  - assert (Hj : (ks ++ [k]) !! j = ks !! j).
    { destruct (decide (j < length ks)%nat).
      - by rewrite lookup_app_l.
      - rewrite !lookup_ge_None_2; [done | lia | rewrite length_app; simpl; lia]. }
    rewrite Hj. destruct (ents !! k) as [e|]; [|done].
    by rewrite lookup_insert_ne.
Qed.

Lemma reindex_lookup (ents : gmap nat entity) (j : nat) :
  reindex DOMAIN ents !! j
  = (sorted (dom ents) !! j) ≫= (λ k, reindexed DOMAIN j <$> ents !! k).
Proof. apply reindex_loop_lookup. Qed.

End Resync.

Lemma kept_length_le (kept : list nat) (n : nat) :
  NoDup kept → (∀ k, k ∈ kept → (k < n)%nat) → (length kept ≤ n)%nat.
Proof.
  intros Hnd Hlt. rewrite <- (length_seq n 0).
  apply submseteq_length, NoDup_submseteq; [done|].
  intros k Hk. apply elem_of_seq. specialize (Hlt k Hk). lia.
Qed.

Lemma kept_length_ge (kept : list nat) (n : nat) :
  (∀ k, (k < n)%nat → k ∈ kept) → (n ≤ length kept)%nat.
Proof.
  intros Hin. rewrite <- (length_seq n 0) at 1.
  apply submseteq_length, NoDup_submseteq; [apply NoDup_seq|].
  intros k Hk%elem_of_seq. apply Hin. lia.
Qed.

Lemma sync_spec (DOMAIN : string) (s : MedStore) :
  let s' := (_sync_med_entities DOMAIN s).1 in
  (_sync_med_entities DOMAIN s).2 = Ok () ∧
  meds s' = meds s ∧
  ∃ kept removed,
    trace s' = trace s ++ removed ++ [Dispatched] ∧
    resynced DOMAIN (length (meds s)) (_med_entities s) (_med_entities s')
             kept removed.
Proof.
  set (n := length (meds s)). set (m := _med_entities s).
  set (R := dom m ∖ (set_seq 0 n : gset nat)).
  assert (HR : ∀ k, k ∈ reverse (sorted R) ↔ is_Some (m !! k) ∧ (n ≤ k)%nat).
  { intros k. rewrite elem_of_reverse, sorted_elem_of. subst R.
    rewrite elem_of_difference, elem_of_dom, elem_of_set_seq.
    split; intros [? ?]; split; auto; lia. }
  destruct (remove_entities_spec (reverse (sorted R)) s) as (Hmeds & Hlook & Htrace).
  { rewrite reverse_Permutation. apply sorted_NoDup. }
  set (s1 := remove_entities (reverse (sorted R)) s) in *.
  assert (Hm1 : ∀ k, _med_entities s1 !! k
                     = if decide (k < n)%nat then m !! k else None).
  { intros k. rewrite Hlook. fold m.
    destruct (decide (k ∈ reverse (sorted R))) as [Hin|Hnin].
    - apply HR in Hin as [_ ?]. by rewrite decide_False by lia.
    - destruct (decide (k < n)%nat); [done|].
      destruct (m !! k) eqn:E; [|done].
      exfalso. apply Hnin, HR. split; [by eexists | lia]. }
  set (kept := sorted (dom (_med_entities s1))).
  assert (Hkept : ∀ k, k ∈ kept ↔ is_Some (m !! k) ∧ (k < n)%nat).
  { intros k. subst kept. rewrite sorted_elem_of, elem_of_dom, Hm1.
    destruct (decide (k < n)%nat); [tauto|].
    split; [by intros [? ?] | by intros [_ ?]]. }
  assert (Hnew : ∀ j, reindex DOMAIN (_med_entities s1) !! j
                      = (kept !! j) ≫= (λ k, reindexed DOMAIN j <$> m !! k)).
  { intros j. rewrite reindex_lookup. fold kept.
    destruct (kept !! j) as [k|] eqn:Hk; [|done]. simpl.
    apply list_elem_of_lookup_2, Hkept in Hk as [_ Hk].
    by rewrite Hm1, decide_True. }
  simpl. split_and!; [done | done |].
  exists kept, (omap (λ k, Removed k <$> m !! k) (reverse (sorted R))).
  split.
  - unfold _sync_med_entities, async_dispatcher_send, emit. simpl.
    fold n m R s1. rewrite Htrace. by rewrite <- app_assoc.
  - unfold _sync_med_entities, async_dispatcher_send, emit. simpl.
    fold n m R s1. split_and!.
    + apply sorted_ascending.
    + exact Hkept.
    + exact Hnew.
    + intros j. rewrite Hnew. split.
      * intros [e He]. destruct (kept !! j) eqn:E; [|done].
        by eapply lookup_lt_Some.
      * intros Hj. destruct (lookup_lt_is_Some_2 kept j Hj) as [k Hk].
        rewrite Hk. simpl.
        apply list_elem_of_lookup_2, Hkept in Hk as [[e ->] _]. by eexists.
    + apply kept_length_le; [apply sorted_NoDup|]. intros k Hk. by apply Hkept.
    + intros Hfull. apply Nat.le_antisymm.
      * apply kept_length_le; [apply sorted_NoDup|]. intros k Hk. by apply Hkept.
      * apply kept_length_ge. intros k Hk. apply Hkept. auto.
    + intros ev. rewrite list_elem_of_omap. split.
      * intros (k & Hin & Hev). apply HR in Hin as [[e He] Hge].
        rewrite He in Hev. injection Hev as <-. by exists k, e.
      * intros (k & e & -> & He & Hge). exists k. split.
        -- apply HR. split; [by eexists | done].
        -- by rewrite He.
Qed.

Lemma delete_addressed (DOMAIN : string) (call : dict) (s : MedStore) (i : nat) :
  Py.int (Py.get call "index" VNone) = Ok (Z.of_nat i) →
  (i < length (meds s))%nat →
  delete DOMAIN call s =
    _sync_med_entities DOMAIN
      (with_event Saved (with_meds (base.delete i (meds s)) s)).
Proof.
  intros Hi Hlt. unfold delete.
  rewrite (int_Ok_not_None _ _ Hi), Hi.
  unfold mbind at 1, St_bind, get_meds.
  rewrite (proj2 (Z.ltb_ge (Z.of_nat i) 0)) by lia.
  rewrite (proj2 (Z.leb_gt (Z.of_nat (length (meds s))) (Z.of_nat i))) by lia.
  simpl. by rewrite Nat2Z.id.
Qed.

(** C9, as amended. The resync returns normally and leaves the records
    alone; it calls [async_remove] for exactly the entities keyed at a
    position at or beyond the number of records and drops them; the
    entities that remain are those keyed below that number, and, taken
    in ascending order of their old keys, they are renumbered to
    [0, 1, 2, ...]: the entity of the [j]-th kept key is stored at [j]
    with [j] for [_index] and in its unique id, and its name as it was.
    The new keys are the contiguous range from 0 up to the number of
    entities kept, which is at most the number of records, and equal to
    it when every position below it had an entity. Deleting index 1 of
    three records puts the old record 2 at index 1, removes the entity
    keyed at 2 and leaves no entity keyed at 2. *)
Theorem resync_removes_stale_and_renumbers (DOMAIN : string) :
  (∀ s : MedStore,
     let s' := (_sync_med_entities DOMAIN s).1 in
     (_sync_med_entities DOMAIN s).2 = Ok () ∧
     meds s' = meds s ∧
     ∃ kept removed,
       trace s' = trace s ++ removed ++ [Dispatched] ∧
       resynced DOMAIN (length (meds s)) (_med_entities s) (_med_entities s')
                kept removed ∧
       ∀ j k, kept !! j = Some k →
         ∃ e, _med_entities s !! k = Some e ∧
              _med_entities s' !! j
              = Some {| _index := j;
                        _attr_name := _attr_name e;
                        _attr_unique_id := DOMAIN +:+ "_med_" +:+ pretty j |}) ∧
  (∀ (call r0 r1 r2 : dict) (m : gmap nat entity) (tr : list event),
     Py.int (Py.get call "index" VNone) = Ok 1 →
     let s := {| meds := [r0; r1; r2]; _med_entities := m; trace := tr |} in
     let s' := (delete DOMAIN call s).1 in
     (delete DOMAIN call s).2 = Ok () ∧
     meds s' = [r0; r2] ∧
     _med_entities s' !! 2%nat = None ∧
     ∀ e2, m !! 2%nat = Some e2 → Removed 2 e2 ∈ trace s').
Proof.
  split.
  { intros s s'. subst s'.
    destruct (sync_spec DOMAIN s) as (Hret & Hmeds & kept & removed & Htrace & Hsync).
    split; [done|]. split; [done|]. exists kept, removed.
    split; [done|]. split; [done|].
    destruct Hsync as (_ & Hkept & Hlookup & _).
    intros j k Hj.
    destruct (proj1 (Hkept k)) as [[e He] _];
      [apply list_elem_of_lookup; by exists j|].
    exists e. split; [done|]. by rewrite Hlookup, Hj; simpl; rewrite He. }
  intros call r0 r1 r2 m tr Hi s s'. subst s'.
  rewrite (delete_addressed DOMAIN call s 1) by (done || (simpl; lia)).
  set (s0 := with_event Saved _).
  destruct (sync_spec DOMAIN s0)
    as (Hret & Hmeds & kept & removed & Htrace &
        (_ & _ & _ & Hdom & Hlen & _ & Hremoved)).
  split_and!; [done | by rewrite Hmeds | |].
  - destruct (_ !! 2%nat) eqn:E; [|done].
    assert (2 < length kept)%nat by (apply Hdom; by eexists).
    simpl in Hlen. lia.
  - intros e2 He2. rewrite Htrace.
    apply elem_of_app. right. apply elem_of_app. left.
    apply Hremoved. exists 2%nat, e2. split_and!; [done | done | simpl; lia].
Qed.

(** Three records with the entities of the setup, and a [delete] of
    index 1; and a resync of two records whose entities are keyed at 1
    and 3: the one at 3 is removed and the one at 1 moves to 0. *)
Lemma resync_example :
  let r0 : dict := {[ "name" := VStr "A" ]} in
  let r1 : dict := {[ "name" := VStr "B" ]} in
  let r2 : dict := {[ "name" := VStr "C" ]} in
  let s := async_setup_platform "medstore"
             {| meds := [r0; r1; r2]; _med_entities := ∅; trace := [] |} in
  let call : dict := {[ "index" := VInt 1 ]} in
  let sparse :=
    {| meds := [r0; r1];
       _med_entities :=
         <[1%nat := MedStoreMedicationEntity "medstore" 1]>
           (<[3%nat := MedStoreMedicationEntity "medstore" 3]> ∅);
       trace := [] |} in
  (delete "medstore" call s =
     ({| meds := [r0; r2];
         _med_entities :=
           <[0%nat := MedStoreMedicationEntity "medstore" 0]>
             (<[1%nat := MedStoreMedicationEntity "medstore" 1]> ∅);
         trace := [Saved; Removed 2 (MedStoreMedicationEntity "medstore" 2);
                   Dispatched] |}, Ok ()) ∧
   meds (delete "medstore" call s).1 = [r0; r2] ∧
   _med_entities (delete "medstore" call s).1 !! 2%nat = None) ∧
  (_sync_med_entities "medstore" sparse).2 = Ok () ∧
  _sync_med_entities "medstore" sparse =
    ({| meds := [r0; r1];
        _med_entities :=
          {[ 0%nat := {| _index := 0; _attr_name := "Medstore med 1";
                         _attr_unique_id := "medstore_med_0" |} ]};
        trace := [Removed 3 (MedStoreMedicationEntity "medstore" 3);
                  Dispatched] |}, Ok ()).
Proof.
  intros r0 r1 r2 s call sparse. split; [|split].
  - split; [by vm_compute|].
    destruct (proj2 (resync_removes_stale_and_renumbers "medstore")
                call r0 r1 r2 (_med_entities s) [])
      as (_ & H1 & H2 & _); [reflexivity|].
    split; [exact H1 | exact H2].
  - exact (proj1 (proj1 (resync_removes_stale_and_renumbers "medstore") sparse)).
  - by vm_compute.
Defined.

(** C9, as the claim states it, fails: the new keys are not the whole
    range below the new number of records. After the setup of a store
    of one record, two [add] and a [delete] of index 2, there are two
    records and one entity, keyed at 0. *)
Lemma resync_range_is_shorter_than_the_records :
  let s0 := async_setup_platform "medstore" example_store in
  let s1 := (add 739923 ∅ s0).1 in
  let s2 := (add 739923 ∅ s1).1 in
  let r := delete "medstore" {[ "index" := VInt 2 ]} s2 in
  r.2 = Ok () ∧
  length (meds r.1) = 2%nat ∧
  _med_entities r.1 = {[ 0%nat := MedStoreMedicationEntity "medstore" 0 ]}.
Proof. by vm_compute. Qed.

(** ** A non-numeric amount or dose (C1) *)

(** With a valid index, [add_refill] coerces [amount] outside any [try]:
    whatever [int(amount)] raises leaves the handler, with the store as
    it was. *)
Lemma add_refill_bad_amount_escapes
    (today : Z) (call : dict) (s : MedStore) (i : nat) (med : dict) (e : exn) :
  Py.int (Py.get call "index" VNone) = Ok (Z.of_nat i) →
  meds s !! i = Some med →
  Py.int (Py.get call "amount" (VInt 0)) = Raise e →
  add_refill today call s = (s, Raise e).
Proof.
  intros Hi Hmed He.
  rewrite (add_refill_addressed today call s i med) by done.
  unfold add_refill_entry, mbind, St_bind, med_get, lift. rewrite He.
  by rewrite with_meds_insert_id.
Qed.

(** A dose_index outside the timing list, by contrast, is guarded: the
    handler returns and the store is as it was. *)
Lemma take_dose_out_of_range_slot_is_noop
    (today : Z) (call : dict) (s : MedStore) (i : nat) (med : dict)
    (t : list pyval) (d : Z) :
  Py.int (Py.get call "index" VNone) = Ok (Z.of_nat i) →
  Py.int (Py.get call "dose_index" VNone) = Ok d →
  meds s !! i = Some med →
  Py.get med "timing" (VList []) = VList t →
  ¬ (0 ≤ d < Z.of_nat (length t)) →
  take_dose today call s = (s, Ok ()).
Proof.
  intros Hi Hd Hmed Ht Hrange. unfold take_dose.
  rewrite (int_Ok_not_None _ _ Hi), (int_Ok_not_None _ _ Hd), Hi, Hd. simpl.
  unfold mbind at 1, St_bind, get_meds.
  rewrite (in_range_nat _ _ _ Hmed), Nat2Z.id.
  unfold mbind at 1, St_bind, on_med. rewrite Hmed.
  unfold take_dose_entry, mbind, St_bind, med_get, lift. rewrite Ht. simpl.
  destruct ((0 <=? d) && (d <? Z.of_nat (length t))) eqn:E.
  - apply andb_true_iff in E as [?%Z.leb_le ?%Z.ltb_lt]. lia.
  - simpl. by rewrite with_meds_insert_id.
Qed.

(** C1, at a failing input. On a store of one record, [add_refill] with
    index 0 and the amount "abc" raises [ValueError] to its caller, where
    the same error of [int(index)] three lines above is caught; [add]
    with the dose "abc" does the same. In both cases the store is as it
    was. *)
Theorem non_numeric_amount_raises :
  let med : dict :=
    list_to_map [("doses_available", VInt 3); ("refills_available", VInt 1)] in
  let s := {| meds := [med]; _med_entities := ∅; trace := [] |} in
  add_refill 739923 (list_to_map [("index", VInt 0); ("amount", VStr "abc")]) s
    = (s, Raise ValueError)
  ∧ add 739923 {[ "med_data" := VDict {[ "dose" := VStr "abc" ]} ]} s
    = (s, Raise ValueError).
Proof. split; reflexivity. Qed.


(** * Further properties of the handlers *)

(** ** delete and toggle_active *)

Lemma toggle_active_addressed (call : dict) (s : MedStore) (i : nat) (med : dict) :
  Py.int (Py.get call "index" VNone) = Ok (Z.of_nat i) →
  meds s !! i = Some med →
  toggle_active call s =
    (with_event Dispatched
       (with_event Saved
          (with_meds (<[i := <["active" := VBool (negb (is_active med))]> med]>
                        (meds s)) s)), Ok ()).
Proof.
  intros Hi Hmed. unfold toggle_active.
  rewrite (int_Ok_not_None _ _ Hi), Hi.
  unfold mbind at 1, St_bind, get_meds.
  rewrite (in_range_nat _ _ _ Hmed), Nat2Z.id.
  unfold mbind, St_bind, on_med. by rewrite Hmed.
Qed.

(** X1. [delete] with a valid index returns normally and removes the
    record at that position and no other: the records before it keep
    their positions, the records after it move down by one, and the list
    is one shorter. The data is saved before the entities are resynced,
    and the update signal comes last. *)
Theorem delete_removes_the_record
    (DOMAIN : string) (call : dict) (s : MedStore) (i : nat) :
  Py.int (Py.get call "index" VNone) = Ok (Z.of_nat i) →
  (i < length (meds s))%nat →
  let s' := (delete DOMAIN call s).1 in
  (delete DOMAIN call s).2 = Ok () ∧
  meds s' = take i (meds s) ++ drop (S i) (meds s) ∧
  S (length (meds s')) = length (meds s) ∧
  (∀ j, (j < i)%nat → meds s' !! j = meds s !! j) ∧
  (∀ j, (i ≤ j)%nat → meds s' !! j = meds s !! S j) ∧
  ∃ removals, trace s' = trace s ++ Saved :: removals ++ [Dispatched].
Proof.
  intros Hi Hlt s'. subst s'.
  rewrite (delete_addressed DOMAIN call s i Hi Hlt).
  set (s0 := with_event Saved _).
  destruct (sync_spec DOMAIN s0) as (Hret & Hmeds & kept & removed & Htrace & _).
  rewrite Hmeds. split_and!.
  - done.
  - apply delete_take_drop.
  - subst s0. simpl. rewrite length_delete by by apply lookup_lt_is_Some_2. lia.
  - intros j Hj. by apply list_lookup_delete_lt.
  - intros j Hj. by apply list_lookup_delete_ge.
  - exists removed. rewrite Htrace. subst s0. simpl. by rewrite <- app_assoc.
Qed.

(** Deleting the middle one of three records keyed by name. *)
Lemma delete_example :
  let r (n : string) : dict := {[ "name" := VStr n ]} in
  let s := {| meds := [r "A"; r "B"; r "C"]; _med_entities := ∅; trace := [] |} in
  let call : dict := {[ "index" := VStr "1" ]} in
  (delete "medstore" call s).2 = Ok () ∧
  meds (delete "medstore" call s).1 = [r "A"; r "C"] ∧
  trace (delete "medstore" call s).1 = [Saved; Dispatched].
Proof.
  intros r s call.
  destruct (delete_removes_the_record "medstore" call s 1)
    as (H1 & H2 & _); [reflexivity | simpl; lia |].
  split_and!; [exact H1 | exact H2 | reflexivity].
Defined.

(** X2. [delete] and [toggle_active] raise in one case only: on an
    index that is an infinite float [int] raises [OverflowError], which
    [except (TypeError, ValueError)] does not catch, and the exception
    leaves the handler with the store as it was. With any other payload,
    whatever the store holds, both return normally. *)
Theorem delete_and_toggle_active_raise_only_on_infinite_index
    (DOMAIN : string) (call : dict) (s : MedStore) :
  ((∃ b, Py.get call "index" VNone = VFloat (S754_infinity b)) →
   delete DOMAIN call s = (s, Raise OverflowError) ∧
   toggle_active call s = (s, Raise OverflowError)) ∧
  (not_infinite (Py.get call "index" VNone) →
   (delete DOMAIN call s).2 = Ok () ∧ (toggle_active call s).2 = Ok ()).
Proof.
  split.
  - intros [b Hb]. unfold delete, toggle_active. by rewrite Hb.
  - intros Hfinite. split.
    + unfold delete. destruct (Py.is_None _); [done|].
      destruct (Py.int _) as [i|e] eqn:Hi.
      * unfold mbind at 1, St_bind, get_meds.
        destruct (_ || _) eqn:E; [done|].
        apply orb_false_iff in E as [E1%Z.ltb_ge E2%Z.leb_gt].
        unfold mbind, St_bind, pop_med, async_save, emit.
        apply sync_spec.
      * by rewrite (int_raises_caught _ _ Hi Hfinite).
    + unfold toggle_active. destruct (Py.is_None _); [done|].
      destruct (Py.int _) as [i|e] eqn:Hi.
      * unfold mbind at 1, St_bind, get_meds.
        destruct (in_range i (meds s)) eqn:E; [|done].
        apply in_range_spec in E.
        destruct (lookup_lt_is_Some_2 (meds s) (Z.to_nat i)) as [med Hmed]; [lia|].
        unfold mbind, St_bind, on_med. by rewrite Hmed.
      * by rewrite (int_raises_caught _ _ Hi Hfinite).
Qed.

(** X3. [toggle_active] with a valid index writes the negation of the
    truth value of [active] (a missing field counts as true) and nothing
    else; toggling twice leaves [active] at the boolean of its first
    truth value, every other field and record as they were, and restores
    the whole list when [active] was a boolean. *)
Theorem toggle_active_twice
    (call : dict) (s : MedStore) (i : nat) (med : dict) :
  Py.int (Py.get call "index" VNone) = Ok (Z.of_nat i) →
  meds s !! i = Some med →
  let s1 := (toggle_active call s).1 in
  let s2 := (toggle_active call s1).1 in
  meds s1 = <[i := <["active" := VBool (negb (is_active med))]> med]> (meds s) ∧
  meds s2 = <[i := <["active" := VBool (is_active med)]> med]> (meds s) ∧
  (∀ b, med !! "active" = Some (VBool b) → meds s2 = meds s).
Proof.
  intros Hi Hmed s1 s2.
  assert (H1 : meds s1 = <[i := <["active" := VBool (negb (is_active med))]> med]> (meds s))
    by (subst s1; by rewrite (toggle_active_addressed call s i med)).
  assert (H2 : meds s2 = <[i := <["active" := VBool (is_active med)]> med]> (meds s)).
  { subst s2.
    rewrite (toggle_active_addressed call s1 i
               (<["active" := VBool (negb (is_active med))]> med)); [|done|].
    - simpl. rewrite H1. rewrite (list_insert_insert_eq (meds s)). f_equal.
      rewrite insert_insert_eq. do 2 f_equal.
      unfold is_active at 1. rewrite get_insert_eq. simpl. apply negb_involutive.
    - rewrite H1. apply list_lookup_insert_eq. by eapply lookup_lt_Some. }
  split_and!; [done | done |].
  intros b Hb. rewrite H2. unfold is_active, Py.get. rewrite Hb. simpl.
  rewrite (insert_id med) by done. by apply list_insert_id.
Qed.

(** A record without an [active] field: one toggle makes it inactive, the
    second one active again. *)
Lemma toggle_active_example :
  let med : dict := {[ "name" := VStr "A" ]} in
  let s := {| meds := [med]; _med_entities := ∅; trace := [] |} in
  let call : dict := {[ "index" := VInt 0 ]} in
  meds (toggle_active call s).1 = [<["active" := VBool false]> med] ∧
  meds (toggle_active call (toggle_active call s).1).1
    = [<["active" := VBool true]> med].
Proof.
  intros med s call.
  destruct (toggle_active_twice call s 0 med) as (H1 & H2 & _);
    [reflexivity | reflexivity |].
  split; [exact H1 | exact H2].
Defined.

(** ** Handlers that edit records in place *)

Lemma on_med_frame {A} (i : nat) (body : St dict A) (s : MedStore) :
  _med_entities (on_med i body s).1 = _med_entities s ∧
  length (meds (on_med i body s).1) = length (meds s) ∧
  trace (on_med i body s).1 = trace s.
Proof.
  unfold on_med. destruct (meds s !! i) as [med|]; [|done].
  destruct (body med) as [med' r]. simpl. by rewrite length_insert.
Qed.

Lemma edited_in_place_noop (s : MedStore) : edited_in_place s (s, Ok ()).
Proof.
  split_and!; [done | done | done |]. intros _. exists [].
  split; [by rewrite app_nil_r | by right].
Qed.

Lemma edited_in_place_warning (s : MedStore) (msg : string) :
  edited_in_place s (_LOGGER_warning msg s).
Proof.
  split_and!; [done | done | done |]. intros _. exists [Warning msg].
  split; [done|]. right. constructor; [by exists msg | constructor].
Qed.

(** A body run on a record, followed by the save and the signal. *)
Lemma edited_in_place_on_med (i : nat) (body : St dict unit) (s : MedStore) :
  edited_in_place s
    ((on_med i body;; async_save;; async_dispatcher_send) s).
Proof.
  destruct (on_med_frame i body s) as (He & Hl & Ht).
  unfold mbind, St_bind.
  destruct (on_med i body s) as [s1 [[]|e]]; simpl in *.
  - split_and!; [done | done | done |]. intros _. exists [Saved; Dispatched].
    split; [|by left]. simpl. by rewrite Ht, <- app_assoc.
  - split_and!; [done | done | by intros | done].
Qed.

Lemma reset_loop_length (l : list dict) (changed : bool) :
  length (reset_loop changed l).1 = length l.
Proof.
  revert changed. induction l as [|med l IH]; intros changed; [done|].
  simpl. destruct (reset_entry med) as [med' [b|e]]; [|done].
  specialize (IH (changed || b)).
  destruct (reset_loop (changed || b) l) as [l' r]. simpl in *. by rewrite IH.
Qed.

(** An exception that escapes before anything was done. *)
Lemma edited_in_place_raise (s : MedStore) (e : exn) :
  edited_in_place s (raise e s).
Proof. split_and!; [done | done | by intros | done]. Qed.

#[local] Hint Resolve edited_in_place_noop edited_in_place_warning
  edited_in_place_on_med edited_in_place_raise : noop.

(** X4. Whatever the payload and the records hold, [update],
    [toggle_active], [add_refill], [take_dose] and the midnight reset
    leave the entity map and the number of records as they were. A call
    that raises has saved, signalled and logged nothing, so what it
    changed in memory before raising is not yet persisted; a call that
    returns has either saved once and then signalled once, or done no
    more than log warnings. *)
Theorem handlers_edit_in_place (today : Z) (call : dict) (s : MedStore) :
  edited_in_place s (update today call s) ∧
  edited_in_place s (toggle_active call s) ∧
  edited_in_place s (add_refill today call s) ∧
  edited_in_place s (take_dose today call s) ∧
  edited_in_place s (async_midnight_reset s).
Proof.
  split_and!.
  - unfold update. destruct (Py.is_None _); auto with noop.
    destruct (Py.int _) as [i|e] eqn:Hi;
      [|destruct (caught e); auto with noop].
    unfold mbind at 1, St_bind, get_meds.
    destruct (in_range i (meds s)); auto with noop.
  - unfold toggle_active. destruct (Py.is_None _); auto with noop.
    destruct (Py.int _) as [i|e] eqn:Hi;
      [|destruct (caught e); auto with noop].
    unfold mbind at 1, St_bind, get_meds.
    destruct (in_range i (meds s)); auto with noop.
  - unfold add_refill. destruct (Py.is_None _); auto with noop.
    destruct (Py.int _) as [i|e] eqn:Hi;
      [|destruct (caught e); auto with noop].
    unfold mbind at 1, St_bind, get_meds.
    destruct (in_range i (meds s)); auto with noop.
  - unfold take_dose. destruct (_ || _); auto with noop.
    destruct (Py.int (Py.get call "index" VNone)) as [i|e] eqn:Hi; simpl;
      [|destruct (caught e); auto with noop].
    destruct (Py.int (Py.get call "dose_index" VNone)) as [d|e] eqn:Hd; simpl;
      [|destruct (caught e); auto with noop].
    unfold mbind at 1, St_bind, get_meds.
    destruct (in_range i (meds s)); auto with noop.
    destruct (on_med_frame (Z.to_nat i) (take_dose_entry today d) s) as (He & Hl & Ht).
    unfold mbind, St_bind.
    destruct (on_med _ _ s) as [s1 [[]|e]]; simpl in *.
    + split_and!; [done | done | done |]. intros _. exists [Saved; Dispatched].
      split; [|by left]. simpl. by rewrite Ht, <- app_assoc.
    + split_and!; [done | done | done |]. intros _. exists [].
      split; [rewrite app_nil_r; exact Ht | by right].
    + split_and!; [done | done | by intros | done].
  - unfold async_midnight_reset, mbind, St_bind.
    pose proof (reset_loop_length (meds s) false) as Hl.
    destruct (reset_loop false (meds s)) as [l' [[]|e]]; simpl in *.
    + split_and!; [done | done | done |]. intros _. exists [Saved; Dispatched].
      split; [|by left]. simpl. by rewrite <- app_assoc.
    + split_and!; [done | done | done |]. intros _. exists [].
      split; [by rewrite app_nil_r | by right].
    + split_and!; [done | done | by intros | done].
Qed.

(** ** add *)

(** The three ways [add] ends: before the append, after it by an
    exception of the estimator, or normally. *)
Lemma add_cases (today : Z) (call : dict) (s : MedStore) :
  (∃ e, add today call s = (s, Raise e)) ∨
  (∃ med e, add today call s = (with_meds (meds s ++ [med]) s, Raise e)) ∨
  (∃ med, add today call s =
            (with_event Dispatched
               (with_event Saved (with_meds (meds s ++ [med]) s)), Ok ())).
Proof.
  unfold add. destruct (Py.or_ _ _); try (left; by eexists).
  unfold mbind, St_bind, get_meds, lift, append_med, on_med.
  destruct (new_med (length (meds s)) d) as [med|e]; [|left; by eexists].
  simpl. rewrite list_lookup_middle by done.
  destruct (_recalc_next_refill_for_entry today med) as [med' [[]|e]]; simpl;
    rewrite insert_app_r_alt, Nat.sub_diag by done; simpl.
  - right. right. by eexists.
  - right. left. by do 2 eexists.
Qed.

(** X5. [add] never touches the records already there nor the entity map
    (the new record gets no entity): it appends at most one record, and
    exactly one when it returns normally, in which case it has saved and
    then signalled; when it raises, nothing is saved or signalled. *)
Theorem add_only_appends (today : Z) (call : dict) (s : MedStore) :
  let r := add today call s in
  _med_entities r.1 = _med_entities s ∧
  (∃ new, meds r.1 = meds s ++ new ∧ (length new ≤ 1)%nat ∧
          (r.2 = Ok () → length new = 1%nat)) ∧
  (r.2 = Ok () → trace r.1 = trace s ++ [Saved; Dispatched]) ∧
  (∀ e, r.2 = Raise e → trace r.1 = trace s).
Proof.
  destruct (add_cases today call s) as [[e ->]|[(med & e & ->)|[med ->]]]; simpl.
  - split_and!; [done | | done | done]. exists []. rewrite app_nil_r.
    split_and!; [done | simpl; lia | done].
  - split_and!; [done | | done | done]. exists [med]. split_and!; [done | simpl; lia | done].
  - split_and!; [done | | by rewrite <- app_assoc | done].
    exists [med]. split_and!; [done | simpl; lia | done].
Qed.

(** X6. [add] with no [med_data] (or an empty one) on a day within the
    calendar returns normally and appends the record of the defaults:
    the name "Med n+1" for a store of n records, dose 1, one dose per
    day, no timing, one zero counter, no inventory, active, and an
    estimate of today. *)
Theorem add_without_med_data_appends_defaults
    (today : Z) (call : dict) (s : MedStore) :
  Py.truthy (Py.get call "med_data" VNone) = false →
  1 ≤ today → today ≤ Date.MAXORDINAL →
  add today call s =
    (with_event Dispatched
       (with_event Saved
          (with_meds (meds s ++ [default_med (length (meds s)) today]) s)), Ok ()).
Proof.
  intros Hfalsy Ht Hmax. unfold add, Py.or_. rewrite Hfalsy.
  unfold mbind, St_bind, get_meds, lift, append_med, on_med.
  change (new_med (length (meds s)) ∅) with
    (Ok (<["next_refill" := VStr ""]> (default_med (length (meds s)) today))).
  simpl. rewrite list_lookup_middle by done.
  rewrite (recalc_ok today _ 0 1 1) by (reflexivity || lia).
  simpl. rewrite insert_app_r_alt, Nat.sub_diag by done. simpl.
  rewrite insert_insert_eq. rewrite Z.add_0_r.
  rewrite (insert_id (default_med _ _)) by reflexivity. done.
Qed.

(** An empty payload on the empty store on 2026-11-03. *)
Lemma add_defaults_example :
  (Py.truthy (Py.get (∅ : dict) "med_data" VNone) = false ∧
   1 ≤ 739923 ∧ 739923 ≤ Date.MAXORDINAL) ∧
  meds (add 739923 ∅ init).1 = [default_med 0 739923] ∧
  default_med 0 739923 !! "name" = Some (VStr "Med 1") ∧
  default_med 0 739923 !! "next_refill" = Some (VStr "2026-11-03").
Proof.
  assert (H1 : Py.truthy (Py.get (∅ : dict) "med_data" VNone) = false) by reflexivity.
  assert (H2 : 1 ≤ 739923) by lia.
  assert (H3 : 739923 ≤ Date.MAXORDINAL) by (vm_compute; discriminate).
  split; [done|]. split; [|split; reflexivity].
  by rewrite (add_without_med_data_appends_defaults 739923 ∅ init H1 H2 H3).
Defined.

(** X7. A [delete] with a valid index followed by an [add] that returns
    normally leaves as many records as there were: the count the master
    sensor shows is unchanged. *)
Theorem delete_then_add_keeps_the_count
    (DOMAIN : string) (today : Z) (call_delete call_add : dict)
    (s : MedStore) (i : nat) :
  Py.int (Py.get call_delete "index" VNone) = Ok (Z.of_nat i) →
  (i < length (meds s))%nat →
  let s1 := (delete DOMAIN call_delete s).1 in
  (add today call_add s1).2 = Ok () →
  DataSensor.native_value (add today call_add s1).1 = DataSensor.native_value s.
Proof.
  intros Hi Hlt s1 Hok.
  assert (Hlen : S (length (meds s1)) = length (meds s)).
  { subst s1. rewrite (delete_addressed DOMAIN call_delete s i Hi Hlt).
    set (s0 := with_event Saved _).
    destruct (sync_spec DOMAIN s0) as (_ & -> & _). subst s0. simpl.
    rewrite length_delete by by apply lookup_lt_is_Some_2. lia. }
  unfold DataSensor.native_value.
  destruct (add_cases today call_add s1) as [[e He]|[(med & e & He)|[med He]]];
    rewrite He in Hok |- *; try discriminate Hok.
  simpl. rewrite length_app. simpl. lia.
Qed.

(** Deleting the only record and adding one again. *)
Lemma delete_then_add_example :
  let s := {| meds := [example_med]; _med_entities := ∅; trace := [] |} in
  let s1 := (delete "medstore" {[ "index" := VInt 0 ]} s).1 in
  (add 739923 ∅ s1).2 = Ok () ∧
  DataSensor.native_value (add 739923 ∅ s1).1 = 1.
Proof.
  intros s s1.
  assert (Hok : (add 739923 ∅ s1).2 = Ok ()) by reflexivity.
  split; [exact Hok|].
  exact (delete_then_add_keeps_the_count "medstore" 739923
           {[ "index" := VInt 0 ]} ∅ s 0 eq_refl (Nat.lt_0_succ 0) Hok).
Defined.

(** ** update *)

Lemma recalc_raises_unchanged (today : Z) (med : dict) (e : exn) :
  (_recalc_next_refill_for_entry today med).2 = Raise e →
  (_recalc_next_refill_for_entry today med).1 = med.
Proof.
  unfold _recalc_next_refill_for_entry, mbind, St_bind, med_get, lift, med_set.
  destruct (Py.int (Py.get med "doses_available" (VInt 0))); [|done].
  destruct (Py.int (Py.get med "dose" (VInt 1))); [|done].
  destruct (Py.int (Py.get med "doses_per_day" (VInt 1))); [|done].
  by destruct (Date.plus_days_ymd _ _).
Qed.

Lemma recalc_returns_date (today : Z) (med : dict) :
  (_recalc_next_refill_for_entry today med).2 = Ok () →
  ∃ date, (_recalc_next_refill_for_entry today med).1
          = <["next_refill" := VStr date]> med.
Proof.
  unfold _recalc_next_refill_for_entry, mbind, St_bind, med_get, lift, med_set.
  destruct (Py.int (Py.get med "doses_available" (VInt 0))); [|done].
  destruct (Py.int (Py.get med "dose" (VInt 1))); [|done].
  destruct (Py.int (Py.get med "doses_per_day" (VInt 1))); [|done].
  destruct (Date.plus_days_ymd _ _); [|done]. by eexists.
Qed.

(** [update] on a valid index with a mapping for payload: the merge,
    then the estimator on the merged record. *)
Lemma update_addressed
    (today : Z) (call : dict) (s : MedStore) (i : nat) (med u : dict) :
  Py.int (Py.get call "index" VNone) = Ok (Z.of_nat i) →
  meds s !! i = Some med →
  Py.or_ (Py.get call "updates" VNone) (VDict ∅) = VDict u →
  update today call s =
    let r := _recalc_next_refill_for_entry today (u ∪ med) in
    let s1 := with_meds (<[i := r.1]> (meds s)) s in
    match r.2 with
    | Ok _ => (with_event Dispatched (with_event Saved s1), Ok ())
    | Raise e => (s1, Raise e)
    end.
Proof.
  intros Hi Hmed Hu. unfold update.
  rewrite (int_Ok_not_None _ _ Hi), Hi, Hu.
  unfold mbind at 1, St_bind, get_meds.
  rewrite (in_range_nat _ _ _ Hmed), Nat2Z.id.
  unfold mbind, St_bind, on_med, dict_update. rewrite Hmed.
  by destruct (_recalc_next_refill_for_entry today (u ∪ med)) as [med' [[]|e]].
Qed.

(** X8. [update] with a valid index and a mapping [u] for payload (or a
    missing or empty payload, [u] then being empty) replaces the record
    by a shallow merge: every field of the payload other than
    [next_refill] takes the payload's value, without any coercion or
    check, and every other field of the record but [next_refill] is
    kept. When the handler returns, [next_refill] holds a date computed
    from the merged record, so a [next_refill] given in the payload is
    never kept. *)
Theorem update_merges_the_payload
    (today : Z) (call : dict) (s : MedStore) (i : nat) (med u : dict) :
  Py.int (Py.get call "index" VNone) = Ok (Z.of_nat i) →
  meds s !! i = Some med →
  Py.or_ (Py.get call "updates" VNone) (VDict ∅) = VDict u →
  let r := update today call s in
  ∃ med',
    meds r.1 = <[i := med']> (meds s) ∧
    (∀ k v, k ≠ "next_refill" → u !! k = Some v → med' !! k = Some v) ∧
    (∀ k, k ≠ "next_refill" → u !! k = None → med' !! k = med !! k) ∧
    (r.2 = Ok () →
       ∃ date, med' = <["next_refill" := VStr date]> (u ∪ med) ∧
               (_recalc_next_refill_for_entry today (u ∪ med)).1 = med').
Proof.
  intros Hi Hmed Hu r. subst r.
  rewrite (update_addressed today call s i med u Hi Hmed Hu).
  pose proof (recalc_other_keys today (u ∪ med)) as Hkeys.
  pose proof (recalc_returns_date today (u ∪ med)) as Hdate.
  destruct (_recalc_next_refill_for_entry today (u ∪ med)) as [med' [[]|e]];
    simpl in *; exists med'.
  - split_and!; [done | | |].
    + intros k v Hk Hv. rewrite (Hkeys k Hk). by apply lookup_union_Some_l.
    + intros k Hk Hv. rewrite (Hkeys k Hk). by rewrite lookup_union_r.
    + intros _. destruct (Hdate eq_refl) as [date ->]. by exists date.
  - split_and!; [done | | | done].
    + intros k v Hk Hv. rewrite (Hkeys k Hk). by apply lookup_union_Some_l.
    + intros k Hk Hv. rewrite (Hkeys k Hk). by rewrite lookup_union_r.
Qed.

(** A payload that renames the example record and gives a
    [next_refill] of its own. *)
Lemma update_example :
  let u : dict := list_to_map [("name", VStr "Aspirin"); ("next_refill", VStr "never")] in
  let call : dict := list_to_map [("index", VInt 0); ("updates", VDict u)] in
  ∃ med',
    meds (update 739923 call example_store).1 = [med'] ∧
    med' !! "name" = Some (VStr "Aspirin") ∧
    med' !! "dose" = Some (VInt 2) ∧
    med' !! "next_refill" = Some (VStr "2026-11-03").
Proof.
  intros u call.
  destruct (update_merges_the_payload 739923 call example_store 0 example_med u)
    as (med' & Hmeds & Hu & Hkeep & Hok); [reflexivity | reflexivity | reflexivity |].
  exists med'. split_and!.
  - exact Hmeds.
  - by apply Hu.
  - by rewrite Hkeep.
  - destruct (Hok eq_refl) as (date & _ & <-). reflexivity.
Defined.

(** X9. [update] is not atomic: when the merged record has a [dose]
    that [int] rejects (and a [doses_available] it accepts, which is
    read first), the handler raises the error of the coercion after the
    payload was merged into the record in memory; nothing is saved and
    no signal is sent. *)
Theorem update_keeps_the_merge_when_the_estimator_raises
    (today : Z) (call : dict) (s : MedStore) (i : nat) (med u : dict)
    (a : Z) (e : exn) :
  Py.int (Py.get call "index" VNone) = Ok (Z.of_nat i) →
  meds s !! i = Some med →
  Py.or_ (Py.get call "updates" VNone) (VDict ∅) = VDict u →
  Py.int (Py.get (u ∪ med) "doses_available" (VInt 0)) = Ok a →
  Py.int (Py.get (u ∪ med) "dose" (VInt 1)) = Raise e →
  update today call s = (with_meds (<[i := u ∪ med]> (meds s)) s, Raise e).
Proof.
  intros Hi Hmed Hu Ha Hd.
  rewrite (update_addressed today call s i med u Hi Hmed Hu).
  unfold _recalc_next_refill_for_entry, mbind, St_bind, med_get, lift, med_set.
  by rewrite Ha, Hd.
Qed.

(** A dose that is not a number. *)
Lemma update_bad_dose_example :
  let u : dict := {[ "dose" := VStr "two" ]} in
  let call : dict := list_to_map [("index", VInt 0); ("updates", VDict u)] in
  update 739923 call example_store
  = ({| meds := [<["dose" := VStr "two"]> example_med];
        _med_entities := ∅; trace := [] |}, Raise ValueError).
Proof.
  intros u call.
  rewrite (update_keeps_the_merge_when_the_estimator_raises
             739923 call example_store 0 example_med u 3 ValueError);
    reflexivity.
Defined.

(** ** The fields each handler writes *)

Lemma writes_only_refl (keys : list string) (s : MedStore) : writes_only keys s s.
Proof. unfold writes_only. apply Forall_Forall2_diag, Forall_forall. done. Qed.

Lemma touches_one_record_refl (s : MedStore) : touches_one_record s s.
Proof. by exists 0%nat. Qed.

Lemma writes_only_insert
    (keys : list string) (s s' : MedStore) (i : nat) (med med' : dict) :
  meds s !! i = Some med →
  meds s' = <[i := med']> (meds s) →
  (∀ k, k ∉ keys → med' !! k = med !! k) →
  writes_only keys s s' ∧ touches_one_record s s'.
Proof.
  intros Hmed Hs' Hkeys. unfold writes_only, touches_one_record. rewrite Hs'. split.
  - rewrite <- (list_insert_id (meds s) i med) at 1 by done.
    apply Forall2_insert; [|done].
    apply Forall_Forall2_diag, Forall_forall. done.
  - exists i. intros j Hj. by rewrite list_lookup_insert_ne.
Qed.

(** A body run on the record [i], whatever follows it that leaves the
    records alone. *)
Lemma on_med_then_meds {A}
    (i : nat) (body : St dict A) (k : A → St MedStore unit)
    (s : MedStore) (med : dict) :
  meds s !! i = Some med →
  (∀ a s1, meds (k a s1).1 = meds s1) →
  meds ((on_med i body ≫= k) s).1 = <[i := (body med).1]> (meds s).
Proof.
  intros Hmed Hk. unfold mbind, St_bind, on_med. rewrite Hmed.
  destruct (body med) as [med' [a|e]]; simpl; [|done].
  specialize (Hk a (with_meds (<[i:=med']> (meds s)) s)).
  by destruct (k a _).
Qed.

Lemma guarded_by_range (i : Z) (body : St MedStore unit) (s : MedStore) :
  (get_meds ≫= λ l, if in_range i l then body else mret ()) s
  = if in_range i (meds s) then body s else (s, Ok ()).
Proof. unfold mbind, St_bind, get_meds. by destruct (in_range i (meds s)). Qed.

Lemma toggle_active_meds (call : dict) (s : MedStore) :
  meds (toggle_active call s).1 = meds s ∨
  ∃ i med, meds s !! i = Some med ∧
    meds (toggle_active call s).1 = <[i := (toggle_active_entry med).1]> (meds s).
Proof.
  unfold toggle_active. destruct (Py.is_None _); [by left|].
  destruct (Py.int _) as [i|e]; [|left; by destruct (caught e)].
  rewrite !guarded_by_range.
  destruct (in_range i (meds s)) eqn:Hi; [|by left].
  apply in_range_spec in Hi.
  destruct (lookup_lt_is_Some_2 (meds s) (Z.to_nat i)) as [med Hmed]; [lia|].
  right. exists (Z.to_nat i), med. split; [done|].
  by apply on_med_then_meds.
Qed.

Lemma add_refill_meds (today : Z) (call : dict) (s : MedStore) :
  meds (add_refill today call s).1 = meds s ∨
  ∃ i med, meds s !! i = Some med ∧
    meds (add_refill today call s).1
    = <[i := (add_refill_entry today (Py.get call "amount" (VInt 0)) med).1]> (meds s).
Proof.
  unfold add_refill. destruct (Py.is_None _); [by left|].
  destruct (Py.int _) as [i|e]; [|left; by destruct (caught e)].
  rewrite !guarded_by_range.
  destruct (in_range i (meds s)) eqn:Hi; [|by left].
  apply in_range_spec in Hi.
  destruct (lookup_lt_is_Some_2 (meds s) (Z.to_nat i)) as [med Hmed]; [lia|].
  right. exists (Z.to_nat i), med. split; [done|].
  by apply on_med_then_meds.
Qed.

Lemma take_dose_meds (today : Z) (call : dict) (s : MedStore) :
  meds (take_dose today call s).1 = meds s ∨
  ∃ i d med, meds s !! i = Some med ∧
    meds (take_dose today call s).1 = <[i := (take_dose_entry today d med).1]> (meds s).
Proof.
  unfold take_dose. destruct (_ || _); [by left|].
  destruct (_ ≫= _) as [[i d]|e]; [|left; by destruct (caught e)].
  rewrite !guarded_by_range.
  destruct (in_range i (meds s)) eqn:Hi; [|by left].
  apply in_range_spec in Hi.
  destruct (lookup_lt_is_Some_2 (meds s) (Z.to_nat i)) as [med Hmed]; [lia|].
  right. exists (Z.to_nat i), d, med. split; [done|].
  apply on_med_then_meds; [done|]. by intros [] s1.
Qed.

Lemma add_refill_entry_writes (today : Z) (amount : pyval) (med : dict) (k : string) :
  k ∉ ["doses_available"; "refills_available"; "next_refill"] →
  (add_refill_entry today amount med).1 !! k = med !! k.
Proof.
  intros Hk.
  assert (k ≠ "doses_available" ∧ k ≠ "refills_available" ∧ k ≠ "next_refill")
    as (? & ? & ?) by (split_and!; intros ->; apply Hk; set_solver).
  unfold add_refill_entry, mbind, St_bind, med_get, lift, med_set, mret, St_ret.
  destruct (Py.int amount); [|done].
  destruct (Py.add_int _ _); [|done]. simpl.
  destruct (Py.gt_int _ _) as [[]|]; simpl; [| |by rewrite lookup_insert_ne].
  - destruct (Py.add_int _ _); simpl; [|by rewrite lookup_insert_ne].
    destruct (Py.max_int _ _); simpl; [|by rewrite lookup_insert_ne].
    rewrite recalc_other_keys by done. by rewrite !lookup_insert_ne.
  - rewrite recalc_other_keys by done. by rewrite lookup_insert_ne.
Qed.

Lemma take_dose_entry_writes (today d : Z) (med : dict) (k : string) :
  k ∉ ["taken_count_per_dose"; "doses_available"; "all_taken"; "next_refill"] →
  (take_dose_entry today d med).1 !! k = med !! k.
Proof.
  intros Hk.
  assert (k ≠ "taken_count_per_dose" ∧ k ≠ "doses_available" ∧
          k ≠ "all_taken" ∧ k ≠ "next_refill")
    as (? & ? & ? & ?) by (split_and!; intros ->; apply Hk; set_solver).
  apply (take_dose_entry_preserves (λ m, m !! k = med !! k)); [|done].
  split_and!; intros; by rewrite lookup_insert_ne.
Qed.

Lemma reset_entry_writes (med : dict) (k : string) :
  k ∉ ["taken_count_per_dose"; "all_taken"] →
  (reset_entry med).1 !! k = med !! k.
Proof.
  intros Hk.
  assert (k ≠ "taken_count_per_dose" ∧ k ≠ "all_taken")
    as (? & ?) by (split_and!; intros ->; apply Hk; set_solver).
  unfold reset_entry, mbind, St_bind, med_get, lift, med_set, mret, St_ret.
  destruct (if Py.truthy _ then _ else _) as [[]|]; simpl; [|done|done].
  destruct (Py.len _); simpl; [|done]. by rewrite !lookup_insert_ne.
Qed.

Lemma reset_loop_writes (l : list dict) (changed : bool) :
  Forall2 (λ med med' : dict,
             ∀ k, k ∉ ["taken_count_per_dose"; "all_taken"] → med' !! k = med !! k)
          l (reset_loop changed l).1.
Proof.
  revert changed. induction l as [|med l IH]; intros changed; [constructor|].
  simpl. pose proof (reset_entry_writes med) as Hmed.
  destruct (reset_entry med) as [med' [b|e]]; simpl in *.
  - specialize (IH (changed || b)).
    destruct (reset_loop (changed || b) l) as [l' r]. by constructor.
  - constructor; [done|]. apply Forall_Forall2_diag, Forall_forall. done.
Qed.

(** X10. Whatever the payload and however the call ends, a handler
    writes its own fields only, and in one record at most:
    [toggle_active] writes [active]; [add_refill] writes
    [doses_available], [refills_available] and [next_refill];
    [take_dose] writes [taken_count_per_dose], [doses_available],
    [all_taken] and [next_refill]. The midnight reset writes
    [taken_count_per_dose] and [all_taken] only, in any number of
    records. Names, strengths, doses and timings are never written by
    these four. *)
Theorem handlers_write_only_their_fields (today : Z) (call : dict) (s : MedStore) :
  (writes_only ["active"] s (toggle_active call s).1 ∧
   touches_one_record s (toggle_active call s).1) ∧
  (writes_only ["doses_available"; "refills_available"; "next_refill"]
     s (add_refill today call s).1 ∧
   touches_one_record s (add_refill today call s).1) ∧
  (writes_only ["taken_count_per_dose"; "doses_available"; "all_taken"; "next_refill"]
     s (take_dose today call s).1 ∧
   touches_one_record s (take_dose today call s).1) ∧
  writes_only ["taken_count_per_dose"; "all_taken"] s (async_midnight_reset s).1.
Proof.
  split; [|split; [|split]].
  - destruct (toggle_active_meds call s) as [H|(i & med & Hmed & H)].
    + unfold writes_only, touches_one_record. rewrite H.
      split; [apply writes_only_refl | apply touches_one_record_refl].
    + eapply writes_only_insert; [done | done |].
      intros k Hk. simpl. rewrite lookup_insert_ne; [done|]. set_solver.
  - destruct (add_refill_meds today call s) as [H|(i & med & Hmed & H)].
    + unfold writes_only, touches_one_record. rewrite H.
      split; [apply writes_only_refl | apply touches_one_record_refl].
    + eapply writes_only_insert; [done | done |]. apply add_refill_entry_writes.
  - destruct (take_dose_meds today call s) as [H|(i & d & med & Hmed & H)].
    + unfold writes_only, touches_one_record. rewrite H.
      split; [apply writes_only_refl | apply touches_one_record_refl].
    + eapply writes_only_insert; [done | done |]. apply take_dose_entry_writes.
  - unfold writes_only, async_midnight_reset, mbind, St_bind.
    pose proof (reset_loop_writes (meds s) false) as H.
    by destruct (reset_loop false (meds s)) as [l' [[]|e]].
Qed.

(** ** all_taken *)

Lemma counted_all_ge1 (k : nat) (t : list pyval) (c : list Z) :
  (k < length t)%nat → (length c ≤ length t)%nat → Forall (Z.le 0) c →
  forallb (Z.leb 1) (counted k t c) = true ↔
  ∀ j, (j < length t)%nat → j ≠ k → ∃ cj, c !! j = Some cj ∧ 1 ≤ cj.
Proof.
  intros Hk Hlen Hpos.
  assert (Hpl : length (padded t c) = length t) by (rewrite padded_length; lia).
  assert (Hpad : ∀ j z, padded t c !! j = Some z →
                        c !! j = Some z ∨ (c !! j = None ∧ z = 0)).
  { intros j z. unfold padded. destruct (decide (j < length c)%nat).
    - rewrite lookup_app_l by done. by left.
    - rewrite lookup_app_r by lia. intros [-> _]%lookup_replicate.
      right. split; [apply lookup_ge_None; lia | done]. }
  rewrite <- Is_true_true, forallb_True, Forall_lookup. split.
  - intros H j Hj Hne.
    destruct (lookup_lt_is_Some_2 (padded t c) j) as [z Hz]; [lia|].
    assert (1 ≤ z).
    { apply Z.leb_le, Is_true_true, (H j).
      unfold counted. by rewrite list_lookup_insert_ne. }
    destruct (Hpad j z Hz) as [?|[_ ->]]; [by exists z | lia].
  - intros H j x Hx.
    apply Is_true_true, Z.leb_le. unfold counted in Hx.
    destruct (decide (j = k)) as [->|Hne].
    + rewrite list_lookup_insert_eq in Hx by lia. injection Hx as <-.
      destruct (padded t c !! k) as [z|] eqn:Hz; simpl; [|lia].
      destruct (Hpad k z Hz) as [Hc|[_ ->]]; [|lia].
      pose proof (proj1 (Forall_lookup _ _) Hpos k z Hc). simpl in *. lia.
    + rewrite list_lookup_insert_ne in Hx by done.
      assert (j < length t)%nat by (apply lookup_lt_Some in Hx; lia).
      destruct (H j) as (cj & Hcj & ?); [done | done |].
      destruct (Hpad j x Hx) as [Hc|[Hc _]]; congruence.
Qed.

(** X11. After a [take_dose] on slot [k] of a record with a timing
    list, non-negative integer counters no longer than the timing list,
    and integer inventory and dose, [all_taken] is a boolean, and it is
    true exactly when every other slot of the timing list already had a
    count of at least one: the flag is recomputed from the counters at
    every dose, and slots that had no counter yet count as not taken. *)
Theorem take_dose_sets_all_taken
    (today : Z) (call : dict) (s : MedStore) (i k : nat) (med : dict)
    (t : list pyval) (c : list Z) (a d dpd : Z) :
  meds s !! i = Some med →
  tracks med t c a d dpd →
  0 ≤ a → 0 ≤ d →
  valid_take i t a (today, call) k →
  (length c ≤ length t)%nat → Forall (Z.le 0) c →
  ∃ med' b,
    meds (take_dose today call s).1 !! i = Some med' ∧
    med' !! "all_taken" = Some (VBool b) ∧
    (b = true ↔ ∀ j, (j < length t)%nat → j ≠ k → ∃ cj, c !! j = Some cj ∧ 1 ≤ cj).
Proof.
  intros Hmed Htr Ha Hd Hvalid Hlen Hpos.
  rewrite (take_dose_ok today call s i k med t c a d dpd) by done.
  exists (dose_taken today k t c a d dpd med), (forallb (Z.leb 1) (counted k t c)).
  split_and!.
  - simpl. apply list_lookup_insert_eq. by apply lookup_lt_Some in Hmed.
  - unfold dose_taken. by rewrite lookup_insert_ne, lookup_insert_eq.
  - apply counted_all_ge1; [|done|done]. by destruct Hvalid as (_ & ? & _).
Qed.

(** On the example record, the first dose of the day leaves the flag
    false and the dose of the other slot sets it. *)
Lemma take_dose_all_taken_example :
  let call1 : dict := list_to_map [("index", VInt 0); ("dose_index", VInt 1)] in
  let call0 : dict := list_to_map [("index", VInt 0); ("dose_index", VInt 0)] in
  let s1 := (take_dose 739923 call1 example_store).1 in
  (∃ med', meds s1 !! 0%nat = Some med' ∧ med' !! "all_taken" = Some (VBool false)) ∧
  (∃ med', meds (take_dose 739923 call0 s1).1 !! 0%nat = Some med' ∧
           med' !! "all_taken" = Some (VBool true)).
Proof.
  intros call1 call0 s1.
  assert (Hv : ∀ (call : dict) (k : nat) (a : Z),
            Py.int (Py.get call "index" VNone) = Ok 0 →
            Py.int (Py.get call "dose_index" VNone) = Ok (Z.of_nat k) →
            (k < 2)%nat → a ≤ 10 →
            valid_take 0 [VStr "08:00"; VStr "20:00"] a (739923, call) k).
  { intros call k a H1 H2 Hk Ha.
    split_and!; simpl; [by split | lia | lia | unfold Date.MAXORDINAL; lia]. }
  split.
  - destruct (take_dose_sets_all_taken 739923 call1 example_store 0 1 example_med
                [VStr "08:00"; VStr "20:00"] [0; 0] 3 2 2)
      as (med' & b & Hm & Hall & Hiff);
      [reflexivity | by split_and! | lia | lia | by apply Hv; try lia
      | simpl; lia | by repeat constructor |].
    exists med'. split; [exact Hm|]. rewrite Hall. do 2 f_equal.
    destruct b; [|done]. destruct (proj1 Hiff eq_refl 0%nat) as (cj & [= <-] & ?);
      [simpl; lia | done | lia].
  - destruct (take_dose_sets_all_taken 739923 call0 s1 0 0
                (dose_taken 739923 1 [VStr "08:00"; VStr "20:00"] [0; 0] 3 2 2 example_med)
                [VStr "08:00"; VStr "20:00"] [0; 1] 1 2 2)
      as (med' & b & Hm & Hall & Hiff);
      [reflexivity | by split_and! | lia | lia | by apply Hv; try lia
      | simpl; lia | by repeat constructor |].
    exists med'. split; [exact Hm|]. rewrite Hall. do 2 f_equal.
    apply Hiff. clear. intros [|[|j]] Hj Hne; [done | by exists 1 | simpl in Hj; lia].
Defined.

(** ** More on the midnight reset *)

Lemma reset_entry_flag (med : dict) :
  reset_typed med → reset_entry med = (swept med, Ok (due med)).
Proof.
  intros [[n Hn] [t Ht]].
  unfold reset_entry, swept, due, is_active, doses_per_day_of in *.
  unfold mbind, St_bind, med_get, lift, med_set, mret, St_ret.
  rewrite (gt_int_int _ _ _ Hn), !Hn.
  destruct (Py.truthy _); simpl; [|by rewrite Ht].
  destruct (0 <? n); simpl; rewrite Ht; [|done].
  simpl. unfold Py.zeros. by rewrite Nat2Z.id.
Qed.

Lemma reset_loop_flag (l : list dict) (changed : bool) :
  Forall reset_typed l →
  reset_loop changed l = (swept <$> l, Ok (changed || existsb due l)).
Proof.
  intros H. revert changed. induction H as [|med l Hmed _ IH]; intros changed.
  - simpl. by rewrite orb_false_r.
  - simpl. rewrite (reset_entry_flag med Hmed), IH. by rewrite orb_assoc.
Qed.

Lemma swept_not_due (med : dict) : due med = false → swept med = med.
Proof.
  unfold due, swept. destruct (doses_per_day_of med); [|done].
  intros ->. by destruct (Py.get med "timing" (VList [])).
Qed.

Lemma swept_reads (med : dict) (k : string) (v : pyval) :
  k ≠ "taken_count_per_dose" → k ≠ "all_taken" →
  Py.get (swept med) k v = Py.get med k v.
Proof.
  intros H1 H2. unfold swept.
  destruct (doses_per_day_of med); [|done].
  destruct (Py.get med "timing" (VList [])); try done.
  destruct (_ && _); [|done].
  unfold zeroed, Py.get. by rewrite !lookup_insert_ne.
Qed.

Lemma swept_typed (med : dict) : reset_typed med → reset_typed (swept med).
Proof.
  unfold reset_typed, doses_per_day_of. by rewrite !swept_reads.
Qed.

Lemma swept_due (med : dict) : due (swept med) = due med.
Proof. unfold due, doses_per_day_of, is_active. by rewrite !swept_reads. Qed.

Lemma swept_idemp (med : dict) : swept (swept med) = swept med.
Proof.
  unfold swept at 1. unfold doses_per_day_of, is_active. rewrite !swept_reads by done.
  unfold swept, doses_per_day_of, is_active.
  destruct (Py.as_int (Py.get med "doses_per_day" (VInt 0))); [|done].
  destruct (Py.get med "timing" (VList [])); try done.
  destruct (_ && _); [|done].
  unfold zeroed.
  rewrite (insert_insert_ne _ "taken_count_per_dose" "all_taken") by done.
  by rewrite !insert_insert_eq.
Qed.

Lemma with_meds_id (s : MedStore) : with_meds (meds s) s = s.
Proof. by destruct s. Qed.

(** X12. On a store whose records have the types the sweep reads, the
    midnight reset saves and signals exactly when some record is due,
    that is active with a positive [doses_per_day], whether or not the
    sweep changed anything in it; when no record is due the store is
    left exactly as it was. *)
Theorem midnight_reset_saves_when_a_record_is_due (s : MedStore) :
  Forall reset_typed (meds s) →
  let s' := (async_midnight_reset s).1 in
  trace s' = trace s ++ (if existsb due (meds s) then [Saved; Dispatched] else []) ∧
  (existsb due (meds s) = false → s' = s).
Proof.
  intros H s'. subst s'. unfold async_midnight_reset, mbind, St_bind.
  rewrite (reset_loop_flag (meds s) false H). simpl.
  destruct (existsb due (meds s)) eqn:E; simpl.
  - split; [by rewrite <- app_assoc | done].
  - split; [by rewrite app_nil_r|]. intros _.
    assert (Hsw : swept <$> meds s = meds s); [|by rewrite Hsw, with_meds_id].
    clear H. induction (meds s) as [|med l IH]; [done|].
    simpl in E. apply orb_false_iff in E as [Hd E].
    csimpl. by rewrite (swept_not_due med Hd), IH.
Qed.

(** The example record is due; an inactive one is not. *)
Lemma midnight_reset_saves_example :
  trace (async_midnight_reset example_store).1 = [Saved; Dispatched] ∧
  (async_midnight_reset
     {| meds := [<["active" := VBool false]> example_med];
        _med_entities := ∅; trace := [] |}).1
  = {| meds := [<["active" := VBool false]> example_med];
       _med_entities := ∅; trace := [] |}.
Proof.
  split.
  - refine (proj1 (midnight_reset_saves_when_a_record_is_due example_store _)).
    repeat constructor; [by exists 2 | by eexists].
  - set (s := {| meds := [<["active" := VBool false]> example_med];
                 _med_entities := ∅; trace := [] |}).
    assert (Hs : Forall reset_typed (meds s)).
    { repeat constructor; [by exists 2 | by eexists]. }
    exact (proj2 (midnight_reset_saves_when_a_record_is_due s Hs) eq_refl).
Defined.

(** X13. A second sweep right after the first changes no record, and
    yet it saves and signals again whenever some record is due. *)
Theorem midnight_reset_twice (s : MedStore) :
  Forall reset_typed (meds s) →
  let s1 := (async_midnight_reset s).1 in
  let s2 := (async_midnight_reset s1).1 in
  (async_midnight_reset s1).2 = Ok () ∧
  meds s2 = meds s1 ∧
  trace s2 = trace s1 ++ (if existsb due (meds s) then [Saved; Dispatched] else []).
Proof.
  intros H s1 s2.
  assert (Hs1 : meds s1 = swept <$> meds s).
  { subst s1. unfold async_midnight_reset, mbind, St_bind.
    rewrite (reset_loop_flag (meds s) false H). simpl.
    by destruct (existsb due (meds s)). }
  assert (H1 : Forall reset_typed (meds s1)).
  { rewrite Hs1. apply Forall_fmap. eapply Forall_impl; [done|]. apply swept_typed. }
  assert (Hdue : existsb due (meds s1) = existsb due (meds s)).
  { rewrite Hs1. clear. induction (meds s) as [|med l IH]; [done|].
    csimpl. by rewrite swept_due, IH. }
  subst s2. unfold async_midnight_reset at 1 2 3, mbind, St_bind.
  rewrite (reset_loop_flag (meds s1) false H1). simpl. rewrite Hdue.
  assert (Hidem : swept <$> meds s1 = meds s1).
  { rewrite Hs1, <- list_fmap_compose. apply list_fmap_ext.
    intros j med _. apply swept_idemp. }
  destruct (existsb due (meds s)); simpl; rewrite Hidem.
  - split_and!; [done | done | by rewrite <- app_assoc].
  - split_and!; [done | done | by rewrite app_nil_r].
Qed.

(** Two sweeps of the example store. *)
Lemma midnight_reset_twice_example :
  let s1 := (async_midnight_reset example_store).1 in
  meds (async_midnight_reset s1).1 = meds s1 ∧
  trace (async_midnight_reset s1).1 = [Saved; Dispatched; Saved; Dispatched].
Proof.
  intros s1.
  destruct (midnight_reset_twice example_store) as (_ & H2 & H3).
  { repeat constructor; [by exists 2 | by eexists]. }
  split; [exact H2 | exact H3].
Defined.

Lemma reset_entry_raises_unchanged (med : dict) (e : exn) :
  (reset_entry med).2 = Raise e → (reset_entry med).1 = med.
Proof.
  unfold reset_entry, mbind, St_bind, med_get, lift, med_set, mret, St_ret.
  destruct (if Py.truthy _ then _ else _) as [[]|]; simpl; [|done|done].
  by destruct (Py.len _).
Qed.

Lemma reset_loop_app (good : list dict) (bad : dict) (rest : list dict)
    (changed : bool) (e : exn) :
  Forall reset_typed good →
  (reset_entry bad).2 = Raise e →
  reset_loop changed (good ++ bad :: rest)
  = ((swept <$> good) ++ bad :: rest, Raise e).
Proof.
  intros H Hbad. revert changed. induction H as [|med l Hmed _ IH]; intros changed.
  - simpl. pose proof (reset_entry_raises_unchanged bad e Hbad) as Hsame.
    destruct (reset_entry bad) as [bad' [b|e']]; simpl in *; [done|].
    by simplify_eq.
  - simpl. rewrite (reset_entry_flag med Hmed), IH. done.
Qed.

(** X14. The sweep is not atomic either: when a record makes the
    condition or [len(timing)] raise, the exception leaves the handler;
    the records before it have been reset in memory, that record and
    the ones after it are as they were, and nothing is saved or
    signalled. *)
Theorem midnight_reset_stops_at_a_bad_record
    (s : MedStore) (good : list dict) (bad : dict) (rest : list dict) (e : exn) :
  meds s = good ++ bad :: rest →
  Forall reset_typed good →
  (reset_entry bad).2 = Raise e →
  async_midnight_reset s = (with_meds ((swept <$> good) ++ bad :: rest) s, Raise e).
Proof.
  intros Hmeds Hgood Hbad. unfold async_midnight_reset, mbind, St_bind.
  by rewrite Hmeds, (reset_loop_app good bad rest false e Hgood Hbad).
Qed.

(** The example record, then a record whose [doses_per_day] is a
    string, then the example record again, with a dose taken in each. *)
Lemma midnight_reset_bad_record_example :
  let taken := <["taken_count_per_dose" := VList [VInt 1; VInt 0]]> example_med in
  let bad : dict := {[ "doses_per_day" := VStr "2" ]} in
  let s := {| meds := [taken; bad; taken]; _med_entities := ∅; trace := [] |} in
  async_midnight_reset s
  = ({| meds := [<["all_taken" := VBool false]> example_med; bad; taken];
        _med_entities := ∅; trace := [] |}, Raise TypeError).
Proof.
  intros taken bad s.
  rewrite (midnight_reset_stops_at_a_bad_record s [taken] bad [taken] TypeError);
    [reflexivity | reflexivity | | reflexivity].
  repeat constructor; [by exists 2 | by eexists].
Defined.

(** ** The sensor entities *)

Lemma setup_loop_lookup (f : nat → entity) (n : nat) :
  ∀ (m : gmap nat entity) (a j : nat),
    foldl (λ m i, <[i := f i]> m) m (seq a n) !! j
    = if decide (a ≤ j < a + n)%nat then Some (f j) else m !! j.
Proof.
  induction n as [|n IH]; intros m a j; simpl.
  - destruct (decide _); [lia | done].
  - rewrite IH. destruct (decide (S a ≤ j < S a + n)%nat).
    + by rewrite decide_True by lia.
    + destruct (decide (j = a)) as [->|Hne].
      * rewrite decide_True by lia. by rewrite lookup_insert_eq.
      * rewrite decide_False by lia. by rewrite lookup_insert_ne.
Qed.

Lemma setup_lookup (DOMAIN : string) (s : MedStore) (j : nat) :
  _med_entities (async_setup_platform DOMAIN s) !! j
  = if decide (j < length (meds s))%nat
    then Some (MedStoreMedicationEntity DOMAIN j)
    else _med_entities s !! j.
Proof.
  unfold async_setup_platform. simpl. rewrite setup_loop_lookup.
  destruct (decide (j < length (meds s))%nat).
  - by rewrite decide_True by lia.
  - by rewrite decide_False by lia.
Qed.

(** X15. The platform setup leaves the records alone and gives each
    record one entity, keyed by the record's position and built for it;
    entries of the entity map at other keys are kept. The attributes of
    the entity of record [j] are then the record's fields together with
    [index = j], a field [index] of the record itself taking
    precedence. *)
Theorem setup_creates_one_entity_per_record (DOMAIN : string) (s : MedStore) :
  let s' := async_setup_platform DOMAIN s in
  meds s' = meds s ∧ trace s' = trace s ∧
  (∀ j, (j < length (meds s))%nat →
        _med_entities s' !! j = Some (MedStoreMedicationEntity DOMAIN j)) ∧
  (∀ j, (length (meds s) ≤ j)%nat → _med_entities s' !! j = _med_entities s !! j) ∧
  (∀ j med, meds s !! j = Some med →
     ∃ e, _med_entities s' !! j = Some e ∧
          MedicationEntity.extra_state_attributes e s'
          = med ∪ {[ "index" := VInt (Z.of_nat j) ]}).
Proof.
  intros s'. split_and!; [done | done | | |].
  - intros j Hj. subst s'. rewrite setup_lookup. by rewrite decide_True.
  - intros j Hj. subst s'. rewrite setup_lookup. by rewrite decide_False by lia.
  - intros j med Hmed. exists (MedStoreMedicationEntity DOMAIN j). split.
    + subst s'. rewrite setup_lookup.
      rewrite decide_True; [done|]. by apply lookup_lt_Some in Hmed.
    + unfold MedicationEntity.extra_state_attributes. simpl. by rewrite Hmed.
Qed.

(** X16. After a resync no entity is stale: each entity left in the map
    has the key it is stored under for index and in its unique id, and
    that key is the position of a record, whose fields the entity shows
    as its attributes. *)
Theorem resync_leaves_no_stale_entity
    (DOMAIN : string) (s : MedStore) (j : nat) (e : entity) :
  let s' := (_sync_med_entities DOMAIN s).1 in
  _med_entities s' !! j = Some e →
  _index e = j ∧
  _attr_unique_id e = DOMAIN +:+ "_med_" +:+ pretty j ∧
  ∃ med, meds s' !! j = Some med ∧
         MedicationEntity.extra_state_attributes e s'
         = med ∪ {[ "index" := VInt (Z.of_nat j) ]}.
Proof.
  intros s' He. subst s'.
  destruct (sync_spec DOMAIN s)
    as (_ & Hmeds & kept & removed & _ & _ & _ & Hlookup & Hsome & Hle & _).
  assert (Hj : (j < length (meds s))%nat).
  { assert (j < length kept)%nat by (apply Hsome; by eexists). lia. }
  rewrite Hlookup in He.
  destruct (kept !! j) as [k|]; [|done]. simpl in He.
  destruct (_med_entities s !! k) as [e0|]; [|done].
  injection He as <-. split_and!; [done | done |].
  destruct (lookup_lt_is_Some_2 (meds s) j Hj) as [med Hmed].
  exists med. rewrite Hmeds. split; [done|].
  unfold MedicationEntity.extra_state_attributes. rewrite Hmeds. simpl.
  by rewrite Hmed.
Qed.

(** An entity left over at key 5 of a store with one record. *)
Lemma resync_no_stale_example :
  let e5 := MedStoreMedicationEntity "medstore" 5 in
  let s := {| meds := [example_med]; _med_entities := {[ 0%nat := e5 ]}; trace := [] |} in
  _med_entities (_sync_med_entities "medstore" s).1 !! 0%nat
  = Some {| _index := 0; _attr_name := "Medstore med 5";
            _attr_unique_id := "medstore_med_0" |} ∧
  MedicationEntity.extra_state_attributes
    {| _index := 0; _attr_name := "Medstore med 5";
       _attr_unique_id := "medstore_med_0" |} (_sync_med_entities "medstore" s).1
  = example_med ∪ {[ "index" := VInt 0 ]}.
Proof.
  intros e5 s.
  assert (He : _med_entities (_sync_med_entities "medstore" s).1 !! 0%nat
               = Some {| _index := 0; _attr_name := "Medstore med 5";
                         _attr_unique_id := "medstore_med_0" |}) by reflexivity.
  split; [exact He|].
  destruct (resync_leaves_no_stale_entity "medstore" s 0 _ He)
    as (_ & _ & med & Hmed & ->).
  by injection Hmed as <-.
Defined.

Lemma seq_ascending (a n : nat) : StronglySorted (<)%nat (seq a n).
Proof.
  revert a. induction n as [|n IH]; intros a; simpl; constructor; [apply IH|].
  apply Forall_forall. intros k Hk%elem_of_seq. lia.
Qed.

Lemma ascending_NoDup (l : list nat) : StronglySorted (<)%nat l → NoDup l.
Proof.
  induction 1 as [|x l _ IH Hx]; constructor; [|done].
  intros Hin. pose proof (proj1 (Forall_forall _ _) Hx x Hin). lia.
Qed.

(** The ascending list of the keys below [m]. *)
Lemma ascending_prefix (kept : list nat) (m : nat) :
  StronglySorted (<)%nat kept → (∀ k, k ∈ kept ↔ (k < m)%nat) → kept = seq 0 m.
Proof.
  intros Hs Hin.
  apply (StronglySorted_unique_strong (<)%nat); [intros; lia | done | apply seq_ascending |].
  apply NoDup_Permutation; [by apply ascending_NoDup | apply NoDup_seq |].
  intros k. rewrite Hin, elem_of_seq. lia.
Qed.

(** X17. On a store set up from an empty entity map, a [delete] with a
    valid index [i] removes the entity of the last position, not the one
    of the deleted record: the entities left are those the setup built
    for the positions below the new number of records, [async_remove]
    is called for the last one, and each entity from [i] on now shows
    the record that followed its own. *)
Theorem delete_after_setup_drops_the_last_entity
    (DOMAIN : string) (call : dict) (s : MedStore) (i : nat) :
  _med_entities s = ∅ →
  Py.int (Py.get call "index" VNone) = Ok (Z.of_nat i) →
  (i < length (meds s))%nat →
  let n := length (meds s) in
  let s2 := (delete DOMAIN call (async_setup_platform DOMAIN s)).1 in
  (∀ j, _med_entities s2 !! j
        = if decide (j < n - 1)%nat then Some (MedStoreMedicationEntity DOMAIN j)
          else None) ∧
  Removed (n - 1) (MedStoreMedicationEntity DOMAIN (n - 1)) ∈ trace s2 ∧
  (∀ j med, (i ≤ j)%nat → meds s !! S j = Some med →
     MedicationEntity.extra_state_attributes (MedStoreMedicationEntity DOMAIN j) s2
     = med ∪ {[ "index" := VInt (Z.of_nat j) ]}).
Proof.
  intros Hempty Hi Hlt n s2. subst s2.
  set (s1 := async_setup_platform DOMAIN s).
  assert (Hm : ∀ k, _med_entities s1 !! k
                    = if decide (k < n)%nat then Some (MedStoreMedicationEntity DOMAIN k)
                      else None).
  { intros k. subst s1. rewrite setup_lookup, Hempty. fold n.
    destruct (decide _); [done | apply lookup_empty]. }
  rewrite (delete_addressed DOMAIN call s1 i Hi Hlt).
  set (s0 := with_event Saved _).
  assert (Hlen : length (meds s0) = (n - 1)%nat).
  { subst s0 s1. simpl. rewrite length_delete by by apply lookup_lt_is_Some_2. done. }
  destruct (sync_spec DOMAIN s0)
    as (_ & Hmeds & kept & removed & Htrace & Hsorted & Hkept & Hlookup & _ & _ & _ & Hrem).
  rewrite Hlen in Hkept, Hrem.
  assert (Hseq : kept = seq 0 (n - 1)).
  { apply ascending_prefix; [done|]. intros k. rewrite Hkept.
    change (_med_entities s0) with (_med_entities s1). rewrite Hm.
    destruct (decide (k < n)%nat); split.
    - by intros [_ ?].
    - intros ?. split; [by eexists | done].
    - by intros [_ ?].
    - intros ?. lia. }
  split_and!.
  - intros j. rewrite Hlookup, Hseq.
    change (_med_entities s0) with (_med_entities s1).
    destruct (decide (j < n - 1)%nat).
    + rewrite lookup_seq_lt by done. simpl. rewrite Hm.
      by rewrite decide_True by lia.
    + by rewrite lookup_seq_ge by lia.
  - rewrite Htrace. apply elem_of_app. right. apply elem_of_app. left.
    apply Hrem. exists (n - 1)%nat, (MedStoreMedicationEntity DOMAIN (n - 1)).
    split_and!; [done | | done].
    change (_med_entities s0) with (_med_entities s1). rewrite Hm.
    by rewrite decide_True by lia.
  - intros j med Hj Hmed.
    unfold MedicationEntity.extra_state_attributes. rewrite Hmeds. simpl.
    by rewrite list_lookup_delete_ge, Hmed.
Qed.

(** Three records, set up, and the first one deleted. *)
Lemma delete_after_setup_example :
  let r (n : string) : dict := {[ "name" := VStr n ]} in
  let s := {| meds := [r "A"; r "B"; r "C"]; _med_entities := ∅; trace := [] |} in
  let s2 := (delete "medstore" {[ "index" := VInt 0 ]}
               (async_setup_platform "medstore" s)).1 in
  _med_entities s2 !! 2%nat = None ∧
  _med_entities s2 !! 1%nat = Some (MedStoreMedicationEntity "medstore" 1) ∧
  MedicationEntity.extra_state_attributes (MedStoreMedicationEntity "medstore" 1) s2
  = r "C" ∪ {[ "index" := VInt 1 ]}.
Proof.
  intros r s s2.
  destruct (delete_after_setup_drops_the_last_entity
              "medstore" {[ "index" := VInt 0 ]} s 0)
    as (Hmap & _ & Hattr); [reflexivity | reflexivity | simpl; lia |].
  split_and!.
  - exact (Hmap 2%nat).
  - exact (Hmap 1%nat).
  - apply (Hattr 1%nat (r "C")); [lia | reflexivity].
Defined.

(** ** The record add builds *)

Lemma new_med_fields (n : nat) (med_data med : dict) :
  new_med n med_data = Ok med →
  dom med = list_to_set med_fields ∧
  ∀ k, k ∈ numeric_fields → ∃ z, med !! k = Some (VInt z).
Proof.
  intros Hnew. unfold new_med in Hnew.
  unfold mbind, res_bind, mret, res_ret in Hnew.
  repeat match type of Hnew with
         | match ?x with _ => _ end = _ => destruct x; [|discriminate]
         end.
  injection Hnew as <-. split.
  - rewrite !dom_insert_L, dom_empty_L. unfold med_fields. simpl. set_solver.
  - intros k Hk. unfold numeric_fields in Hk.
    repeat (apply elem_of_cons in Hk as [->|Hk]); [..|by apply elem_of_nil in Hk];
      eexists; simpl;
      repeat (rewrite lookup_insert_ne by done); by rewrite lookup_insert_eq.
Qed.

(** X18. Whenever [add] returns normally, the record it has appended
    has exactly the twelve fields of the data model, so any other field
    of the payload is dropped; its five numeric fields hold integers,
    whatever the payload gave that [int] accepts; and [next_refill] is
    the date the estimator computes from them, never the payload's. *)
Theorem add_builds_a_normalised_record (today : Z) (call : dict) (s : MedStore) :
  (add today call s).2 = Ok () →
  ∃ med,
    meds (add today call s).1 = meds s ++ [med] ∧
    dom med = list_to_set med_fields ∧
    (∀ k, k ∈ numeric_fields → ∃ z, med !! k = Some (VInt z)) ∧
    ∃ a d dpd date,
      med !! "doses_available" = Some (VInt a) ∧
      med !! "dose" = Some (VInt d) ∧
      med !! "doses_per_day" = Some (VInt dpd) ∧
      Date.plus_days_ymd today (if 0 <? dpd * d then a / (dpd * d) else 0) = Ok date ∧
      med !! "next_refill" = Some (VStr date).
Proof.
  intros Hok.
  destruct (Py.or_ (Py.get call "med_data" VNone) (VDict ∅)) as [| | | | | |med_data] eqn:Hdata;
    try (unfold add in Hok; rewrite Hdata in Hok; discriminate).
  destruct (add_returns today call s med_data Hdata Hok) as (med0 & Hnew & Hmeds).
  destruct (new_med_fields _ _ _ Hnew) as (Hdom & Hnum).
  assert (Hrec : (_recalc_next_refill_for_entry today med0).2 = Ok ()).
  { revert Hok. unfold add. rewrite Hdata.
    unfold mbind, St_bind, get_meds, lift, append_med, on_med. rewrite Hnew. simpl.
    rewrite list_lookup_middle by done.
    by destruct (_recalc_next_refill_for_entry today med0) as [med' [[]|e]]. }
  exists (_recalc_next_refill_for_entry today med0).1.
  split_and!; [done | | |].
  - destruct (recalc_returns_date today med0 Hrec) as [date ->].
    rewrite dom_insert_L, Hdom. clear. unfold med_fields. set_solver.
  - intros k Hk. rewrite recalc_other_keys; [by apply Hnum|].
    intros ->. unfold numeric_fields in Hk.
    repeat (apply elem_of_cons in Hk as [[=]|Hk]). by apply elem_of_nil in Hk.
  - destruct (Hnum "doses_available") as [a Ha]; [unfold numeric_fields; repeat constructor|].
    destruct (Hnum "dose") as [d Hd]; [unfold numeric_fields; repeat constructor|].
    destruct (Hnum "doses_per_day") as [dpd Hdpd]; [unfold numeric_fields; repeat constructor|].
    exists a, d, dpd. rewrite !recalc_other_keys by done.
    revert Hrec.
    unfold _recalc_next_refill_for_entry, mbind, St_bind, med_get, lift, med_set, Py.get.
    rewrite Ha, Hd, Hdpd. simpl.
    destruct (Date.plus_days_ymd _ _) as [date|e]; [|done].
    intros _. exists date. split_and!; [done | done | done | done |].
    simpl. by rewrite lookup_insert_eq.
Qed.

(** A payload with strings for numbers, a field the data model does not
    have, and a [next_refill] of its own. *)
Lemma add_normalised_example :
  let med_data : dict :=
    list_to_map [("name", VStr "Aspirin"); ("dose", VStr " 2 ");
                 ("doses_available", VStr "9"); ("colour", VStr "red");
                 ("next_refill", VStr "never")] in
  let call : dict := {[ "med_data" := VDict med_data ]} in
  (add 739923 call init).2 = Ok () ∧
  ∃ med, meds (add 739923 call init).1 = [med] ∧
         med !! "colour" = None ∧
         (∃ z, med !! "dose" = Some (VInt z)) ∧
         (∃ date, med !! "next_refill" = Some (VStr date)).
Proof.
  intros med_data call.
  assert (Hok : (add 739923 call init).2 = Ok ()) by reflexivity.
  split; [exact Hok|].
  destruct (add_builds_a_normalised_record 739923 call init Hok)
    as (med & Hmeds & Hdom & Hnum & a & d & dpd & date & _ & _ & _ & _ & Hdate).
  exists med. split_and!.
  - exact Hmeds.
  - apply not_elem_of_dom. rewrite Hdom, elem_of_list_to_set. unfold med_fields.
    intros Hk. repeat (apply elem_of_cons in Hk as [[=]|Hk]). by apply elem_of_nil in Hk.
  - apply Hnum. unfold numeric_fields. repeat constructor.
  - by exists date.
Defined.

(** ** add_refill when the estimator raises *)

(** X19. [add_refill] is not atomic: on a record with integer inventory
    and refill count and with a coercible amount, when the estimator
    raises on the restocked record (a [dose] that [int] rejects, or a
    date past the calendar), the handler raises that exception after the
    inventory was raised and the refill used in memory; nothing is saved
    or signalled, and a repeated call restocks again. *)
Theorem add_refill_keeps_the_restock_when_the_estimator_raises
    (today : Z) (call : dict) (s : MedStore) (i : nat) (med : dict)
    (a r amount : Z) (e : exn) :
  Py.int (Py.get call "index" VNone) = Ok (Z.of_nat i) →
  meds s !! i = Some med →
  Py.int (Py.get call "amount" (VInt 0)) = Ok amount →
  Py.as_int (Py.get med "doses_available" (VInt 0)) = Some a →
  Py.as_int (Py.get med "refills_available" (VInt 0)) = Some r →
  (_recalc_next_refill_for_entry today (restocked med a r amount)).2 = Raise e →
  add_refill today call s
  = (with_meds (<[i := restocked med a r amount]> (meds s)) s, Raise e).
Proof.
  intros Hi Hmed Hamount Ha Hr Hraise.
  rewrite (add_refill_addressed today call s i med Hi Hmed).
  assert (Hentry : add_refill_entry today (Py.get call "amount" (VInt 0)) med
                   = _recalc_next_refill_for_entry today (restocked med a r amount)).
  { unfold add_refill_entry, restocked.
    unfold mbind, St_bind, med_get, lift, med_set, mret, St_ret.
    rewrite Hamount, (add_int_int _ _ _ Ha). cbv beta iota.
    rewrite get_insert_ne by done. rewrite (gt_int_int _ _ _ Hr). cbv beta iota.
    destruct (0 <? r) eqn:E; [|by destruct (_recalc_next_refill_for_entry _ _) as [? []]].
    cbv beta iota. rewrite get_insert_ne by done.
    rewrite (add_int_int _ _ _ Hr). cbv beta iota. rewrite max_int_int. cbv beta iota.
    apply Z.ltb_lt in E. replace (0 `max` (r + -1)) with (r - 1) by lia.
    by destruct (_recalc_next_refill_for_entry _ _) as [? []]. }
  rewrite Hentry.
  pose proof (recalc_raises_unchanged today _ e Hraise) as Hsame.
  destruct (_recalc_next_refill_for_entry today (restocked med a r amount))
    as [med' [[]|e']]; simpl in *; [done|]. by simplify_eq.
Qed.

(** A refill of the example record after its dose was made a word (as
    [update] allows): two calls, both raising, restock twice. *)
Lemma add_refill_restocks_twice_example :
  let bad := <["refills_available" := VInt 2]> (<["dose" := VStr "two"]> example_med) in
  let s := {| meds := [bad]; _med_entities := ∅; trace := [] |} in
  let call : dict := list_to_map [("index", VInt 0); ("amount", VInt 5)] in
  let r1 := add_refill 739923 call s in
  let r2 := add_refill 739923 call r1.1 in
  r1.2 = Raise ValueError ∧ r2.2 = Raise ValueError ∧ trace r2.1 = [] ∧
  meds r2.1 = [<["refills_available" := VInt 0]>
                 (<["doses_available" := VInt 13]> bad)].
Proof.
  intros bad s call r1 r2.
  assert (H1 : r1 = (with_meds [restocked bad 3 2 5] s, Raise ValueError)).
  { subst r1.
    by rewrite (add_refill_keeps_the_restock_when_the_estimator_raises
                  739923 call s 0 bad 3 2 5 ValueError). }
  subst r2. rewrite H1. split_and!; reflexivity.
Defined.

(** ** Records added after the setup *)

(** X20. A record added after the setup never gets an entity: on a
    store set up from an empty entity map, after an [add] that returns
    normally the entity map has no entry for the new record, and a
    resync does not create one either, since it only removes and
    renumbers. *)
Theorem added_record_gets_no_entity
    (DOMAIN : string) (today : Z) (call : dict) (s : MedStore) :
  _med_entities s = ∅ →
  let s1 := async_setup_platform DOMAIN s in
  (add today call s1).2 = Ok () →
  let s2 := (add today call s1).1 in
  let s3 := (_sync_med_entities DOMAIN s2).1 in
  length (meds s3) = S (length (meds s)) ∧
  _med_entities s2 !! length (meds s) = None ∧
  _med_entities s3 !! length (meds s) = None ∧
  ∀ j, (j < length (meds s))%nat →
       _med_entities s3 !! j = Some (MedStoreMedicationEntity DOMAIN j).
Proof.
  intros Hempty s1 Hok s2 s3. set (n := length (meds s)).
  assert (Hm : ∀ k, _med_entities s1 !! k
                    = if decide (k < n)%nat then Some (MedStoreMedicationEntity DOMAIN k)
                      else None).
  { intros k. subst s1. rewrite setup_lookup, Hempty. fold n.
    destruct (decide _); [done | apply lookup_empty]. }
  assert (Hs2 : _med_entities s2 = _med_entities s1 ∧ length (meds s2) = S n).
  { subst s2.
    destruct (add_cases today call s1) as [[e He]|[(med & e & He)|[med He]]];
      rewrite He in Hok |- *; try discriminate Hok.
    simpl. split; [done|]. rewrite length_app. simpl. subst n. lia. }
  destruct Hs2 as [Hents Hlen2].
  destruct (sync_spec DOMAIN s2)
    as (_ & Hmeds & kept & removed & _ & Hsorted & Hkept & Hlookup & _).
  rewrite Hlen2, Hents in Hkept.
  assert (Hseq : kept = seq 0 n).
  { apply ascending_prefix; [done|]. intros k. rewrite Hkept, Hm.
    destruct (decide (k < n)%nat); split.
    - by intros [_ ?].
    - intros ?. split; [by eexists | lia].
    - by intros [[? [=]] _].
    - intros ?. lia. }
  split_and!.
  - subst s3. by rewrite Hmeds.
  - rewrite Hents, Hm. by rewrite decide_False by lia.
  - subst s3. rewrite Hlookup, Hseq. by rewrite lookup_seq_ge by lia.
  - intros j Hj. subst s3. rewrite Hlookup, Hseq, Hents.
    rewrite lookup_seq_lt by done. simpl. rewrite Hm.
    by rewrite decide_True by lia.
Qed.

(** The example store, set up, and a record of defaults added. *)
Lemma added_record_example :
  let s1 := async_setup_platform "medstore" example_store in
  let s3 := (_sync_med_entities "medstore" (add 739923 ∅ s1).1).1 in
  (add 739923 ∅ s1).2 = Ok () ∧
  length (meds s3) = 2%nat ∧
  _med_entities s3 !! 1%nat = None ∧
  MedicationEntity.extra_state_attributes (MedStoreMedicationEntity "medstore" 1) s3
  = default_med 1 739923 ∪ {[ "index" := VInt 1 ]}.
Proof.
  intros s1 s3.
  assert (Hok : (add 739923 ∅ s1).2 = Ok ()) by reflexivity.
  destruct (added_record_gets_no_entity "medstore" 739923 ∅ example_store eq_refl Hok)
    as (Hlen & _ & Hnone & _).
  split_and!; [exact Hok | exact Hlen | exact Hnone | reflexivity].
Defined.

(** ** A dose index outside the timing list *)

(** X21. [take_dose] with a valid index and a [dose_index] that is not
    a position of the record's timing list returns normally and leaves
    the store exactly as it was: no counter is padded or incremented,
    the inventory is not decremented, nothing is saved or signalled, and
    no warning is logged. On a record whose timing list is empty no dose
    can be recorded at all. *)
Theorem take_dose_outside_the_timing_list_changes_nothing
    (today : Z) (call : dict) (s : MedStore) (i : nat) (med : dict)
    (t : list pyval) (d : Z) :
  Py.int (Py.get call "index" VNone) = Ok (Z.of_nat i) →
  Py.int (Py.get call "dose_index" VNone) = Ok d →
  meds s !! i = Some med →
  Py.get med "timing" (VList []) = VList t →
  (d < 0 ∨ Z.of_nat (length t) ≤ d) →
  take_dose today call s = (s, Ok ()).
Proof.
  intros Hi Hd Hmed Ht Hrange. unfold take_dose.
  rewrite (int_Ok_not_None _ _ Hi), (int_Ok_not_None _ _ Hd), Hi, Hd. simpl.
  unfold mbind at 1, St_bind, get_meds.
  rewrite (in_range_nat _ _ _ Hmed), Nat2Z.id.
  unfold mbind at 1, St_bind, on_med. rewrite Hmed.
  unfold take_dose_entry, mbind, St_bind, med_get, lift. rewrite Ht. simpl.
  destruct ((0 <=? d) && (d <? Z.of_nat (length t))) eqn:E.
  - apply andb_true_iff in E as [?%Z.leb_le ?%Z.ltb_lt]. lia.
  - simpl. by rewrite with_meds_insert_id.
Qed.

(** Slot 2 and slot -1 of the example record, which has two. *)
Lemma take_dose_outside_example :
  take_dose 739923 (list_to_map [("index", VInt 0); ("dose_index", VInt 2)])
    example_store = (example_store, Ok ()) ∧
  take_dose 739923 (list_to_map [("index", VInt 0); ("dose_index", VStr "-1")])
    example_store = (example_store, Ok ()).
Proof.
  split.
  - apply (take_dose_outside_the_timing_list_changes_nothing
             739923 _ example_store 0 example_med [VStr "08:00"; VStr "20:00"] 2);
      [reflexivity | reflexivity | reflexivity | reflexivity | right; simpl; lia].
  - apply (take_dose_outside_the_timing_list_changes_nothing
             739923 _ example_store 0 example_med [VStr "08:00"; VStr "20:00"] (-1));
      [reflexivity | reflexivity | reflexivity | reflexivity | left; lia].
Defined.
